(** * heliocron: solar event times, day length and the wait scheduler

    A shallow embedding of [src/calc.rs] (SolarCalculations), [src/domain.rs]
    (events, day parts, altitudes), [src/traits.rs] (Julian dates),
    [src/report.rs] (SolarReport), [src/enums.rs] (Event::new), [src/utils.rs]
    and [src/subcommands.rs] (wait).

    Modelling conventions.
    - An [f64] is modelled by a real number and the arithmetic of the source by
      real arithmetic.  The one place where the source inspects a non-numeric
      value (the [is_nan] test after [acos] in [hour_angle]) is modelled by an
      explicit [NaN] case.  One rounding is kept, where it decides the result:
      [to_radians] of +-90 degrees, which in f64 falls short of +-pi/2
      ([to_radians_f64]).
    - A Rust panic (an [unwrap]/[expect] failure or an invalid [NaiveTime]) is
      the outcome [Panic].
    - A chrono [NaiveDate] is a day number (days since 1970-01-01); a
      [NaiveTime] is a number of seconds since midnight (every time built here
      has zero nanoseconds, except in the report, whose times carry the
      nanoseconds of its date: [Report.DateTimeNanos]); a
      [DateTime<FixedOffset>] is its local naive date-time and its offset in
      seconds east of UTC.  As with f64, the representation limits of chrono
      (dates beyond year +-262143) are not modelled: date arithmetic is exact.
    - A [&str] is the list of its characters (Unicode scalar values); the
      Unicode properties Cased and Case_Ignorable, which only decide the final
      form of a capital sigma in [str::to_lowercase], are parameters. *)

From Stdlib Require Import Reals Psatz ZArith Lia String Ascii List Bool.
From Stdlib Require Import QArith Qreals.
Import ListNotations.

Open Scope R_scope.

(** ** Outcomes of Rust code that may panic *)

Inductive Outcome (A : Type) : Type :=
| Ret (a : A)
| Panic.
Arguments Ret {A} a.
Arguments Panic {A}.

Definition bind {A B} (m : Outcome A) (f : A -> Outcome B) : Outcome B :=
  match m with Ret a => f a | Panic => Panic end.

Notation "x <- m ;; f" := (bind m (fun x => f))
  (at level 61, m at next level, right associativity).

(** ** Calendar (chrono's proleptic Gregorian calendar) *)

Module Calendar.

(** Day number of a civil date (days since 1970-01-01). *)
Definition days_from_civil (y m d : Z) : Z :=
  let y' := (if (m <=? 2)%Z then y - 1 else y)%Z in
  let era := (y' / 400)%Z in
  let yoe := (y' - era * 400)%Z in
  let mp := (if (m >? 2)%Z then m - 3 else m + 9)%Z in
  let doy := ((153 * mp + 2) / 5 + d - 1)%Z in
  let doe := (yoe * 365 + yoe / 4 - yoe / 100 + doy)%Z in
  (era * 146097 + doe - 719468)%Z.

(** Civil date (year, month, day) of a day number. *)
Definition civil_from_days (z : Z) : Z * Z * Z :=
  let z' := (z + 719468)%Z in
  let era := (z' / 146097)%Z in
  let doe := (z' - era * 146097)%Z in
  let yoe := ((doe - doe / 1460 + doe / 36524 - doe / 146096) / 365)%Z in
  let doy := (doe - (365 * yoe + yoe / 4 - yoe / 100))%Z in
  let mp := ((5 * doy + 2) / 153)%Z in
  let d := (doy - (153 * mp + 2) / 5 + 1)%Z in
  let m := (if (mp <? 10)%Z then mp + 3 else mp - 9)%Z in
  ((if (m <=? 2)%Z then yoe + era * 400 + 1 else yoe + era * 400)%Z, m, d).

End Calendar.

(** ** chrono date-times *)

Record NaiveDateTime := mkNDT {
  ndt_day : Z;   (** the date, as a day number *)
  ndt_secs : Z   (** the time, in seconds since midnight, in [0, 86400) *)
}.

Record DateTime := mkDT {
  dt_local : NaiveDateTime;  (** [naive_local()] *)
  dt_offset : Z              (** [offset().local_minus_utc()], in seconds *)
}.

Definition ndt_total (n : NaiveDateTime) : Z := (ndt_day n * 86400 + ndt_secs n)%Z.

Definition ndt_of_total (t : Z) : NaiveDateTime := mkNDT (t / 86400) (t mod 86400).

(** [naive_utc()]. *)
Definition naive_utc (d : DateTime) : NaiveDateTime :=
  ndt_of_total (ndt_total (dt_local d) - dt_offset d).

(** The instant of a date-time, in seconds since the epoch (UTC). *)
Definition instant (d : DateTime) : Z := ndt_total (naive_utc d).

(** [NaiveDateTime + Duration::days(k)]. *)
Definition ndt_add_days (n : NaiveDateTime) (k : Z) : NaiveDateTime :=
  mkNDT (ndt_day n + k) (ndt_secs n).

(** [NaiveTime::from_hms(h, m, s)]: panics on an invalid time. *)
Definition naive_time_from_hms (h m s : Z) : Outcome Z :=
  if ((0 <=? h) && (h <? 24) && (0 <=? m) && (m <? 60) && (0 <=? s) && (s <? 60))%Z
  then Ret (h * 3600 + m * 60 + s)%Z else Panic.

(** [offset.from_local_date(&date).and_time(time).unwrap()]: a fixed offset
    maps every local date-time to exactly one date-time, so the [unwrap]
    succeeds. *)
Definition from_local_date_and_time (off : Z) (day : Z) (secs : Z) : DateTime :=
  mkDT (mkNDT day secs) off.

(** ** f64 operations over the reals *)

(** [f64::trunc]: rounding toward zero. *)
Definition trunc (x : R) : Z :=
  if Rle_dec 0 x then Int_part x else (- Int_part (- x))%Z.

(** [f64::fract]. *)
Definition fract (x : R) : R := x - IZR (trunc x).

(** [f64 as u32]: saturating cast (of an already truncated value). *)
Definition as_u32 (x : R) : Z :=
  let z := trunc x in
  if (z <? 0)%Z then 0%Z else if (4294967295 <? z)%Z then 4294967295%Z else z.

(** [f64 % f64]: the remainder has the sign of the dividend. *)
Definition fmod (x y : R) : R := x - y * IZR (trunc (x / y)).

Definition to_radians (x : R) : R := x * (PI / 180).
Definition to_degrees (x : R) : R := x * (180 / PI).

(** [f64::to_radians] of a latitude or a declination, where the result feeds a
    cosine that divides or a tangent.  [x.to_radians()] is [x * (PI / 180.0)]
    in f64 arithmetic, and [90.0_f64.to_radians()] is the double
    [884279719003555 / 2^49], which lies below the real PI / 2 (the double
    [consts::PI] lies below the real PI): its cosine is 6.1e-17, not 0, and its
    tangent 1.6e16, not a pole.  At +-90 the model takes that double, so that
    [cos] and [tan] there are the small and large numbers the f64 code divides
    by and multiplies with; elsewhere the rounding of [to_radians] is not
    modelled, as everywhere in this file. *)
Definition frac_pi_2_f64 : R := 884279719003555 / 562949953421312.

Definition to_radians_f64 (x : R) : R :=
  if Req_dec_T x 90 then frac_pi_2_f64
  else if Req_dec_T x (-90) then - frac_pi_2_f64
  else to_radians x.

(** An f64 that may be NaN, for the one computation whose NaN is inspected. *)
Inductive f64 := Num (r : R) | NaN.

(** [f64::acos]: NaN outside [-1, 1]. *)
Definition acos_f64 (x : R) : f64 :=
  if Rle_dec (-1) x then if Rle_dec x 1 then Num (acos x) else NaN else NaN.

Definition f64_to_degrees (x : f64) : f64 :=
  match x with Num r => Num (to_degrees r) | NaN => NaN end.

Definition is_nan (x : f64) : bool := match x with NaN => true | Num _ => false end.

(** ** Domain (src/domain.rs) *)

Record Coordinates := mkCoordinates {
  latitude : R;   (** [Latitude], in [-90, 90] *)
  longitude : R   (** [Longitude], in [-180, 180] *)
}.

Inductive Direction := Ascending | Descending.

Record FixedElevationEvent := mkFixed {
  degrees_below_horizon : R;  (** [Altitude], in [-90, 90] *)
  solar_direction : Direction
}.

Inductive VariableElevationEvent := SolarNoon.

Inductive Event :=
| Fixed (e : FixedElevationEvent)
| Variable' (e : VariableElevationEvent).

Inductive EventName :=
| Sunrise | Sunset | CivilDawn | CivilDusk | NauticalDawn | NauticalDusk
| AstronomicalDawn | AstronomicalDusk | CustomAM (alt : R) | CustomPM (alt : R)
| SolarNoonEvent.

Definition from_event_name (event : EventName) : Event :=
  match event with
  | Sunrise => Fixed (mkFixed 0.833 Ascending)
  | Sunset => Fixed (mkFixed 0.833 Descending)
  | CivilDawn => Fixed (mkFixed 6 Ascending)
  | CivilDusk => Fixed (mkFixed 6 Descending)
  | NauticalDawn => Fixed (mkFixed 12 Ascending)
  | NauticalDusk => Fixed (mkFixed 12 Descending)
  | AstronomicalDawn => Fixed (mkFixed 18 Ascending)
  | AstronomicalDusk => Fixed (mkFixed 18 Descending)
  | CustomAM alt => Fixed (mkFixed alt Ascending)
  | CustomPM alt => Fixed (mkFixed alt Descending)
  | SolarNoonEvent => Variable' SolarNoon
  end.

(** [EventTime(Option<DateTime<FixedOffset>>)]. *)
Definition EventTime := option DateTime.

(** ** src/traits.rs *)

(** [to_julian_date], as [SolarCalculations::new] applies it: to the UTC naive
    date-time, so that the date and the time of day are both read in UTC. *)
Definition to_julian_date (n : NaiveDateTime) : R :=
  let '(year, month, day) := Calendar.civil_from_days (ndt_day n) in
  let julian_day :=
    IZR (367 * year - Z.quot (7 * (year + Z.quot (month + 9) 12)) 4
         + Z.quot (275 * month) 9 + day + 1721014) in
  let hour := (ndt_secs n / 3600)%Z in
  let minute := ((ndt_secs n / 60) mod 60)%Z in
  let second := (ndt_secs n mod 60)%Z in
  let hour_part :=
    if (12 <=? hour)%Z then IZR (hour - 12) / 24 else IZR hour / 24 - 0.5 in
  let time_part := hour_part + IZR minute / 1440 + IZR second / 86400 in
  julian_day + time_part.

(** [NaiveTime::day_fraction]. *)
Definition day_fraction (secs : Z) : R := IZR secs / 86400.

(** ** src/calc.rs *)

Definition offset_to_decimal_float (off : Z) : R := IZR off / 3600.

Record SolarCalculations := mkSolarCalculations {
  date : DateTime;
  coordinates : Coordinates;
  solar_declination : R;
  solar_noon_fraction : R;
  corrected_solar_elevation_angle : R
}.

(** The atmospheric refraction correction, in arc seconds, of [new]. *)
Definition atmospheric_refraction_arcsec (solar_elevation_angle : R) : R :=
  if Rlt_dec 85 solar_elevation_angle then 0
  else if Rlt_dec 5 solar_elevation_angle then
    58.1 / tan (to_radians solar_elevation_angle)
    - 0.07 / (tan (to_radians solar_elevation_angle)) ^ 3
    + 0.000086 / (tan (to_radians solar_elevation_angle)) ^ 5
  else if Rlt_dec (-0.575) solar_elevation_angle then
    1735 + solar_elevation_angle
           * (103.4 + solar_elevation_angle * (-12.79 + solar_elevation_angle * 0.711))
  else -20.772 / tan (to_radians solar_elevation_angle).

Definition new (date : DateTime) (coordinates : Coordinates) : SolarCalculations :=
  let time_zone := offset_to_decimal_float (dt_offset date) in
  let julian_date := to_julian_date (naive_utc date) in
  let julian_century := (julian_date - 2451545) / 36525 in
  let geometric_solar_mean_longitude :=
    fmod (280.46646 + julian_century * (36000.76983 + julian_century * 0.0003032)) 360 in
  let solar_mean_anomaly :=
    357.52911 + julian_century * (35999.05029 - 0.0001537 * julian_century) in
  let eccent_earth_orbit :=
    0.016708634 - julian_century * (0.000042037 + 0.0000001267 * julian_century) in
  let equation_of_the_center :=
    sin (to_radians solar_mean_anomaly)
      * (1.914602 - julian_century * (0.004817 + 0.000014 * julian_century))
    + sin (to_radians (2 * solar_mean_anomaly)) * (0.019993 - 0.000101 * julian_century)
    + sin (to_radians (3 * solar_mean_anomaly)) * 0.000289 in
  let solar_true_longitude := geometric_solar_mean_longitude + equation_of_the_center in
  let solar_apparent_longitude :=
    solar_true_longitude - 0.00569
    - 0.00478 * sin (to_radians (125.04 - 1934.136 * julian_century)) in
  let mean_oblique_ecliptic :=
    23 + (26 + (21.448 - julian_century
                 * (46.815 + julian_century * (0.00059 - julian_century * 0.001813))) / 60)
         / 60 in
  let oblique_corrected :=
    mean_oblique_ecliptic + 0.00256 * cos (to_radians (125.04 - 1934.136 * julian_century)) in
  let solar_declination :=
    to_degrees (asin (sin (to_radians oblique_corrected)
                      * sin (to_radians solar_apparent_longitude))) in
  let var_y := (tan (to_radians (oblique_corrected / 2))) ^ 2 in
  let equation_of_time :=
    4 * to_degrees
          (var_y * sin (to_radians geometric_solar_mean_longitude * 2)
           - 2 * eccent_earth_orbit * sin (to_radians solar_mean_anomaly)
           + 4 * eccent_earth_orbit * var_y * sin (to_radians solar_mean_anomaly)
               * cos (to_radians geometric_solar_mean_longitude * 2)
           - 0.5 * var_y * var_y * sin (to_radians geometric_solar_mean_longitude * 4)
           - 1.25 * eccent_earth_orbit * eccent_earth_orbit
               * sin (to_radians solar_mean_anomaly * 2)) in
  let solar_noon_fraction :=
    (720 - 4 * longitude coordinates - equation_of_time + time_zone * 60) / 1440 in
  let true_solar_time :=
    fmod (day_fraction (ndt_secs (dt_local date)) * 1440 + equation_of_time
          + 4 * longitude coordinates - 60 * time_zone) 1440 in
  let true_hour_angle :=
    if Rlt_dec (true_solar_time / 4) 0 then true_solar_time / 4 + 180
    else true_solar_time / 4 - 180 in
  let solar_zenith_angle :=
    to_degrees (acos (sin (to_radians (latitude coordinates))
                      * sin (to_radians solar_declination)
                      + cos (to_radians (latitude coordinates))
                        * cos (to_radians solar_declination)
                        * cos (to_radians true_hour_angle))) in
  let solar_elevation_angle := 90 - solar_zenith_angle in
  let atmospheric_refraction := atmospheric_refraction_arcsec solar_elevation_angle / 3600 in
  let corrected_solar_elevation_angle := solar_elevation_angle + atmospheric_refraction in
  mkSolarCalculations date coordinates solar_declination solar_noon_fraction
    corrected_solar_elevation_angle.

Definition day_fraction_to_datetime (self : SolarCalculations) (day_fraction0 : R)
  : Outcome DateTime :=
  let date0 := dt_local (date self) in
  let '(date1, day_fraction1) :=
    if Rlt_dec day_fraction0 0 then (ndt_add_days date0 (-1), Rabs day_fraction0)
    else if Rle_dec 1 day_fraction0 then (ndt_add_days date0 1, day_fraction0 - 1)
    else (date0, day_fraction0) in
  let hour_fraction := day_fraction1 * 24 in
  let minute_fraction := fract hour_fraction * 60 in
  let second_fraction := fract minute_fraction * 60 in
  time <- naive_time_from_hms (as_u32 hour_fraction) (as_u32 minute_fraction)
                              (as_u32 second_fraction) ;;
  Ret (from_local_date_and_time (dt_offset (date self)) (ndt_day date1) time).

Definition solar_noon (self : SolarCalculations) : Outcome EventTime :=
  solar_noon <- day_fraction_to_datetime self (solar_noon_fraction self) ;;
  Ret (Some solar_noon).

Definition hour_angle (self : SolarCalculations) (degrees_below_horizon : R) : option R :=
  let event_angle := degrees_below_horizon + 90 in
  let hour_angle :=
    f64_to_degrees
      (acos_f64 (cos (to_radians event_angle)
                 / (cos (to_radians_f64 (latitude (coordinates self)))
                    * cos (to_radians_f64 (solar_declination self)))
                 - tan (to_radians_f64 (latitude (coordinates self)))
                   * tan (to_radians_f64 (solar_declination self)))) in
  match hour_angle with
  | NaN => None
  | Num h => Some h
  end.

Definition event_time (self : SolarCalculations) (event : Event) : Outcome EventTime :=
  match event with
  | Fixed event =>
      match hour_angle self (degrees_below_horizon event) with
      | Some hour_angle =>
          let day_fraction :=
            match solar_direction event with
            | Ascending => solar_noon_fraction self - hour_angle / 360
            | Descending => solar_noon_fraction self + hour_angle / 360
            end in
          event_time <- day_fraction_to_datetime self day_fraction ;;
          Ret (Some event_time)
      | None => Ret None
      end
  | Variable' SolarNoon => solar_noon self
  end.

(** [max_solar_elevation]; the [unwrap] of the solar-noon time panics on [None]. *)
Definition max_solar_elevation (self : SolarCalculations) : Outcome R :=
  noon <- solar_noon self ;;
  match noon with
  | Some d => Ret (corrected_solar_elevation_angle (new d (coordinates self)))
  | None => Panic
  end.

(** A chrono [Duration], in seconds (every date-time here has zero nanoseconds). *)
Definition Duration := Z.

Definition dt_sub (a b : DateTime) : Duration := (instant a - instant b)%Z.

Definition day_length (self : SolarCalculations) : Outcome Duration :=
  sunrise <- event_time self (from_event_name Sunrise) ;;
  sunset <- event_time self (from_event_name Sunset) ;;
  match sunrise, sunset with
  | Some sunrise, Some sunset => Ret (dt_sub sunset sunrise)
  | _, _ =>
      max_solar_elevation <- max_solar_elevation self ;;
      if Rle_dec 0.833 max_solar_elevation then Ret (24 * 3600)%Z else Ret 0%Z
  end.

(** The date-time conversion as the specification words it (a negative
    fraction is shifted by adding 1), to be compared with
    [day_fraction_to_datetime]. *)
Definition day_fraction_to_datetime_spec (self : SolarCalculations) (day_fraction0 : R)
  : Outcome DateTime :=
  let date0 := dt_local (date self) in
  let '(date1, day_fraction1) :=
    if Rlt_dec day_fraction0 0 then (ndt_add_days date0 (-1), day_fraction0 + 1)
    else if Rle_dec 1 day_fraction0 then (ndt_add_days date0 1, day_fraction0 - 1)
    else (date0, day_fraction0) in
  let hour_fraction := day_fraction1 * 24 in
  let minute_fraction := fract hour_fraction * 60 in
  let second_fraction := fract minute_fraction * 60 in
  time <- naive_time_from_hms (as_u32 hour_fraction) (as_u32 minute_fraction)
                              (as_u32 second_fraction) ;;
  Ret (from_local_date_and_time (dt_offset (date self)) (ndt_day date1) time).

(** ** Errors (src/errors.rs) *)

Inductive ConfigErrorKind :=
| InvalidCoordindates (msg : string)
| InvalidTomlFile
| ParseDate
| ParseAltitude
| ParseOffset
| InvalidEvent.

Inductive RuntimeErrorKind :=
| NonOccurringEvent
| PastEvent
| EventMissed (missed_by : Z).

Inductive HeliocronError :=
| Config (k : ConfigErrorKind)
| Runtime (k : RuntimeErrorKind).

Inductive result (A E : Type) : Type :=
| Ok (a : A)
| Err (e : E).
Arguments Ok {A E} a.
Arguments Err {A E} e.

(** ** Event::new (src/enums.rs) *)

Module Enums.

Inductive TimeOfDay := AM | PM.

Inductive Event :=
| Sunrise (degrees_below_horizon : R) (time_of_day : TimeOfDay)
| Sunset (degrees_below_horizon : R) (time_of_day : TimeOfDay)
| CivilDawn (degrees_below_horizon : R) (time_of_day : TimeOfDay)
| CivilDusk (degrees_below_horizon : R) (time_of_day : TimeOfDay)
| NauticalDawn (degrees_below_horizon : R) (time_of_day : TimeOfDay)
| NauticalDusk (degrees_below_horizon : R) (time_of_day : TimeOfDay)
| AstronomicalDawn (degrees_below_horizon : R) (time_of_day : TimeOfDay)
| AstronomicalDusk (degrees_below_horizon : R) (time_of_day : TimeOfDay)
| CustomAM (degrees_below_horizon : R) (time_of_day : TimeOfDay)
| CustomPM (degrees_below_horizon : R) (time_of_day : TimeOfDay)
| SolarNoon.

(** A [&str] as the sequence of its characters (Unicode scalar values).  UTF-8
    is one-to-one, so the byte comparisons of [match event.as_str()] are
    comparisons of these sequences. *)
Definition str := list Z.

Definition str_eq_dec : forall a b : str, {a = b} + {a <> b} := list_eq_dec Z.eq_dec.

(** The characters of an ASCII literal. *)
Definition lit (s : string) : str :=
  map (fun a => Z.of_nat (nat_of_ascii a)) (list_ascii_of_string s).

(** [char::is_whitespace]: [' '] and ['\x09'..='\x0d'], and above ['\x7f'] the
    White_Space property of Unicode: U+0085, U+00A0, U+1680, U+2000..U+200A,
    U+2028, U+2029, U+202F, U+205F and U+3000. *)
Definition is_whitespace (c : Z) : bool :=
  ((c =? 0x20) || ((0x9 <=? c) && (c <=? 0xD)) ||
   ((0x7F <? c) &&
    ((c =? 0x85) || (c =? 0xA0) || (c =? 0x1680) || ((0x2000 <=? c) && (c <=? 0x200A)) ||
     (c =? 0x2028) || (c =? 0x2029) || (c =? 0x202F) || (c =? 0x205F) || (c =? 0x3000))))%Z.

Fixpoint trim_start (s : str) : str :=
  match s with
  | [] => []
  | c :: s' => if is_whitespace c then trim_start s' else s
  end.

(** [str::trim], that is [trim_matches(char::is_whitespace)]. *)
Definition trim (s : str) : str := rev (trim_start (rev (trim_start s))).

(** [LOWERCASE_TABLE] of [core::unicode::conversions]: every non-ASCII
    character whose lowercase mapping is not itself, with that mapping, in
    code-point order, from the Unicode Character Database (version 14.0):
    the simple mappings of UnicodeData.txt and the unconditional ones of
    SpecialCasing.txt, of which U+0130 is the one with two characters. *)
Definition lowercase_table : list (Z * list Z) := ([
  (0xC0, [0xE0]); (0xC1, [0xE1]); (0xC2, [0xE2]); (0xC3, [0xE3]); (0xC4, [0xE4]);
  (0xC5, [0xE5]); (0xC6, [0xE6]); (0xC7, [0xE7]); (0xC8, [0xE8]); (0xC9, [0xE9]);
  (0xCA, [0xEA]); (0xCB, [0xEB]); (0xCC, [0xEC]); (0xCD, [0xED]); (0xCE, [0xEE]);
  (0xCF, [0xEF]); (0xD0, [0xF0]); (0xD1, [0xF1]); (0xD2, [0xF2]); (0xD3, [0xF3]);
  (0xD4, [0xF4]); (0xD5, [0xF5]); (0xD6, [0xF6]); (0xD8, [0xF8]); (0xD9, [0xF9]);
  (0xDA, [0xFA]); (0xDB, [0xFB]); (0xDC, [0xFC]); (0xDD, [0xFD]); (0xDE, [0xFE]);
  (0x100, [0x101]); (0x102, [0x103]); (0x104, [0x105]); (0x106, [0x107]);
  (0x108, [0x109]); (0x10A, [0x10B]); (0x10C, [0x10D]); (0x10E, [0x10F]);
  (0x110, [0x111]); (0x112, [0x113]); (0x114, [0x115]); (0x116, [0x117]);
  (0x118, [0x119]); (0x11A, [0x11B]); (0x11C, [0x11D]); (0x11E, [0x11F]);
  (0x120, [0x121]); (0x122, [0x123]); (0x124, [0x125]); (0x126, [0x127]);
  (0x128, [0x129]); (0x12A, [0x12B]); (0x12C, [0x12D]); (0x12E, [0x12F]);
  (0x130, [0x69; 0x307]); (0x132, [0x133]); (0x134, [0x135]); (0x136, [0x137]);
  (0x139, [0x13A]); (0x13B, [0x13C]); (0x13D, [0x13E]); (0x13F, [0x140]);
  (0x141, [0x142]); (0x143, [0x144]); (0x145, [0x146]); (0x147, [0x148]);
  (0x14A, [0x14B]); (0x14C, [0x14D]); (0x14E, [0x14F]); (0x150, [0x151]);
  (0x152, [0x153]); (0x154, [0x155]); (0x156, [0x157]); (0x158, [0x159]);
  (0x15A, [0x15B]); (0x15C, [0x15D]); (0x15E, [0x15F]); (0x160, [0x161]);
  (0x162, [0x163]); (0x164, [0x165]); (0x166, [0x167]); (0x168, [0x169]);
  (0x16A, [0x16B]); (0x16C, [0x16D]); (0x16E, [0x16F]); (0x170, [0x171]);
  (0x172, [0x173]); (0x174, [0x175]); (0x176, [0x177]); (0x178, [0xFF]);
  (0x179, [0x17A]); (0x17B, [0x17C]); (0x17D, [0x17E]); (0x181, [0x253]);
  (0x182, [0x183]); (0x184, [0x185]); (0x186, [0x254]); (0x187, [0x188]);
  (0x189, [0x256]); (0x18A, [0x257]); (0x18B, [0x18C]); (0x18E, [0x1DD]);
  (0x18F, [0x259]); (0x190, [0x25B]); (0x191, [0x192]); (0x193, [0x260]);
  (0x194, [0x263]); (0x196, [0x269]); (0x197, [0x268]); (0x198, [0x199]);
  (0x19C, [0x26F]); (0x19D, [0x272]); (0x19F, [0x275]); (0x1A0, [0x1A1]);
  (0x1A2, [0x1A3]); (0x1A4, [0x1A5]); (0x1A6, [0x280]); (0x1A7, [0x1A8]);
  (0x1A9, [0x283]); (0x1AC, [0x1AD]); (0x1AE, [0x288]); (0x1AF, [0x1B0]);
  (0x1B1, [0x28A]); (0x1B2, [0x28B]); (0x1B3, [0x1B4]); (0x1B5, [0x1B6]);
  (0x1B7, [0x292]); (0x1B8, [0x1B9]); (0x1BC, [0x1BD]); (0x1C4, [0x1C6]);
  (0x1C5, [0x1C6]); (0x1C7, [0x1C9]); (0x1C8, [0x1C9]); (0x1CA, [0x1CC]);
  (0x1CB, [0x1CC]); (0x1CD, [0x1CE]); (0x1CF, [0x1D0]); (0x1D1, [0x1D2]);
  (0x1D3, [0x1D4]); (0x1D5, [0x1D6]); (0x1D7, [0x1D8]); (0x1D9, [0x1DA]);
  (0x1DB, [0x1DC]); (0x1DE, [0x1DF]); (0x1E0, [0x1E1]); (0x1E2, [0x1E3]);
  (0x1E4, [0x1E5]); (0x1E6, [0x1E7]); (0x1E8, [0x1E9]); (0x1EA, [0x1EB]);
  (0x1EC, [0x1ED]); (0x1EE, [0x1EF]); (0x1F1, [0x1F3]); (0x1F2, [0x1F3]);
  (0x1F4, [0x1F5]); (0x1F6, [0x195]); (0x1F7, [0x1BF]); (0x1F8, [0x1F9]);
  (0x1FA, [0x1FB]); (0x1FC, [0x1FD]); (0x1FE, [0x1FF]); (0x200, [0x201]);
  (0x202, [0x203]); (0x204, [0x205]); (0x206, [0x207]); (0x208, [0x209]);
  (0x20A, [0x20B]); (0x20C, [0x20D]); (0x20E, [0x20F]); (0x210, [0x211]);
  (0x212, [0x213]); (0x214, [0x215]); (0x216, [0x217]); (0x218, [0x219]);
  (0x21A, [0x21B]); (0x21C, [0x21D]); (0x21E, [0x21F]); (0x220, [0x19E]);
  (0x222, [0x223]); (0x224, [0x225]); (0x226, [0x227]); (0x228, [0x229]);
  (0x22A, [0x22B]); (0x22C, [0x22D]); (0x22E, [0x22F]); (0x230, [0x231]);
  (0x232, [0x233]); (0x23A, [0x2C65]); (0x23B, [0x23C]); (0x23D, [0x19A]);
  (0x23E, [0x2C66]); (0x241, [0x242]); (0x243, [0x180]); (0x244, [0x289]);
  (0x245, [0x28C]); (0x246, [0x247]); (0x248, [0x249]); (0x24A, [0x24B]);
  (0x24C, [0x24D]); (0x24E, [0x24F]); (0x370, [0x371]); (0x372, [0x373]);
  (0x376, [0x377]); (0x37F, [0x3F3]); (0x386, [0x3AC]); (0x388, [0x3AD]);
  (0x389, [0x3AE]); (0x38A, [0x3AF]); (0x38C, [0x3CC]); (0x38E, [0x3CD]);
  (0x38F, [0x3CE]); (0x391, [0x3B1]); (0x392, [0x3B2]); (0x393, [0x3B3]);
  (0x394, [0x3B4]); (0x395, [0x3B5]); (0x396, [0x3B6]); (0x397, [0x3B7]);
  (0x398, [0x3B8]); (0x399, [0x3B9]); (0x39A, [0x3BA]); (0x39B, [0x3BB]);
  (0x39C, [0x3BC]); (0x39D, [0x3BD]); (0x39E, [0x3BE]); (0x39F, [0x3BF]);
  (0x3A0, [0x3C0]); (0x3A1, [0x3C1]); (0x3A3, [0x3C3]); (0x3A4, [0x3C4]);
  (0x3A5, [0x3C5]); (0x3A6, [0x3C6]); (0x3A7, [0x3C7]); (0x3A8, [0x3C8]);
  (0x3A9, [0x3C9]); (0x3AA, [0x3CA]); (0x3AB, [0x3CB]); (0x3CF, [0x3D7]);
  (0x3D8, [0x3D9]); (0x3DA, [0x3DB]); (0x3DC, [0x3DD]); (0x3DE, [0x3DF]);
  (0x3E0, [0x3E1]); (0x3E2, [0x3E3]); (0x3E4, [0x3E5]); (0x3E6, [0x3E7]);
  (0x3E8, [0x3E9]); (0x3EA, [0x3EB]); (0x3EC, [0x3ED]); (0x3EE, [0x3EF]);
  (0x3F4, [0x3B8]); (0x3F7, [0x3F8]); (0x3F9, [0x3F2]); (0x3FA, [0x3FB]);
  (0x3FD, [0x37B]); (0x3FE, [0x37C]); (0x3FF, [0x37D]); (0x400, [0x450]);
  (0x401, [0x451]); (0x402, [0x452]); (0x403, [0x453]); (0x404, [0x454]);
  (0x405, [0x455]); (0x406, [0x456]); (0x407, [0x457]); (0x408, [0x458]);
  (0x409, [0x459]); (0x40A, [0x45A]); (0x40B, [0x45B]); (0x40C, [0x45C]);
  (0x40D, [0x45D]); (0x40E, [0x45E]); (0x40F, [0x45F]); (0x410, [0x430]);
  (0x411, [0x431]); (0x412, [0x432]); (0x413, [0x433]); (0x414, [0x434]);
  (0x415, [0x435]); (0x416, [0x436]); (0x417, [0x437]); (0x418, [0x438]);
  (0x419, [0x439]); (0x41A, [0x43A]); (0x41B, [0x43B]); (0x41C, [0x43C]);
  (0x41D, [0x43D]); (0x41E, [0x43E]); (0x41F, [0x43F]); (0x420, [0x440]);
  (0x421, [0x441]); (0x422, [0x442]); (0x423, [0x443]); (0x424, [0x444]);
  (0x425, [0x445]); (0x426, [0x446]); (0x427, [0x447]); (0x428, [0x448]);
  (0x429, [0x449]); (0x42A, [0x44A]); (0x42B, [0x44B]); (0x42C, [0x44C]);
  (0x42D, [0x44D]); (0x42E, [0x44E]); (0x42F, [0x44F]); (0x460, [0x461]);
  (0x462, [0x463]); (0x464, [0x465]); (0x466, [0x467]); (0x468, [0x469]);
  (0x46A, [0x46B]); (0x46C, [0x46D]); (0x46E, [0x46F]); (0x470, [0x471]);
  (0x472, [0x473]); (0x474, [0x475]); (0x476, [0x477]); (0x478, [0x479]);
  (0x47A, [0x47B]); (0x47C, [0x47D]); (0x47E, [0x47F]); (0x480, [0x481]);
  (0x48A, [0x48B]); (0x48C, [0x48D]); (0x48E, [0x48F]); (0x490, [0x491]);
  (0x492, [0x493]); (0x494, [0x495]); (0x496, [0x497]); (0x498, [0x499]);
  (0x49A, [0x49B]); (0x49C, [0x49D]); (0x49E, [0x49F]); (0x4A0, [0x4A1]);
  (0x4A2, [0x4A3]); (0x4A4, [0x4A5]); (0x4A6, [0x4A7]); (0x4A8, [0x4A9]);
  (0x4AA, [0x4AB]); (0x4AC, [0x4AD]); (0x4AE, [0x4AF]); (0x4B0, [0x4B1]);
  (0x4B2, [0x4B3]); (0x4B4, [0x4B5]); (0x4B6, [0x4B7]); (0x4B8, [0x4B9]);
  (0x4BA, [0x4BB]); (0x4BC, [0x4BD]); (0x4BE, [0x4BF]); (0x4C0, [0x4CF]);
  (0x4C1, [0x4C2]); (0x4C3, [0x4C4]); (0x4C5, [0x4C6]); (0x4C7, [0x4C8]);
  (0x4C9, [0x4CA]); (0x4CB, [0x4CC]); (0x4CD, [0x4CE]); (0x4D0, [0x4D1]);
  (0x4D2, [0x4D3]); (0x4D4, [0x4D5]); (0x4D6, [0x4D7]); (0x4D8, [0x4D9]);
  (0x4DA, [0x4DB]); (0x4DC, [0x4DD]); (0x4DE, [0x4DF]); (0x4E0, [0x4E1]);
  (0x4E2, [0x4E3]); (0x4E4, [0x4E5]); (0x4E6, [0x4E7]); (0x4E8, [0x4E9]);
  (0x4EA, [0x4EB]); (0x4EC, [0x4ED]); (0x4EE, [0x4EF]); (0x4F0, [0x4F1]);
  (0x4F2, [0x4F3]); (0x4F4, [0x4F5]); (0x4F6, [0x4F7]); (0x4F8, [0x4F9]);
  (0x4FA, [0x4FB]); (0x4FC, [0x4FD]); (0x4FE, [0x4FF]); (0x500, [0x501]);
  (0x502, [0x503]); (0x504, [0x505]); (0x506, [0x507]); (0x508, [0x509]);
  (0x50A, [0x50B]); (0x50C, [0x50D]); (0x50E, [0x50F]); (0x510, [0x511]);
  (0x512, [0x513]); (0x514, [0x515]); (0x516, [0x517]); (0x518, [0x519]);
  (0x51A, [0x51B]); (0x51C, [0x51D]); (0x51E, [0x51F]); (0x520, [0x521]);
  (0x522, [0x523]); (0x524, [0x525]); (0x526, [0x527]); (0x528, [0x529]);
  (0x52A, [0x52B]); (0x52C, [0x52D]); (0x52E, [0x52F]); (0x531, [0x561]);
  (0x532, [0x562]); (0x533, [0x563]); (0x534, [0x564]); (0x535, [0x565]);
  (0x536, [0x566]); (0x537, [0x567]); (0x538, [0x568]); (0x539, [0x569]);
  (0x53A, [0x56A]); (0x53B, [0x56B]); (0x53C, [0x56C]); (0x53D, [0x56D]);
  (0x53E, [0x56E]); (0x53F, [0x56F]); (0x540, [0x570]); (0x541, [0x571]);
  (0x542, [0x572]); (0x543, [0x573]); (0x544, [0x574]); (0x545, [0x575]);
  (0x546, [0x576]); (0x547, [0x577]); (0x548, [0x578]); (0x549, [0x579]);
  (0x54A, [0x57A]); (0x54B, [0x57B]); (0x54C, [0x57C]); (0x54D, [0x57D]);
  (0x54E, [0x57E]); (0x54F, [0x57F]); (0x550, [0x580]); (0x551, [0x581]);
  (0x552, [0x582]); (0x553, [0x583]); (0x554, [0x584]); (0x555, [0x585]);
  (0x556, [0x586]); (0x10A0, [0x2D00]); (0x10A1, [0x2D01]); (0x10A2, [0x2D02]);
  (0x10A3, [0x2D03]); (0x10A4, [0x2D04]); (0x10A5, [0x2D05]); (0x10A6, [0x2D06]);
  (0x10A7, [0x2D07]); (0x10A8, [0x2D08]); (0x10A9, [0x2D09]); (0x10AA, [0x2D0A]);
  (0x10AB, [0x2D0B]); (0x10AC, [0x2D0C]); (0x10AD, [0x2D0D]); (0x10AE, [0x2D0E]);
  (0x10AF, [0x2D0F]); (0x10B0, [0x2D10]); (0x10B1, [0x2D11]); (0x10B2, [0x2D12]);
  (0x10B3, [0x2D13]); (0x10B4, [0x2D14]); (0x10B5, [0x2D15]); (0x10B6, [0x2D16]);
  (0x10B7, [0x2D17]); (0x10B8, [0x2D18]); (0x10B9, [0x2D19]); (0x10BA, [0x2D1A]);
  (0x10BB, [0x2D1B]); (0x10BC, [0x2D1C]); (0x10BD, [0x2D1D]); (0x10BE, [0x2D1E]);
  (0x10BF, [0x2D1F]); (0x10C0, [0x2D20]); (0x10C1, [0x2D21]); (0x10C2, [0x2D22]);
  (0x10C3, [0x2D23]); (0x10C4, [0x2D24]); (0x10C5, [0x2D25]); (0x10C7, [0x2D27]);
  (0x10CD, [0x2D2D]); (0x13A0, [0xAB70]); (0x13A1, [0xAB71]); (0x13A2, [0xAB72]);
  (0x13A3, [0xAB73]); (0x13A4, [0xAB74]); (0x13A5, [0xAB75]); (0x13A6, [0xAB76]);
  (0x13A7, [0xAB77]); (0x13A8, [0xAB78]); (0x13A9, [0xAB79]); (0x13AA, [0xAB7A]);
  (0x13AB, [0xAB7B]); (0x13AC, [0xAB7C]); (0x13AD, [0xAB7D]); (0x13AE, [0xAB7E]);
  (0x13AF, [0xAB7F]); (0x13B0, [0xAB80]); (0x13B1, [0xAB81]); (0x13B2, [0xAB82]);
  (0x13B3, [0xAB83]); (0x13B4, [0xAB84]); (0x13B5, [0xAB85]); (0x13B6, [0xAB86]);
  (0x13B7, [0xAB87]); (0x13B8, [0xAB88]); (0x13B9, [0xAB89]); (0x13BA, [0xAB8A]);
  (0x13BB, [0xAB8B]); (0x13BC, [0xAB8C]); (0x13BD, [0xAB8D]); (0x13BE, [0xAB8E]);
  (0x13BF, [0xAB8F]); (0x13C0, [0xAB90]); (0x13C1, [0xAB91]); (0x13C2, [0xAB92]);
  (0x13C3, [0xAB93]); (0x13C4, [0xAB94]); (0x13C5, [0xAB95]); (0x13C6, [0xAB96]);
  (0x13C7, [0xAB97]); (0x13C8, [0xAB98]); (0x13C9, [0xAB99]); (0x13CA, [0xAB9A]);
  (0x13CB, [0xAB9B]); (0x13CC, [0xAB9C]); (0x13CD, [0xAB9D]); (0x13CE, [0xAB9E]);
  (0x13CF, [0xAB9F]); (0x13D0, [0xABA0]); (0x13D1, [0xABA1]); (0x13D2, [0xABA2]);
  (0x13D3, [0xABA3]); (0x13D4, [0xABA4]); (0x13D5, [0xABA5]); (0x13D6, [0xABA6]);
  (0x13D7, [0xABA7]); (0x13D8, [0xABA8]); (0x13D9, [0xABA9]); (0x13DA, [0xABAA]);
  (0x13DB, [0xABAB]); (0x13DC, [0xABAC]); (0x13DD, [0xABAD]); (0x13DE, [0xABAE]);
  (0x13DF, [0xABAF]); (0x13E0, [0xABB0]); (0x13E1, [0xABB1]); (0x13E2, [0xABB2]);
  (0x13E3, [0xABB3]); (0x13E4, [0xABB4]); (0x13E5, [0xABB5]); (0x13E6, [0xABB6]);
  (0x13E7, [0xABB7]); (0x13E8, [0xABB8]); (0x13E9, [0xABB9]); (0x13EA, [0xABBA]);
  (0x13EB, [0xABBB]); (0x13EC, [0xABBC]); (0x13ED, [0xABBD]); (0x13EE, [0xABBE]);
  (0x13EF, [0xABBF]); (0x13F0, [0x13F8]); (0x13F1, [0x13F9]); (0x13F2, [0x13FA]);
  (0x13F3, [0x13FB]); (0x13F4, [0x13FC]); (0x13F5, [0x13FD]); (0x1C90, [0x10D0]);
  (0x1C91, [0x10D1]); (0x1C92, [0x10D2]); (0x1C93, [0x10D3]); (0x1C94, [0x10D4]);
  (0x1C95, [0x10D5]); (0x1C96, [0x10D6]); (0x1C97, [0x10D7]); (0x1C98, [0x10D8]);
  (0x1C99, [0x10D9]); (0x1C9A, [0x10DA]); (0x1C9B, [0x10DB]); (0x1C9C, [0x10DC]);
  (0x1C9D, [0x10DD]); (0x1C9E, [0x10DE]); (0x1C9F, [0x10DF]); (0x1CA0, [0x10E0]);
  (0x1CA1, [0x10E1]); (0x1CA2, [0x10E2]); (0x1CA3, [0x10E3]); (0x1CA4, [0x10E4]);
  (0x1CA5, [0x10E5]); (0x1CA6, [0x10E6]); (0x1CA7, [0x10E7]); (0x1CA8, [0x10E8]);
  (0x1CA9, [0x10E9]); (0x1CAA, [0x10EA]); (0x1CAB, [0x10EB]); (0x1CAC, [0x10EC]);
  (0x1CAD, [0x10ED]); (0x1CAE, [0x10EE]); (0x1CAF, [0x10EF]); (0x1CB0, [0x10F0]);
  (0x1CB1, [0x10F1]); (0x1CB2, [0x10F2]); (0x1CB3, [0x10F3]); (0x1CB4, [0x10F4]);
  (0x1CB5, [0x10F5]); (0x1CB6, [0x10F6]); (0x1CB7, [0x10F7]); (0x1CB8, [0x10F8]);
  (0x1CB9, [0x10F9]); (0x1CBA, [0x10FA]); (0x1CBD, [0x10FD]); (0x1CBE, [0x10FE]);
  (0x1CBF, [0x10FF]); (0x1E00, [0x1E01]); (0x1E02, [0x1E03]); (0x1E04, [0x1E05]);
  (0x1E06, [0x1E07]); (0x1E08, [0x1E09]); (0x1E0A, [0x1E0B]); (0x1E0C, [0x1E0D]);
  (0x1E0E, [0x1E0F]); (0x1E10, [0x1E11]); (0x1E12, [0x1E13]); (0x1E14, [0x1E15]);
  (0x1E16, [0x1E17]); (0x1E18, [0x1E19]); (0x1E1A, [0x1E1B]); (0x1E1C, [0x1E1D]);
  (0x1E1E, [0x1E1F]); (0x1E20, [0x1E21]); (0x1E22, [0x1E23]); (0x1E24, [0x1E25]);
  (0x1E26, [0x1E27]); (0x1E28, [0x1E29]); (0x1E2A, [0x1E2B]); (0x1E2C, [0x1E2D]);
  (0x1E2E, [0x1E2F]); (0x1E30, [0x1E31]); (0x1E32, [0x1E33]); (0x1E34, [0x1E35]);
  (0x1E36, [0x1E37]); (0x1E38, [0x1E39]); (0x1E3A, [0x1E3B]); (0x1E3C, [0x1E3D]);
  (0x1E3E, [0x1E3F]); (0x1E40, [0x1E41]); (0x1E42, [0x1E43]); (0x1E44, [0x1E45]);
  (0x1E46, [0x1E47]); (0x1E48, [0x1E49]); (0x1E4A, [0x1E4B]); (0x1E4C, [0x1E4D]);
  (0x1E4E, [0x1E4F]); (0x1E50, [0x1E51]); (0x1E52, [0x1E53]); (0x1E54, [0x1E55]);
  (0x1E56, [0x1E57]); (0x1E58, [0x1E59]); (0x1E5A, [0x1E5B]); (0x1E5C, [0x1E5D]);
  (0x1E5E, [0x1E5F]); (0x1E60, [0x1E61]); (0x1E62, [0x1E63]); (0x1E64, [0x1E65]);
  (0x1E66, [0x1E67]); (0x1E68, [0x1E69]); (0x1E6A, [0x1E6B]); (0x1E6C, [0x1E6D]);
  (0x1E6E, [0x1E6F]); (0x1E70, [0x1E71]); (0x1E72, [0x1E73]); (0x1E74, [0x1E75]);
  (0x1E76, [0x1E77]); (0x1E78, [0x1E79]); (0x1E7A, [0x1E7B]); (0x1E7C, [0x1E7D]);
  (0x1E7E, [0x1E7F]); (0x1E80, [0x1E81]); (0x1E82, [0x1E83]); (0x1E84, [0x1E85]);
  (0x1E86, [0x1E87]); (0x1E88, [0x1E89]); (0x1E8A, [0x1E8B]); (0x1E8C, [0x1E8D]);
  (0x1E8E, [0x1E8F]); (0x1E90, [0x1E91]); (0x1E92, [0x1E93]); (0x1E94, [0x1E95]);
  (0x1E9E, [0xDF]); (0x1EA0, [0x1EA1]); (0x1EA2, [0x1EA3]); (0x1EA4, [0x1EA5]);
  (0x1EA6, [0x1EA7]); (0x1EA8, [0x1EA9]); (0x1EAA, [0x1EAB]); (0x1EAC, [0x1EAD]);
  (0x1EAE, [0x1EAF]); (0x1EB0, [0x1EB1]); (0x1EB2, [0x1EB3]); (0x1EB4, [0x1EB5]);
  (0x1EB6, [0x1EB7]); (0x1EB8, [0x1EB9]); (0x1EBA, [0x1EBB]); (0x1EBC, [0x1EBD]);
  (0x1EBE, [0x1EBF]); (0x1EC0, [0x1EC1]); (0x1EC2, [0x1EC3]); (0x1EC4, [0x1EC5]);
  (0x1EC6, [0x1EC7]); (0x1EC8, [0x1EC9]); (0x1ECA, [0x1ECB]); (0x1ECC, [0x1ECD]);
  (0x1ECE, [0x1ECF]); (0x1ED0, [0x1ED1]); (0x1ED2, [0x1ED3]); (0x1ED4, [0x1ED5]);
  (0x1ED6, [0x1ED7]); (0x1ED8, [0x1ED9]); (0x1EDA, [0x1EDB]); (0x1EDC, [0x1EDD]);
  (0x1EDE, [0x1EDF]); (0x1EE0, [0x1EE1]); (0x1EE2, [0x1EE3]); (0x1EE4, [0x1EE5]);
  (0x1EE6, [0x1EE7]); (0x1EE8, [0x1EE9]); (0x1EEA, [0x1EEB]); (0x1EEC, [0x1EED]);
  (0x1EEE, [0x1EEF]); (0x1EF0, [0x1EF1]); (0x1EF2, [0x1EF3]); (0x1EF4, [0x1EF5]);
  (0x1EF6, [0x1EF7]); (0x1EF8, [0x1EF9]); (0x1EFA, [0x1EFB]); (0x1EFC, [0x1EFD]);
  (0x1EFE, [0x1EFF]); (0x1F08, [0x1F00]); (0x1F09, [0x1F01]); (0x1F0A, [0x1F02]);
  (0x1F0B, [0x1F03]); (0x1F0C, [0x1F04]); (0x1F0D, [0x1F05]); (0x1F0E, [0x1F06]);
  (0x1F0F, [0x1F07]); (0x1F18, [0x1F10]); (0x1F19, [0x1F11]); (0x1F1A, [0x1F12]);
  (0x1F1B, [0x1F13]); (0x1F1C, [0x1F14]); (0x1F1D, [0x1F15]); (0x1F28, [0x1F20]);
  (0x1F29, [0x1F21]); (0x1F2A, [0x1F22]); (0x1F2B, [0x1F23]); (0x1F2C, [0x1F24]);
  (0x1F2D, [0x1F25]); (0x1F2E, [0x1F26]); (0x1F2F, [0x1F27]); (0x1F38, [0x1F30]);
  (0x1F39, [0x1F31]); (0x1F3A, [0x1F32]); (0x1F3B, [0x1F33]); (0x1F3C, [0x1F34]);
  (0x1F3D, [0x1F35]); (0x1F3E, [0x1F36]); (0x1F3F, [0x1F37]); (0x1F48, [0x1F40]);
  (0x1F49, [0x1F41]); (0x1F4A, [0x1F42]); (0x1F4B, [0x1F43]); (0x1F4C, [0x1F44]);
  (0x1F4D, [0x1F45]); (0x1F59, [0x1F51]); (0x1F5B, [0x1F53]); (0x1F5D, [0x1F55]);
  (0x1F5F, [0x1F57]); (0x1F68, [0x1F60]); (0x1F69, [0x1F61]); (0x1F6A, [0x1F62]);
  (0x1F6B, [0x1F63]); (0x1F6C, [0x1F64]); (0x1F6D, [0x1F65]); (0x1F6E, [0x1F66]);
  (0x1F6F, [0x1F67]); (0x1F88, [0x1F80]); (0x1F89, [0x1F81]); (0x1F8A, [0x1F82]);
  (0x1F8B, [0x1F83]); (0x1F8C, [0x1F84]); (0x1F8D, [0x1F85]); (0x1F8E, [0x1F86]);
  (0x1F8F, [0x1F87]); (0x1F98, [0x1F90]); (0x1F99, [0x1F91]); (0x1F9A, [0x1F92]);
  (0x1F9B, [0x1F93]); (0x1F9C, [0x1F94]); (0x1F9D, [0x1F95]); (0x1F9E, [0x1F96]);
  (0x1F9F, [0x1F97]); (0x1FA8, [0x1FA0]); (0x1FA9, [0x1FA1]); (0x1FAA, [0x1FA2]);
  (0x1FAB, [0x1FA3]); (0x1FAC, [0x1FA4]); (0x1FAD, [0x1FA5]); (0x1FAE, [0x1FA6]);
  (0x1FAF, [0x1FA7]); (0x1FB8, [0x1FB0]); (0x1FB9, [0x1FB1]); (0x1FBA, [0x1F70]);
  (0x1FBB, [0x1F71]); (0x1FBC, [0x1FB3]); (0x1FC8, [0x1F72]); (0x1FC9, [0x1F73]);
  (0x1FCA, [0x1F74]); (0x1FCB, [0x1F75]); (0x1FCC, [0x1FC3]); (0x1FD8, [0x1FD0]);
  (0x1FD9, [0x1FD1]); (0x1FDA, [0x1F76]); (0x1FDB, [0x1F77]); (0x1FE8, [0x1FE0]);
  (0x1FE9, [0x1FE1]); (0x1FEA, [0x1F7A]); (0x1FEB, [0x1F7B]); (0x1FEC, [0x1FE5]);
  (0x1FF8, [0x1F78]); (0x1FF9, [0x1F79]); (0x1FFA, [0x1F7C]); (0x1FFB, [0x1F7D]);
  (0x1FFC, [0x1FF3]); (0x2126, [0x3C9]); (0x212A, [0x6B]); (0x212B, [0xE5]);
  (0x2132, [0x214E]); (0x2160, [0x2170]); (0x2161, [0x2171]); (0x2162, [0x2172]);
  (0x2163, [0x2173]); (0x2164, [0x2174]); (0x2165, [0x2175]); (0x2166, [0x2176]);
  (0x2167, [0x2177]); (0x2168, [0x2178]); (0x2169, [0x2179]); (0x216A, [0x217A]);
  (0x216B, [0x217B]); (0x216C, [0x217C]); (0x216D, [0x217D]); (0x216E, [0x217E]);
  (0x216F, [0x217F]); (0x2183, [0x2184]); (0x24B6, [0x24D0]); (0x24B7, [0x24D1]);
  (0x24B8, [0x24D2]); (0x24B9, [0x24D3]); (0x24BA, [0x24D4]); (0x24BB, [0x24D5]);
  (0x24BC, [0x24D6]); (0x24BD, [0x24D7]); (0x24BE, [0x24D8]); (0x24BF, [0x24D9]);
  (0x24C0, [0x24DA]); (0x24C1, [0x24DB]); (0x24C2, [0x24DC]); (0x24C3, [0x24DD]);
  (0x24C4, [0x24DE]); (0x24C5, [0x24DF]); (0x24C6, [0x24E0]); (0x24C7, [0x24E1]);
  (0x24C8, [0x24E2]); (0x24C9, [0x24E3]); (0x24CA, [0x24E4]); (0x24CB, [0x24E5]);
  (0x24CC, [0x24E6]); (0x24CD, [0x24E7]); (0x24CE, [0x24E8]); (0x24CF, [0x24E9]);
  (0x2C00, [0x2C30]); (0x2C01, [0x2C31]); (0x2C02, [0x2C32]); (0x2C03, [0x2C33]);
  (0x2C04, [0x2C34]); (0x2C05, [0x2C35]); (0x2C06, [0x2C36]); (0x2C07, [0x2C37]);
  (0x2C08, [0x2C38]); (0x2C09, [0x2C39]); (0x2C0A, [0x2C3A]); (0x2C0B, [0x2C3B]);
  (0x2C0C, [0x2C3C]); (0x2C0D, [0x2C3D]); (0x2C0E, [0x2C3E]); (0x2C0F, [0x2C3F]);
  (0x2C10, [0x2C40]); (0x2C11, [0x2C41]); (0x2C12, [0x2C42]); (0x2C13, [0x2C43]);
  (0x2C14, [0x2C44]); (0x2C15, [0x2C45]); (0x2C16, [0x2C46]); (0x2C17, [0x2C47]);
  (0x2C18, [0x2C48]); (0x2C19, [0x2C49]); (0x2C1A, [0x2C4A]); (0x2C1B, [0x2C4B]);
  (0x2C1C, [0x2C4C]); (0x2C1D, [0x2C4D]); (0x2C1E, [0x2C4E]); (0x2C1F, [0x2C4F]);
  (0x2C20, [0x2C50]); (0x2C21, [0x2C51]); (0x2C22, [0x2C52]); (0x2C23, [0x2C53]);
  (0x2C24, [0x2C54]); (0x2C25, [0x2C55]); (0x2C26, [0x2C56]); (0x2C27, [0x2C57]);
  (0x2C28, [0x2C58]); (0x2C29, [0x2C59]); (0x2C2A, [0x2C5A]); (0x2C2B, [0x2C5B]);
  (0x2C2C, [0x2C5C]); (0x2C2D, [0x2C5D]); (0x2C2E, [0x2C5E]); (0x2C2F, [0x2C5F]);
  (0x2C60, [0x2C61]); (0x2C62, [0x26B]); (0x2C63, [0x1D7D]); (0x2C64, [0x27D]);
  (0x2C67, [0x2C68]); (0x2C69, [0x2C6A]); (0x2C6B, [0x2C6C]); (0x2C6D, [0x251]);
  (0x2C6E, [0x271]); (0x2C6F, [0x250]); (0x2C70, [0x252]); (0x2C72, [0x2C73]);
  (0x2C75, [0x2C76]); (0x2C7E, [0x23F]); (0x2C7F, [0x240]); (0x2C80, [0x2C81]);
  (0x2C82, [0x2C83]); (0x2C84, [0x2C85]); (0x2C86, [0x2C87]); (0x2C88, [0x2C89]);
  (0x2C8A, [0x2C8B]); (0x2C8C, [0x2C8D]); (0x2C8E, [0x2C8F]); (0x2C90, [0x2C91]);
  (0x2C92, [0x2C93]); (0x2C94, [0x2C95]); (0x2C96, [0x2C97]); (0x2C98, [0x2C99]);
  (0x2C9A, [0x2C9B]); (0x2C9C, [0x2C9D]); (0x2C9E, [0x2C9F]); (0x2CA0, [0x2CA1]);
  (0x2CA2, [0x2CA3]); (0x2CA4, [0x2CA5]); (0x2CA6, [0x2CA7]); (0x2CA8, [0x2CA9]);
  (0x2CAA, [0x2CAB]); (0x2CAC, [0x2CAD]); (0x2CAE, [0x2CAF]); (0x2CB0, [0x2CB1]);
  (0x2CB2, [0x2CB3]); (0x2CB4, [0x2CB5]); (0x2CB6, [0x2CB7]); (0x2CB8, [0x2CB9]);
  (0x2CBA, [0x2CBB]); (0x2CBC, [0x2CBD]); (0x2CBE, [0x2CBF]); (0x2CC0, [0x2CC1]);
  (0x2CC2, [0x2CC3]); (0x2CC4, [0x2CC5]); (0x2CC6, [0x2CC7]); (0x2CC8, [0x2CC9]);
  (0x2CCA, [0x2CCB]); (0x2CCC, [0x2CCD]); (0x2CCE, [0x2CCF]); (0x2CD0, [0x2CD1]);
  (0x2CD2, [0x2CD3]); (0x2CD4, [0x2CD5]); (0x2CD6, [0x2CD7]); (0x2CD8, [0x2CD9]);
  (0x2CDA, [0x2CDB]); (0x2CDC, [0x2CDD]); (0x2CDE, [0x2CDF]); (0x2CE0, [0x2CE1]);
  (0x2CE2, [0x2CE3]); (0x2CEB, [0x2CEC]); (0x2CED, [0x2CEE]); (0x2CF2, [0x2CF3]);
  (0xA640, [0xA641]); (0xA642, [0xA643]); (0xA644, [0xA645]); (0xA646, [0xA647]);
  (0xA648, [0xA649]); (0xA64A, [0xA64B]); (0xA64C, [0xA64D]); (0xA64E, [0xA64F]);
  (0xA650, [0xA651]); (0xA652, [0xA653]); (0xA654, [0xA655]); (0xA656, [0xA657]);
  (0xA658, [0xA659]); (0xA65A, [0xA65B]); (0xA65C, [0xA65D]); (0xA65E, [0xA65F]);
  (0xA660, [0xA661]); (0xA662, [0xA663]); (0xA664, [0xA665]); (0xA666, [0xA667]);
  (0xA668, [0xA669]); (0xA66A, [0xA66B]); (0xA66C, [0xA66D]); (0xA680, [0xA681]);
  (0xA682, [0xA683]); (0xA684, [0xA685]); (0xA686, [0xA687]); (0xA688, [0xA689]);
  (0xA68A, [0xA68B]); (0xA68C, [0xA68D]); (0xA68E, [0xA68F]); (0xA690, [0xA691]);
  (0xA692, [0xA693]); (0xA694, [0xA695]); (0xA696, [0xA697]); (0xA698, [0xA699]);
  (0xA69A, [0xA69B]); (0xA722, [0xA723]); (0xA724, [0xA725]); (0xA726, [0xA727]);
  (0xA728, [0xA729]); (0xA72A, [0xA72B]); (0xA72C, [0xA72D]); (0xA72E, [0xA72F]);
  (0xA732, [0xA733]); (0xA734, [0xA735]); (0xA736, [0xA737]); (0xA738, [0xA739]);
  (0xA73A, [0xA73B]); (0xA73C, [0xA73D]); (0xA73E, [0xA73F]); (0xA740, [0xA741]);
  (0xA742, [0xA743]); (0xA744, [0xA745]); (0xA746, [0xA747]); (0xA748, [0xA749]);
  (0xA74A, [0xA74B]); (0xA74C, [0xA74D]); (0xA74E, [0xA74F]); (0xA750, [0xA751]);
  (0xA752, [0xA753]); (0xA754, [0xA755]); (0xA756, [0xA757]); (0xA758, [0xA759]);
  (0xA75A, [0xA75B]); (0xA75C, [0xA75D]); (0xA75E, [0xA75F]); (0xA760, [0xA761]);
  (0xA762, [0xA763]); (0xA764, [0xA765]); (0xA766, [0xA767]); (0xA768, [0xA769]);
  (0xA76A, [0xA76B]); (0xA76C, [0xA76D]); (0xA76E, [0xA76F]); (0xA779, [0xA77A]);
  (0xA77B, [0xA77C]); (0xA77D, [0x1D79]); (0xA77E, [0xA77F]); (0xA780, [0xA781]);
  (0xA782, [0xA783]); (0xA784, [0xA785]); (0xA786, [0xA787]); (0xA78B, [0xA78C]);
  (0xA78D, [0x265]); (0xA790, [0xA791]); (0xA792, [0xA793]); (0xA796, [0xA797]);
  (0xA798, [0xA799]); (0xA79A, [0xA79B]); (0xA79C, [0xA79D]); (0xA79E, [0xA79F]);
  (0xA7A0, [0xA7A1]); (0xA7A2, [0xA7A3]); (0xA7A4, [0xA7A5]); (0xA7A6, [0xA7A7]);
  (0xA7A8, [0xA7A9]); (0xA7AA, [0x266]); (0xA7AB, [0x25C]); (0xA7AC, [0x261]);
  (0xA7AD, [0x26C]); (0xA7AE, [0x26A]); (0xA7B0, [0x29E]); (0xA7B1, [0x287]);
  (0xA7B2, [0x29D]); (0xA7B3, [0xAB53]); (0xA7B4, [0xA7B5]); (0xA7B6, [0xA7B7]);
  (0xA7B8, [0xA7B9]); (0xA7BA, [0xA7BB]); (0xA7BC, [0xA7BD]); (0xA7BE, [0xA7BF]);
  (0xA7C0, [0xA7C1]); (0xA7C2, [0xA7C3]); (0xA7C4, [0xA794]); (0xA7C5, [0x282]);
  (0xA7C6, [0x1D8E]); (0xA7C7, [0xA7C8]); (0xA7C9, [0xA7CA]); (0xA7D0, [0xA7D1]);
  (0xA7D6, [0xA7D7]); (0xA7D8, [0xA7D9]); (0xA7F5, [0xA7F6]); (0xFF21, [0xFF41]);
  (0xFF22, [0xFF42]); (0xFF23, [0xFF43]); (0xFF24, [0xFF44]); (0xFF25, [0xFF45]);
  (0xFF26, [0xFF46]); (0xFF27, [0xFF47]); (0xFF28, [0xFF48]); (0xFF29, [0xFF49]);
  (0xFF2A, [0xFF4A]); (0xFF2B, [0xFF4B]); (0xFF2C, [0xFF4C]); (0xFF2D, [0xFF4D]);
  (0xFF2E, [0xFF4E]); (0xFF2F, [0xFF4F]); (0xFF30, [0xFF50]); (0xFF31, [0xFF51]);
  (0xFF32, [0xFF52]); (0xFF33, [0xFF53]); (0xFF34, [0xFF54]); (0xFF35, [0xFF55]);
  (0xFF36, [0xFF56]); (0xFF37, [0xFF57]); (0xFF38, [0xFF58]); (0xFF39, [0xFF59]);
  (0xFF3A, [0xFF5A]); (0x10400, [0x10428]); (0x10401, [0x10429]);
  (0x10402, [0x1042A]); (0x10403, [0x1042B]); (0x10404, [0x1042C]);
  (0x10405, [0x1042D]); (0x10406, [0x1042E]); (0x10407, [0x1042F]);
  (0x10408, [0x10430]); (0x10409, [0x10431]); (0x1040A, [0x10432]);
  (0x1040B, [0x10433]); (0x1040C, [0x10434]); (0x1040D, [0x10435]);
  (0x1040E, [0x10436]); (0x1040F, [0x10437]); (0x10410, [0x10438]);
  (0x10411, [0x10439]); (0x10412, [0x1043A]); (0x10413, [0x1043B]);
  (0x10414, [0x1043C]); (0x10415, [0x1043D]); (0x10416, [0x1043E]);
  (0x10417, [0x1043F]); (0x10418, [0x10440]); (0x10419, [0x10441]);
  (0x1041A, [0x10442]); (0x1041B, [0x10443]); (0x1041C, [0x10444]);
  (0x1041D, [0x10445]); (0x1041E, [0x10446]); (0x1041F, [0x10447]);
  (0x10420, [0x10448]); (0x10421, [0x10449]); (0x10422, [0x1044A]);
  (0x10423, [0x1044B]); (0x10424, [0x1044C]); (0x10425, [0x1044D]);
  (0x10426, [0x1044E]); (0x10427, [0x1044F]); (0x104B0, [0x104D8]);
  (0x104B1, [0x104D9]); (0x104B2, [0x104DA]); (0x104B3, [0x104DB]);
  (0x104B4, [0x104DC]); (0x104B5, [0x104DD]); (0x104B6, [0x104DE]);
  (0x104B7, [0x104DF]); (0x104B8, [0x104E0]); (0x104B9, [0x104E1]);
  (0x104BA, [0x104E2]); (0x104BB, [0x104E3]); (0x104BC, [0x104E4]);
  (0x104BD, [0x104E5]); (0x104BE, [0x104E6]); (0x104BF, [0x104E7]);
  (0x104C0, [0x104E8]); (0x104C1, [0x104E9]); (0x104C2, [0x104EA]);
  (0x104C3, [0x104EB]); (0x104C4, [0x104EC]); (0x104C5, [0x104ED]);
  (0x104C6, [0x104EE]); (0x104C7, [0x104EF]); (0x104C8, [0x104F0]);
  (0x104C9, [0x104F1]); (0x104CA, [0x104F2]); (0x104CB, [0x104F3]);
  (0x104CC, [0x104F4]); (0x104CD, [0x104F5]); (0x104CE, [0x104F6]);
  (0x104CF, [0x104F7]); (0x104D0, [0x104F8]); (0x104D1, [0x104F9]);
  (0x104D2, [0x104FA]); (0x104D3, [0x104FB]); (0x10570, [0x10597]);
  (0x10571, [0x10598]); (0x10572, [0x10599]); (0x10573, [0x1059A]);
  (0x10574, [0x1059B]); (0x10575, [0x1059C]); (0x10576, [0x1059D]);
  (0x10577, [0x1059E]); (0x10578, [0x1059F]); (0x10579, [0x105A0]);
  (0x1057A, [0x105A1]); (0x1057C, [0x105A3]); (0x1057D, [0x105A4]);
  (0x1057E, [0x105A5]); (0x1057F, [0x105A6]); (0x10580, [0x105A7]);
  (0x10581, [0x105A8]); (0x10582, [0x105A9]); (0x10583, [0x105AA]);
  (0x10584, [0x105AB]); (0x10585, [0x105AC]); (0x10586, [0x105AD]);
  (0x10587, [0x105AE]); (0x10588, [0x105AF]); (0x10589, [0x105B0]);
  (0x1058A, [0x105B1]); (0x1058C, [0x105B3]); (0x1058D, [0x105B4]);
  (0x1058E, [0x105B5]); (0x1058F, [0x105B6]); (0x10590, [0x105B7]);
  (0x10591, [0x105B8]); (0x10592, [0x105B9]); (0x10594, [0x105BB]);
  (0x10595, [0x105BC]); (0x10C80, [0x10CC0]); (0x10C81, [0x10CC1]);
  (0x10C82, [0x10CC2]); (0x10C83, [0x10CC3]); (0x10C84, [0x10CC4]);
  (0x10C85, [0x10CC5]); (0x10C86, [0x10CC6]); (0x10C87, [0x10CC7]);
  (0x10C88, [0x10CC8]); (0x10C89, [0x10CC9]); (0x10C8A, [0x10CCA]);
  (0x10C8B, [0x10CCB]); (0x10C8C, [0x10CCC]); (0x10C8D, [0x10CCD]);
  (0x10C8E, [0x10CCE]); (0x10C8F, [0x10CCF]); (0x10C90, [0x10CD0]);
  (0x10C91, [0x10CD1]); (0x10C92, [0x10CD2]); (0x10C93, [0x10CD3]);
  (0x10C94, [0x10CD4]); (0x10C95, [0x10CD5]); (0x10C96, [0x10CD6]);
  (0x10C97, [0x10CD7]); (0x10C98, [0x10CD8]); (0x10C99, [0x10CD9]);
  (0x10C9A, [0x10CDA]); (0x10C9B, [0x10CDB]); (0x10C9C, [0x10CDC]);
  (0x10C9D, [0x10CDD]); (0x10C9E, [0x10CDE]); (0x10C9F, [0x10CDF]);
  (0x10CA0, [0x10CE0]); (0x10CA1, [0x10CE1]); (0x10CA2, [0x10CE2]);
  (0x10CA3, [0x10CE3]); (0x10CA4, [0x10CE4]); (0x10CA5, [0x10CE5]);
  (0x10CA6, [0x10CE6]); (0x10CA7, [0x10CE7]); (0x10CA8, [0x10CE8]);
  (0x10CA9, [0x10CE9]); (0x10CAA, [0x10CEA]); (0x10CAB, [0x10CEB]);
  (0x10CAC, [0x10CEC]); (0x10CAD, [0x10CED]); (0x10CAE, [0x10CEE]);
  (0x10CAF, [0x10CEF]); (0x10CB0, [0x10CF0]); (0x10CB1, [0x10CF1]);
  (0x10CB2, [0x10CF2]); (0x118A0, [0x118C0]); (0x118A1, [0x118C1]);
  (0x118A2, [0x118C2]); (0x118A3, [0x118C3]); (0x118A4, [0x118C4]);
  (0x118A5, [0x118C5]); (0x118A6, [0x118C6]); (0x118A7, [0x118C7]);
  (0x118A8, [0x118C8]); (0x118A9, [0x118C9]); (0x118AA, [0x118CA]);
  (0x118AB, [0x118CB]); (0x118AC, [0x118CC]); (0x118AD, [0x118CD]);
  (0x118AE, [0x118CE]); (0x118AF, [0x118CF]); (0x118B0, [0x118D0]);
  (0x118B1, [0x118D1]); (0x118B2, [0x118D2]); (0x118B3, [0x118D3]);
  (0x118B4, [0x118D4]); (0x118B5, [0x118D5]); (0x118B6, [0x118D6]);
  (0x118B7, [0x118D7]); (0x118B8, [0x118D8]); (0x118B9, [0x118D9]);
  (0x118BA, [0x118DA]); (0x118BB, [0x118DB]); (0x118BC, [0x118DC]);
  (0x118BD, [0x118DD]); (0x118BE, [0x118DE]); (0x118BF, [0x118DF]);
  (0x16E40, [0x16E60]); (0x16E41, [0x16E61]); (0x16E42, [0x16E62]);
  (0x16E43, [0x16E63]); (0x16E44, [0x16E64]); (0x16E45, [0x16E65]);
  (0x16E46, [0x16E66]); (0x16E47, [0x16E67]); (0x16E48, [0x16E68]);
  (0x16E49, [0x16E69]); (0x16E4A, [0x16E6A]); (0x16E4B, [0x16E6B]);
  (0x16E4C, [0x16E6C]); (0x16E4D, [0x16E6D]); (0x16E4E, [0x16E6E]);
  (0x16E4F, [0x16E6F]); (0x16E50, [0x16E70]); (0x16E51, [0x16E71]);
  (0x16E52, [0x16E72]); (0x16E53, [0x16E73]); (0x16E54, [0x16E74]);
  (0x16E55, [0x16E75]); (0x16E56, [0x16E76]); (0x16E57, [0x16E77]);
  (0x16E58, [0x16E78]); (0x16E59, [0x16E79]); (0x16E5A, [0x16E7A]);
  (0x16E5B, [0x16E7B]); (0x16E5C, [0x16E7C]); (0x16E5D, [0x16E7D]);
  (0x16E5E, [0x16E7E]); (0x16E5F, [0x16E7F]); (0x1E900, [0x1E922]);
  (0x1E901, [0x1E923]); (0x1E902, [0x1E924]); (0x1E903, [0x1E925]);
  (0x1E904, [0x1E926]); (0x1E905, [0x1E927]); (0x1E906, [0x1E928]);
  (0x1E907, [0x1E929]); (0x1E908, [0x1E92A]); (0x1E909, [0x1E92B]);
  (0x1E90A, [0x1E92C]); (0x1E90B, [0x1E92D]); (0x1E90C, [0x1E92E]);
  (0x1E90D, [0x1E92F]); (0x1E90E, [0x1E930]); (0x1E90F, [0x1E931]);
  (0x1E910, [0x1E932]); (0x1E911, [0x1E933]); (0x1E912, [0x1E934]);
  (0x1E913, [0x1E935]); (0x1E914, [0x1E936]); (0x1E915, [0x1E937]);
  (0x1E916, [0x1E938]); (0x1E917, [0x1E939]); (0x1E918, [0x1E93A]);
  (0x1E919, [0x1E93B]); (0x1E91A, [0x1E93C]); (0x1E91B, [0x1E93D]);
  (0x1E91C, [0x1E93E]); (0x1E91D, [0x1E93F]); (0x1E91E, [0x1E940]);
  (0x1E91F, [0x1E941]); (0x1E920, [0x1E942]); (0x1E921, [0x1E943])
])%Z.

(** The entry of [c] in the table ([binary_search_by] on the sorted keys). *)
Fixpoint table_lookup (c : Z) (t : list (Z * list Z)) : option (list Z) :=
  match t with
  | [] => None
  | (k, v) :: t' => if (k =? c)%Z then Some v else table_lookup c t'
  end.

(** [conversions::to_lower], the characters of [char::to_lowercase]: an ASCII
    character by [to_ascii_lowercase], another by the table, itself when it
    has no entry. *)
Definition char_to_lower (c : Z) : list Z :=
  if (c <? 128)%Z then [if ((65 <=? c) && (c <=? 90))%Z then (c + 32)%Z else c]
  else match table_lookup c lowercase_table with Some l => l | None => [c] end.

Section Lowercase.

(** The Unicode properties Cased and Case_Ignorable ([core::unicode::Cased],
    [core::unicode::Case_Ignorable]).  They only decide whether a capital sigma
    ends a word; their tables are not embedded, and what is proved below holds
    whatever they are, or assumes only what is stated of them. *)
Variables Cased Case_Ignorable : Z -> bool.

(** [case_ignorable_then_cased]: skip the case-ignorable characters, then ask
    whether the next one is cased. *)
Fixpoint case_ignorable_then_cased (iter : list Z) : bool :=
  match iter with
  | [] => false
  | c :: iter' => if Case_Ignorable c then case_ignorable_then_cased iter' else Cased c
  end.

(** [map_uppercase_sigma]: the lowercase of a capital sigma (U+03A3) between
    the characters [before] and [after] it: final sigma (U+03C2) at the end of
    a word, sigma (U+03C3) elsewhere. *)
Definition map_uppercase_sigma (before after : list Z) : Z :=
  let is_word_final :=
    case_ignorable_then_cased (rev before) && negb (case_ignorable_then_cased after) in
  if is_word_final then 0x3C2%Z else 0x3C3%Z.

(** [str::to_lowercase] of [s], [before] being the characters before it. *)
Fixpoint to_lowercase_from (before s : str) : str :=
  match s with
  | [] => []
  | c :: s' =>
      (if (c =? 0x3A3)%Z then [map_uppercase_sigma before s'] else char_to_lower c)
      ++ to_lowercase_from (before ++ [c]) s'
  end.

(** [str::to_lowercase]. *)
Definition to_lowercase (s : str) : str := to_lowercase_from [] s.

(** [Event::new]; [custom_altitude.unwrap()] panics on [None]. *)
Definition new (event : str) (custom_altitude : option R)
  : Outcome (result Event HeliocronError) :=
  let event := to_lowercase (trim event) in
  if str_eq_dec event (lit "sunrise") then Ret (Ok (Sunrise 0.833 AM))
  else if str_eq_dec event (lit "sunset") then Ret (Ok (Sunset 0.833 PM))
  else if str_eq_dec event (lit "civil_dawn") then Ret (Ok (CivilDawn 6 AM))
  else if str_eq_dec event (lit "civil_dusk") then Ret (Ok (CivilDusk 6 PM))
  else if str_eq_dec event (lit "nautical_dawn") then Ret (Ok (NauticalDawn 12 AM))
  else if str_eq_dec event (lit "nautical_dusk") then Ret (Ok (NauticalDusk 12 PM))
  else if str_eq_dec event (lit "astronomical_dawn") then Ret (Ok (AstronomicalDawn 18 AM))
  else if str_eq_dec event (lit "astronomical_dusk") then Ret (Ok (AstronomicalDusk 18 PM))
  else if str_eq_dec event (lit "custom_am") then
    match custom_altitude with Some a => Ret (Ok (CustomAM a AM)) | None => Panic end
  else if str_eq_dec event (lit "custom_pm") then
    match custom_altitude with Some a => Ret (Ok (CustomPM a PM)) | None => Panic end
  else if str_eq_dec event (lit "solar_noon") then Ret (Ok SolarNoon)
  else Ret (Err (Config InvalidEvent)).

End Lowercase.

(** The fixed vocabulary of event names. *)
Definition vocabulary : list str :=
  [lit "sunrise"; lit "sunset"; lit "civil_dawn"; lit "civil_dusk"; lit "nautical_dawn";
   lit "nautical_dusk"; lit "astronomical_dawn"; lit "astronomical_dusk"; lit "custom_am";
   lit "custom_pm"; lit "solar_noon"].

Definition is_custom (name : str) : bool :=
  if str_eq_dec name (lit "custom_am") then true
  else if str_eq_dec name (lit "custom_pm") then true else false.

End Enums.

(** ** The wait scheduler (src/utils.rs, src/subcommands.rs) *)

Module Wait.

(** Instants and chrono [Duration]s in nanoseconds; clock readings are inputs. *)
Definition ns_per_s : Z := 1000000000.

(** The observable effects of a wait: suspensions until an absolute instant. *)
Inductive effect := SleepUntil (t : Z).

(** [Duration::num_seconds]: whole seconds, truncated toward zero. *)
Definition num_seconds (d : Z) : Z := Z.quot d ns_per_s.

(** [utils::wait]: [now] is [Local::now()] at the start; [sleep_result] is the
    result of [tokio_walltime::sleep_until(wait_until)]. *)
Definition utils_wait (now wait_until : Z) (sleep_result : result unit HeliocronError)
  : list effect * result unit HeliocronError :=
  let duration_to_wait := (wait_until - now)%Z in
  (* [to_std()] fails on a negative duration *)
  if (duration_to_wait <? 0)%Z then ([], Err (Runtime PastEvent))
  else ([SleepUntil wait_until], sleep_result).

(** [subcommands::wait]: [event_time] is the resolved event, [offset] the
    signed offset, [now_after] is [Utc::now()] once the suspension has
    returned. *)
Definition wait (event_time : EventTime) (offset : Z) (run_missed_task : bool)
  (now now_after : Z) (sleep_result : result unit HeliocronError)
  : list effect * result unit HeliocronError :=
  match event_time with
  | Some datetime =>
      let wait_until := (instant datetime * ns_per_s + offset)%Z in
      let '(effects, r) := utils_wait now wait_until sleep_result in
      match r with
      | Err e => (effects, Err e)
      | Ok _ =>
          if run_missed_task then (effects, Ok tt)
          else
            let missed_by := num_seconds (now_after - wait_until) in
            if (30 <? missed_by)%Z then (effects, Err (Runtime (EventMissed missed_by)))
            else (effects, Ok tt)
      end
  | None => ([], Err (Runtime NonOccurringEvent))
  end.

End Wait.

(** ** The Julian date of a [DateTime<FixedOffset>] (src/traits.rs) *)

(** [DateTimeExt::to_julian_date] on a [DateTime<FixedOffset>] (src/traits.rs), as
    [SolarReport::run] applies it: the date is the local one, the time of day
    the UTC one. *)
Definition to_julian_date_dt (d : DateTime) : R :=
  let '(year, month, day) := Calendar.civil_from_days (ndt_day (dt_local d)) in
  let julian_day :=
    IZR (367 * year - Z.quot (7 * (year + Z.quot (month + 9) 12)) 4
         + Z.quot (275 * month) 9 + day + 1721014) in
  let utc_datetime := naive_utc d in
  let hour := (ndt_secs utc_datetime / 3600)%Z in
  let minute := ((ndt_secs utc_datetime / 60) mod 60)%Z in
  let second := (ndt_secs utc_datetime mod 60)%Z in
  let hour_part :=
    if (12 <=? hour)%Z then IZR (hour - 12) / 24 else IZR hour / 24 - 0.5 in
  let time_part := hour_part + IZR minute / 1440 + IZR second / 86400 in
  julian_day + time_part.

(** ** DayPart (src/domain.rs) *)

Inductive DayPart := Day | CivilTwilight | NauticalTwilight | AstronomicalTwilight | Night.

Definition from_elevation_angle (angle : R) : DayPart :=
  if Rlt_dec angle (-18) then Night
  else if Rlt_dec angle (-12) then AstronomicalTwilight
  else if Rlt_dec angle (-6) then NauticalTwilight
  else if Rlt_dec angle 0.833 then CivilTwilight
  else Day.

(** The parts of the day from the darkest to the brightest. *)
Definition day_part_rank (p : DayPart) : nat :=
  match p with
  | Night => 0 | AstronomicalTwilight => 1 | NauticalTwilight => 2
  | CivilTwilight => 3 | Day => 4
  end.

(** ** Altitude (src/domain.rs) *)

(** The error of [Altitude::new]: the message formats the rejected value. *)
Inductive AltitudeError := OutOfRange (alt : R).

(** [Altitude::new]: [(-90.0..=90.0).contains(&alt)]. *)
Definition altitude_new (alt : R) : result R AltitudeError :=
  if Rle_dec (-90) alt then if Rle_dec alt 90 then Ok alt else Err (OutOfRange alt)
  else Err (OutOfRange alt).

(** [impl From<f64> for Altitude]: [Self::new(alt).unwrap()]. *)
Definition altitude_from (alt : R) : Outcome R :=
  match altitude_new alt with Ok a => Ret a | Err _ => Panic end.

(** [Event::from_event_name] with its [.into()] conversions. *)
Definition from_event_name_checked (event : EventName) : Outcome Event :=
  match event with
  | Sunrise => a <- altitude_from 0.833 ;; Ret (Fixed (mkFixed a Ascending))
  | Sunset => a <- altitude_from 0.833 ;; Ret (Fixed (mkFixed a Descending))
  | CivilDawn => a <- altitude_from 6 ;; Ret (Fixed (mkFixed a Ascending))
  | CivilDusk => a <- altitude_from 6 ;; Ret (Fixed (mkFixed a Descending))
  | NauticalDawn => a <- altitude_from 12 ;; Ret (Fixed (mkFixed a Ascending))
  | NauticalDusk => a <- altitude_from 12 ;; Ret (Fixed (mkFixed a Descending))
  | AstronomicalDawn => a <- altitude_from 18 ;; Ret (Fixed (mkFixed a Ascending))
  | AstronomicalDusk => a <- altitude_from 18 ;; Ret (Fixed (mkFixed a Descending))
  | CustomAM alt => Ret (Fixed (mkFixed alt Ascending))
  | CustomPM alt => Ret (Fixed (mkFixed alt Descending))
  | SolarNoonEvent => Ret (Variable' SolarNoon)
  end.

(** ** The solar report (src/report.rs) *)

Module Report.

(** [enums::TwilightType], with the three variants that [calculate_hour_angle]
    matches. *)
Inductive TwilightType := Civil | Nautical | Astronomical.

(** A [DateTime<FixedOffset>] of the report with its sub-second part: the
    date-time to the second ([DateTime] above) and the nanoseconds of its time
    of day.  The report's date comes from the caller (the command line or
    [Local::now()]) and may have a non-zero sub-second part; [with_hour],
    [with_minute], [with_second] and the addition of whole days keep it. *)
Record DateTimeNanos := mkDTN {
  dtn_dt : DateTime;
  dtn_nanos : Z
}.

(** [SolarReport]; its [structs::Coordinates] are read only through their
    latitude and longitude values, as in [calc.rs]. *)
Record SolarReport := mkSolarReport {
  date : DateTimeNanos;
  coordinates : Coordinates;
  solar_noon : DateTimeNanos;
  day_length : Duration;
  sunrise : option DateTimeNanos;
  sunset : option DateTimeNanos;
  civil_dawn : option DateTimeNanos;
  civil_dusk : option DateTimeNanos;
  nautical_dawn : option DateTimeNanos;
  nautical_dusk : option DateTimeNanos;
  astronomical_dawn : option DateTimeNanos;
  astronomical_dusk : option DateTimeNanos
}.

(** [DateTime<FixedOffset> + Duration::days(k)]: a fixed offset keeps the local
    time of day, nanoseconds included. *)
Definition dt_add_days (d : DateTimeNanos) (k : Z) : DateTimeNanos :=
  mkDTN (mkDT (ndt_add_days (dt_local (dtn_dt d)) k) (dt_offset (dtn_dt d))) (dtn_nanos d).

(** [DateTime::with_hour], [with_minute], [with_second] followed by [unwrap]:
    a panic for an out-of-range component; the other components and the
    nanoseconds are kept. *)
Definition with_hour (d : DateTimeNanos) (hour : Z) : Outcome DateTimeNanos :=
  let l := dt_local (dtn_dt d) in
  if (hour <? 24)%Z then
    Ret (mkDTN (mkDT (mkNDT (ndt_day l) (hour * 3600 + ndt_secs l mod 3600))
                     (dt_offset (dtn_dt d)))
               (dtn_nanos d))
  else Panic.

Definition with_minute (d : DateTimeNanos) (min : Z) : Outcome DateTimeNanos :=
  let l := dt_local (dtn_dt d) in
  if (min <? 60)%Z then
    Ret (mkDTN (mkDT (mkNDT (ndt_day l) (ndt_secs l / 3600 * 3600 + min * 60 + ndt_secs l mod 60))
                     (dt_offset (dtn_dt d)))
               (dtn_nanos d))
  else Panic.

Definition with_second (d : DateTimeNanos) (sec : Z) : Outcome DateTimeNanos :=
  let l := dt_local (dtn_dt d) in
  if (sec <? 60)%Z then
    Ret (mkDTN (mkDT (mkNDT (ndt_day l) (ndt_secs l / 60 * 60 + sec)) (dt_offset (dtn_dt d)))
               (dtn_nanos d))
  else Panic.

(** [NaiveTime::hour], [minute], [second] of a time in seconds since midnight. *)
Definition time_hour (t : Z) : Z := (t / 3600)%Z.
Definition time_minute (t : Z) : Z := ((t / 60) mod 60)%Z.
Definition time_second (t : Z) : Z := (t mod 60)%Z.

(** [SolarReport::day_fraction_to_datetime]; its [println!]s are not modelled. *)
Definition day_fraction_to_datetime (self : SolarReport) (day_fraction0 : R)
  : Outcome DateTimeNanos :=
  let date0 := date self in
  let '(date1, day_fraction1) :=
    if Rlt_dec day_fraction0 0 then (dt_add_days date0 (-1), Rabs day_fraction0)
    else if Rle_dec 1 day_fraction0 then (dt_add_days date0 1, day_fraction0 - 1)
    else (date0, day_fraction0) in
  let hour_fraction := day_fraction1 * 24 in
  let minute_fraction := fract hour_fraction * 60 in
  let second_fraction := fract minute_fraction * 60 in
  time <- naive_time_from_hms (as_u32 hour_fraction) (as_u32 minute_fraction)
                              (as_u32 second_fraction) ;;
  d1 <- with_hour date1 (time_hour time) ;;
  d2 <- with_minute d1 (time_minute time) ;;
  with_second d2 (time_second time).

Definition calculate_hour_angle (self : SolarReport) (event : option TwilightType)
  (solar_declination : R) : f64 :=
  let event_angle :=
    match event with
    | None => 90.833
    | Some Civil => 96
    | Some Nautical => 102
    | Some Astronomical => 108
    end in
  f64_to_degrees
    (acos_f64 (cos (to_radians event_angle)
               / (cos (to_radians_f64 (latitude (coordinates self)))
                  * cos (to_radians_f64 solar_declination))
               - tan (to_radians_f64 (latitude (coordinates self)))
                 * tan (to_radians_f64 solar_declination))).

Definition calculate_event_start_and_end (self : SolarReport)
  (twilight_type : option TwilightType) (solar_noon : R) (solar_declination : R)
  : Outcome (option DateTimeNanos * option DateTimeNanos) :=
  let hour_angle := calculate_hour_angle self twilight_type solar_declination in
  if is_nan hour_angle then Ret (None, None)
  else
    let h := match hour_angle with Num h => h | NaN => 0 end in
    let start_fraction := solar_noon - (h * 4) / 1440 in
    let end_fraction := solar_noon + (h * 4) / 1440 in
    start_time <- day_fraction_to_datetime self start_fraction ;;
    end_time <- day_fraction_to_datetime self end_fraction ;;
    Ret (Some start_time, Some end_time).

(** The decimal digits of a non-negative integer (an [i64] has at most 19). *)
Definition digit_char (n : Z) : ascii := ascii_of_nat (48 + Z.to_nat n).

Fixpoint decimal_digits (fuel : nat) (n : Z) (acc : string) : string :=
  match fuel with
  | O => acc
  | S fuel' =>
      let acc' := String (digit_char (n mod 10)) acc in
      if (n <? 10)%Z then acc' else decimal_digits fuel' (n / 10) acc'
  end.

Definition decimal (n : Z) : string := decimal_digits 20 n EmptyString.

(** [format!("{:02}", z)] of an [i64]: the sign counts toward the width. *)
Definition fmt02 (z : Z) : string :=
  if (z <? 0)%Z then ("-" ++ decimal (- z))%string
  else let s := decimal z in
       if (String.length s <? 2)%nat then ("0" ++ s)%string else s.

Definition day_length_hms (self : SolarReport) : string :=
  let day_length := day_length self in
  let hours := Z.quot (Z.quot day_length 60) 60 in
  let minutes := Z.rem (Z.quot day_length 60) 60 in
  let seconds := Z.rem day_length 60 in
  (fmt02 hours ++ ":" ++ fmt02 minutes ++ ":" ++ fmt02 seconds)%string.

End Report.

(** * Proofs *)

(** ** Truncation toward zero *)

Lemma Int_part_unique (x : R) (z : Z) : IZR z <= x < IZR z + 1 -> Int_part x = z.
Proof.
  intros [H1 H2]. unfold Int_part.
  rewrite <- (tech_up x (z + 1)); [ring | rewrite plus_IZR; lra | rewrite plus_IZR; lra].
Qed.

Lemma trunc_nonneg (x : R) :
  0 <= x -> IZR (trunc x) <= x < IZR (trunc x) + 1 /\ (0 <= trunc x)%Z.
Proof.
  intros Hx. unfold trunc. destruct (Rle_dec 0 x) as [_ | n]; [| lra].
  destruct (base_Int_part x) as [H1 H2]. split; [lra |].
  assert (-1 < IZR (Int_part x)) by lra.
  apply lt_IZR in H. lia.
Qed.

Lemma trunc_of_bounds (x : R) (z : Z) : 0 <= x -> IZR z <= x < IZR z + 1 -> trunc x = z.
Proof.
  intros Hx Hz. unfold trunc. destruct (Rle_dec 0 x); [| lra]. now apply Int_part_unique.
Qed.

Lemma as_u32_of_bounds (x : R) (z : Z) :
  0 <= x -> IZR z <= x < IZR z + 1 -> (z <= 4294967295)%Z -> as_u32 x = z.
Proof.
  intros Hx Hz Hmax. unfold as_u32. rewrite (trunc_of_bounds x z Hx Hz).
  assert (0 <= z)%Z.
  { assert (-1 < IZR z) by lra. apply lt_IZR in H. lia. }
  destruct (z <? 0)%Z eqn:E1; [lia |].
  destruct (4294967295 <? z)%Z eqn:E2; [lia | reflexivity].
Qed.

(** ** The time-of-day expansion of a day fraction *)

(** The expansion of a fraction in [0, 1) into [NaiveTime::from_hms] arguments. *)
Definition time_of_fraction (g : R) : Outcome Z :=
  let hour_fraction := g * 24 in
  let minute_fraction := fract hour_fraction * 60 in
  let second_fraction := fract minute_fraction * 60 in
  naive_time_from_hms (as_u32 hour_fraction) (as_u32 minute_fraction)
                      (as_u32 second_fraction).

(** The corrected fraction and date of [day_fraction_to_datetime]. *)
Definition rollover (day0 : Z) (f : R) : Z * R :=
  if Rlt_dec f 0 then ((day0 - 1)%Z, Rabs f)
  else if Rle_dec 1 f then ((day0 + 1)%Z, f - 1)
  else (day0, f).

Lemma day_fraction_to_datetime_eq (self : SolarCalculations) (f : R) :
  day_fraction_to_datetime self f =
  (let '(day1, g) := rollover (ndt_day (dt_local (date self))) f in
   time <- time_of_fraction g ;;
   Ret (from_local_date_and_time (dt_offset (date self)) day1 time)).
Proof.
  unfold day_fraction_to_datetime, rollover, time_of_fraction.
  destruct (Rlt_dec f 0); [reflexivity |].
  destruct (Rle_dec 1 f); reflexivity.
Qed.

(** Components of a fraction in [0, 1): each in range, and together the whole
    seconds of the fraction, truncated. *)
Lemma time_of_fraction_components (g : R) : 0 <= g < 1 ->
  let h := as_u32 (g * 24) in
  let m := as_u32 (fract (g * 24) * 60) in
  let s := as_u32 (fract (fract (g * 24) * 60) * 60) in
  (0 <= h <= 23 /\ 0 <= m <= 59 /\ 0 <= s <= 59)%Z /\
  h = trunc (g * 24) /\ m = trunc (fract (g * 24) * 60) /\
  s = trunc (fract (fract (g * 24) * 60) * 60) /\
  time_of_fraction g = Ret (h * 3600 + m * 60 + s)%Z /\
  IZR (h * 3600 + m * 60 + s) <= g * 86400 < IZR (h * 3600 + m * 60 + s) + 1.
Proof.
  intros Hg.
  set (x := g * 24).
  assert (Hx : 0 <= x < 24) by (unfold x; lra).
  destruct (trunc_nonneg x) as [[Hx1 Hx2] Hx3]; [lra |].
  set (h := trunc x) in *.
  assert (Hh : (h <= 23)%Z).
  { assert (IZR h < 24) by lra. apply lt_IZR in H. lia. }
  set (y := fract x * 60).
  assert (Hy : 0 <= y < 60) by (unfold y, fract; fold h; lra).
  destruct (trunc_nonneg y) as [[Hy1 Hy2] Hy3]; [lra |].
  set (m := trunc y) in *.
  assert (Hm : (m <= 59)%Z).
  { assert (IZR m < 60) by lra. apply lt_IZR in H. lia. }
  set (z := fract y * 60).
  assert (Hz : 0 <= z < 60) by (unfold z, fract; fold m; lra).
  destruct (trunc_nonneg z) as [[Hz1 Hz2] Hz3]; [lra |].
  set (s := trunc z) in *.
  assert (Hs : (s <= 59)%Z).
  { assert (IZR s < 60) by lra. apply lt_IZR in H. lia. }
  assert (Eh : as_u32 x = h) by (apply as_u32_of_bounds; [lra | split; lra | lia]).
  assert (Em : as_u32 y = m) by (apply as_u32_of_bounds; [lra | split; lra | lia]).
  assert (Es : as_u32 z = s) by (apply as_u32_of_bounds; [lra | split; lra | lia]).
  cbv zeta. rewrite Eh, Em, Es.
  split; [lia |]. split; [reflexivity |]. split; [reflexivity |]. split; [reflexivity |].
  split.
  - unfold time_of_fraction. fold x. fold y. fold z. rewrite Eh, Em, Es.
    unfold naive_time_from_hms.
    replace ((0 <=? h) && (h <? 24) && (0 <=? m) && (m <? 60) && (0 <=? s) && (s <? 60))%Z
      with true by (symmetry; repeat rewrite andb_true_iff; repeat split; lia).
    reflexivity.
  - assert (Ex : x = g * 24) by reflexivity.
    assert (Ey : y = (x - IZR h) * 60) by reflexivity.
    assert (Ez : z = (y - IZR m) * 60) by reflexivity.
    clearbody x y z h m s.
    rewrite !plus_IZR, !mult_IZR. split; lra.
Qed.

(** Evaluating the expansion at explicit components. *)
Lemma time_of_fraction_exact (g : R) (h m s : Z) :
  0 <= g < 1 ->
  IZR h <= g * 24 < IZR h + 1 ->
  IZR m <= (g * 24 - IZR h) * 60 < IZR m + 1 ->
  IZR s <= ((g * 24 - IZR h) * 60 - IZR m) * 60 < IZR s + 1 ->
  time_of_fraction g = Ret (h * 3600 + m * 60 + s)%Z.
Proof.
  intros Hg Hh Hm Hs.
  destruct (time_of_fraction_components g Hg) as (_ & E1 & E2 & E3 & E & _).
  rewrite E.
  assert (T1 : trunc (g * 24) = h) by (apply trunc_of_bounds; lra).
  assert (T2 : trunc (fract (g * 24) * 60) = m).
  { unfold fract. rewrite T1. apply trunc_of_bounds; lra. }
  assert (T3 : trunc (fract (fract (g * 24) * 60) * 60) = s).
  { unfold fract at 1. rewrite T2. unfold fract. rewrite T1. apply trunc_of_bounds; lra. }
  rewrite E1, E2, E3, T1, T2, T3. reflexivity.
Qed.

Lemma day_fraction_to_datetime_spec_eq (self : SolarCalculations) (f : R) :
  day_fraction_to_datetime_spec self f =
  (let '(day1, g) :=
     if Rlt_dec f 0 then ((ndt_day (dt_local (date self)) - 1)%Z, f + 1)
     else if Rle_dec 1 f then ((ndt_day (dt_local (date self)) + 1)%Z, f - 1)
     else (ndt_day (dt_local (date self)), f) in
   time <- time_of_fraction g ;;
   Ret (from_local_date_and_time (dt_offset (date self)) day1 time)).
Proof.
  unfold day_fraction_to_datetime_spec, time_of_fraction.
  destruct (Rlt_dec f 0); [reflexivity |].
  destruct (Rle_dec 1 f); reflexivity.
Qed.

(** ** C1: the rollover of a negative day fraction *)

(** C1 (code_bug).  At the day fraction -0.25 (six hours before midnight), the
    conversion moves to the previous day but keeps [|-0.25| = 0.25], giving
    06:00:00, whereas shifting the fraction by adding 1, as the claim states,
    gives 0.75, i.e. 18:00:00 of the previous day.  For a fraction >= 1 the
    code does subtract 1, and a fraction in [0, 1) keeps its date. *)
Theorem day_fraction_negative_rollover (self : SolarCalculations) :
  let day0 := ndt_day (dt_local (date self)) in
  let off := dt_offset (date self) in
  day_fraction_to_datetime self (-0.25)
    = Ret (from_local_date_and_time off (day0 - 1) (6 * 3600)) /\
  day_fraction_to_datetime_spec self (-0.25)
    = Ret (from_local_date_and_time off (day0 - 1) (18 * 3600)) /\
  (forall f, 1 <= f -> fst (rollover day0 f) = (day0 + 1)%Z /\ snd (rollover day0 f) = f - 1) /\
  (forall f, 0 <= f < 1 -> rollover day0 f = (day0, f)).
Proof.
  cbv zeta. split; [| split; [| split]].
  - rewrite day_fraction_to_datetime_eq. unfold rollover.
    destruct (Rlt_dec (-0.25) 0); [| lra].
    rewrite Rabs_left by lra.
    rewrite (time_of_fraction_exact (- -0.25) 6 0 0) by lra. reflexivity.
  - rewrite day_fraction_to_datetime_spec_eq.
    destruct (Rlt_dec (-0.25) 0); [| lra].
    rewrite (time_of_fraction_exact (-0.25 + 1) 18 0 0) by lra. reflexivity.
  - intros f Hf. unfold rollover. destruct (Rlt_dec f 0); [lra |].
    destruct (Rle_dec 1 f); [split; reflexivity | lra].
  - intros f Hf. unfold rollover. destruct (Rlt_dec f 0); [lra |].
    destruct (Rle_dec 1 f); [lra | reflexivity].
Qed.

(** ** C4: truncation of the time-of-day components *)

(** C4.  For a day fraction [f] in [0, 1) the date is unchanged and the time is
    hour = trunc(24 f), minute = trunc(60 fract(24 f)), second =
    trunc(60 fract(60 fract(24 f))), each truncated toward zero; 0.0 gives
    00:00:00, 0.5 gives 12:00:00, 0.99999 gives 23:59:59, 1.5 gives 12:00:00 of
    the next day and -0.5 gives 12:00:00 of the previous day. *)
Theorem day_fraction_to_datetime_truncates (self : SolarCalculations) :
  let day0 := ndt_day (dt_local (date self)) in
  let off := dt_offset (date self) in
  (forall f, 0 <= f < 1 ->
     let h := trunc (f * 24) in
     let m := trunc (fract (f * 24) * 60) in
     let s := trunc (fract (fract (f * 24) * 60) * 60) in
     (0 <= h <= 23 /\ 0 <= m <= 59 /\ 0 <= s <= 59)%Z /\
     day_fraction_to_datetime self f
       = Ret (from_local_date_and_time off day0 (h * 3600 + m * 60 + s))) /\
  day_fraction_to_datetime self 0 = Ret (from_local_date_and_time off day0 0) /\
  day_fraction_to_datetime self 0.5
    = Ret (from_local_date_and_time off day0 (12 * 3600)) /\
  day_fraction_to_datetime self 0.99999
    = Ret (from_local_date_and_time off day0 (23 * 3600 + 59 * 60 + 59)) /\
  day_fraction_to_datetime self 1.5
    = Ret (from_local_date_and_time off (day0 + 1) (12 * 3600)) /\
  day_fraction_to_datetime self (-0.5)
    = Ret (from_local_date_and_time off (day0 - 1) (12 * 3600)).
Proof.
  cbv zeta. split; [| split; [| split; [| split; [| split]]]].
  - intros f Hf.
    destruct (time_of_fraction_components f Hf) as (Hb & E1 & E2 & E3 & E & _).
    rewrite <- E1, <- E2, <- E3. split; [exact Hb |].
    rewrite day_fraction_to_datetime_eq. unfold rollover.
    destruct (Rlt_dec f 0); [lra |]. destruct (Rle_dec 1 f); [lra |].
    rewrite E. reflexivity.
  - rewrite day_fraction_to_datetime_eq. unfold rollover.
    destruct (Rlt_dec 0 0); [lra |]. destruct (Rle_dec 1 0); [lra |].
    rewrite (time_of_fraction_exact 0 0 0 0) by lra. reflexivity.
  - rewrite day_fraction_to_datetime_eq. unfold rollover.
    destruct (Rlt_dec 0.5 0); [lra |]. destruct (Rle_dec 1 0.5); [lra |].
    rewrite (time_of_fraction_exact 0.5 12 0 0) by lra. reflexivity.
  - rewrite day_fraction_to_datetime_eq. unfold rollover.
    destruct (Rlt_dec 0.99999 0); [lra |]. destruct (Rle_dec 1 0.99999); [lra |].
    rewrite (time_of_fraction_exact 0.99999 23 59 59) by lra. reflexivity.
  - rewrite day_fraction_to_datetime_eq. unfold rollover.
    destruct (Rlt_dec 1.5 0); [lra |]. destruct (Rle_dec 1 1.5); [| lra].
    rewrite (time_of_fraction_exact (1.5 - 1) 12 0 0) by lra. reflexivity.
  - rewrite day_fraction_to_datetime_eq. unfold rollover.
    destruct (Rlt_dec (-0.5) 0); [| lra].
    rewrite Rabs_left by lra.
    rewrite (time_of_fraction_exact (- -0.5) 12 0 0) by lra. reflexivity.
Qed.

(** ** C10: the conversion is total on (-1, 2) *)

(** The conversion on (-1, 2): one rollover, components in range. *)
Lemma day_fraction_conversion_total (self : SolarCalculations) (f : R)
  (Hf : -1 < f < 2) :
  let g := snd (rollover (ndt_day (dt_local (date self))) f) in
  let h := as_u32 (g * 24) in
  let m := as_u32 (fract (g * 24) * 60) in
  let s := as_u32 (fract (fract (g * 24) * 60) * 60) in
  (0 <= h <= 23 /\ 0 <= m <= 59 /\ 0 <= s <= 59)%Z /\
  naive_time_from_hms h m s = Ret (h * 3600 + m * 60 + s)%Z /\
  day_fraction_to_datetime self f
    = Ret (from_local_date_and_time (dt_offset (date self))
             (fst (rollover (ndt_day (dt_local (date self))) f)) (h * 3600 + m * 60 + s)).
Proof.
  cbv zeta.
  set (day0 := ndt_day (dt_local (date self))).
  assert (Hg : 0 <= snd (rollover day0 f) < 1).
  { unfold rollover. destruct (Rlt_dec f 0).
    - rewrite Rabs_left by lra. simpl. lra.
    - destruct (Rle_dec 1 f); simpl; lra. }
  destruct (time_of_fraction_components _ Hg) as (Hb & _ & _ & _ & E & _).
  split; [exact Hb |]. split.
  - exact E.
  - rewrite day_fraction_to_datetime_eq. fold day0.
    destruct (rollover day0 f) as [day1 g] eqn:R. simpl in E |- *.
    rewrite E. reflexivity.
Qed.

(** C10.  For every day fraction [f] with -1 < f < 2, after the single rollover
    correction the hour, minute and second handed to [NaiveTime::from_hms] are
    at most 23, 59 and 59, and the conversion returns a date-time (it does not
    panic). *)
Theorem day_fraction_to_datetime_total (self : SolarCalculations) (f : R)
  (Hf : -1 < f < 2) :
  let g := snd (rollover (ndt_day (dt_local (date self))) f) in
  let h := as_u32 (g * 24) in
  let m := as_u32 (fract (g * 24) * 60) in
  let s := as_u32 (fract (fract (g * 24) * 60) * 60) in
  (0 <= h <= 23 /\ 0 <= m <= 59 /\ 0 <= s <= 59)%Z /\
  naive_time_from_hms h m s = Ret (h * 3600 + m * 60 + s)%Z /\
  day_fraction_to_datetime self f
    = Ret (from_local_date_and_time (dt_offset (date self))
             (fst (rollover (ndt_day (dt_local (date self))) f)) (h * 3600 + m * 60 + s)).
Proof.
  exact (day_fraction_conversion_total self f Hf).
Qed.

Definition sample_calculations : SolarCalculations :=
  mkSolarCalculations (mkDT (mkNDT 0 0) 0) (mkCoordinates 0 0) 0 (1/2) 0.

Lemma day_fraction_to_datetime_total_witness :
  -1 < 1/2 < 2 /\
  let g := snd (rollover (ndt_day (dt_local (date sample_calculations))) (1/2)) in
  let h := as_u32 (g * 24) in
  let m := as_u32 (fract (g * 24) * 60) in
  let s := as_u32 (fract (fract (g * 24) * 60) * 60) in
  (0 <= h <= 23 /\ 0 <= m <= 59 /\ 0 <= s <= 59)%Z /\
  naive_time_from_hms h m s = Ret (h * 3600 + m * 60 + s)%Z /\
  day_fraction_to_datetime sample_calculations (1/2)
    = Ret (from_local_date_and_time (dt_offset (date sample_calculations))
             (fst (rollover (ndt_day (dt_local (date sample_calculations))) (1/2)))
             (h * 3600 + m * 60 + s)).
Proof.
  split; [lra | apply (day_fraction_to_datetime_total sample_calculations (1/2)); lra].
Defined.


(** ** C9: solar noon is always present *)

(** C9.  [solar_noon] (and [event_time] at [SolarNoon], which is the same
    computation) never returns an absent [EventTime]: its only outcomes are a
    present date-time or a panic of the date-time conversion, and for a noon
    fraction in (-1, 2) it returns a present date-time; hence the [unwrap] in
    [max_solar_elevation] never fails. *)
Theorem solar_noon_always_present (self : SolarCalculations) :
  event_time self (Variable' SolarNoon) = solar_noon self /\
  solar_noon self <> Ret None /\
  (forall r, solar_noon self = Ret r -> exists d, r = Some d) /\
  (max_solar_elevation self = Panic -> day_fraction_to_datetime self (solar_noon_fraction self) = Panic) /\
  (-1 < solar_noon_fraction self < 2 ->
   exists d, solar_noon self = Ret (Some d) /\
             max_solar_elevation self
               = Ret (corrected_solar_elevation_angle (new d (coordinates self)))).
Proof.
  split; [reflexivity |].
  unfold max_solar_elevation, solar_noon.
  destruct (day_fraction_to_datetime self (solar_noon_fraction self)) as [d |] eqn:E;
    simpl.
  - split; [discriminate |]. split; [intros r Hr; injection Hr as <-; eauto |].
    split; [discriminate |]. intros _. exists d. split; reflexivity.
  - split; [discriminate |]. split; [discriminate |]. split; [reflexivity |].
    intros Hf. destruct (day_fraction_conversion_total self _ Hf) as (_ & _ & E').
    rewrite E in E'. discriminate.
Qed.

(** ** C2: absent event times and the hour angle *)

(** The argument of [acos] in [hour_angle]. *)
Definition hour_angle_arg (self : SolarCalculations) (degrees_below_horizon : R) : R :=
  cos (to_radians (degrees_below_horizon + 90))
  / (cos (to_radians_f64 (latitude (coordinates self)))
     * cos (to_radians_f64 (solar_declination self)))
  - tan (to_radians_f64 (latitude (coordinates self)))
    * tan (to_radians_f64 (solar_declination self)).

(** C2.  For a fixed-elevation event, [event_time] returns [None] exactly when
    the [acos] argument cos(90 + d)/(cos(lat) cos(decl)) - tan(lat) tan(decl)
    lies outside [-1, 1] (the latitude and the declination in radians as f64
    computes them, which matters at +-90 only); inside, it returns the
    date-time of solar_noon_fraction - hour_angle/360 (ascending) or
    solar_noon_fraction + hour_angle/360 (descending), hour_angle being the
    arccosine in degrees. *)
Theorem event_time_fixed_elevation (self : SolarCalculations) (e : FixedElevationEvent) :
  let arg := cos (to_radians (degrees_below_horizon e + 90))
             / (cos (to_radians_f64 (latitude (coordinates self)))
                * cos (to_radians_f64 (solar_declination self)))
             - tan (to_radians_f64 (latitude (coordinates self)))
               * tan (to_radians_f64 (solar_declination self)) in
  (event_time self (Fixed e) = Ret None <-> arg < -1 \/ 1 < arg) /\
  (-1 <= arg <= 1 ->
   event_time self (Fixed e)
   = (d <- day_fraction_to_datetime self
             (match solar_direction e with
              | Ascending => solar_noon_fraction self - to_degrees (acos arg) / 360
              | Descending => solar_noon_fraction self + to_degrees (acos arg) / 360
              end) ;; Ret (Some d))).
Proof.
  cbv zeta. unfold event_time, hour_angle, acos_f64.
  destruct (Rle_dec (-1) _) as [H1 |H1]; [destruct (Rle_dec _ 1) as [H2 | H2] |]; simpl.
  - split.
    + split; [| lra].
      destruct (day_fraction_to_datetime _ _); simpl; discriminate.
    + intros _. reflexivity.
  - split; [split; [intros _; lra | reflexivity] | lra].
  - split; [split; [intros _; lra | reflexivity] | lra].
Qed.

(** ** C3: day length *)

(** The day-length rule, for the general part of C3. *)
Lemma day_length_cases (self : SolarCalculations) :
  (forall sunrise sunset,
     event_time self (from_event_name Sunrise) = Ret (Some sunrise) ->
     event_time self (from_event_name Sunset) = Ret (Some sunset) ->
     day_length self = Ret (dt_sub sunset sunrise)) /\
  (forall sunrise sunset elevation,
     event_time self (from_event_name Sunrise) = Ret sunrise ->
     event_time self (from_event_name Sunset) = Ret sunset ->
     (sunrise = None \/ sunset = None) ->
     max_solar_elevation self = Ret elevation ->
     day_length self = Ret (if Rle_dec 0.833 elevation then 86400 else 0)%Z).
Proof.
  split.
  - intros sr ss H1 H2. unfold day_length. rewrite H1, H2. reflexivity.
  - intros sr ss el H1 H2 H3 H4. unfold day_length. rewrite H1, H2. simpl.
    destruct H3 as [-> | ->]; [| destruct sr]; simpl; rewrite H4; simpl;
      destruct (Rle_dec 0.833 el); reflexivity.
Qed.

(** ** Enclosures of the NOAA solar-position equations *)

Lemma PI_bounds : 3.14159 <= PI <= 3.1416.
Proof.
  pose proof (PI_2_3_7_ineq 2) as [Hl Hu].
  unfold tg_alt, PI_2_3_7_tg, Ratan_seq in Hl, Hu. simpl in Hl, Hu. lra.
Qed.

Lemma sin_le_self (x : R) : 0 <= x -> sin x <= x.
Proof.
  intros Hx. destruct (Req_dec x 0) as [-> | Hx0].
  - rewrite sin_0. lra.
  - left. apply sin_lt_x. lra.
Qed.

Lemma sin_ge_lb (a x : R) : 0 <= a <= x -> x <= PI / 2 -> sin_lb a <= sin x.
Proof.
  intros Ha Hx. pose proof PI_bounds.
  apply Rle_trans with (sin a).
  - apply SIN; lra.
  - apply sin_incr_1; lra.
Qed.

Lemma cos_ge_lb (a x : R) : Rabs x <= a -> a <= PI / 2 -> cos_lb a <= cos x.
Proof.
  intros Ha Hx. pose proof PI_bounds. pose proof (Rabs_pos x).
  apply Rle_trans with (cos a).
  - apply COS; lra.
  - destruct (Rle_dec 0 x).
    + rewrite Rabs_right in Ha by lra. apply cos_decr_1; lra.
    + rewrite Rabs_left in Ha by lra. rewrite <- (cos_neg x). apply cos_decr_1; lra.
Qed.

Lemma asin_le_self (x : R) : -1 <= x <= 0 -> asin x <= x.
Proof.
  intros Hx. pose proof (asin_bound x). pose proof (sin_asin x ltac:(lra)).
  assert (Hy : asin x <= 0).
  { apply sin_incr_0; try lra. rewrite sin_0. lra. }
  pose proof (sin_le_self (- asin x) ltac:(lra)). rewrite sin_neg in H1. lra.
Qed.

Lemma asin_ge_self (x : R) : 0 <= x <= 1 -> x <= asin x.
Proof.
  intros Hx. pose proof (asin_le_self (- x) ltac:(lra)). rewrite asin_opp in H. lra.
Qed.

Lemma to_radians_degrees (x : R) : to_radians (to_degrees x) = x.
Proof. unfold to_radians, to_degrees. pose proof PI_RGT_0. field. lra. Qed.

(** Away from the poles, the f64 [to_radians] of the hour-angle formula is
    [to_radians]. *)
Lemma to_radians_f64_inner (x : R) : -90 < x < 90 -> to_radians_f64 x = to_radians x.
Proof.
  intros H. unfold to_radians_f64.
  destruct (Req_dec_T x 90); [lra |]. destruct (Req_dec_T x (-90)); [lra |].
  reflexivity.
Qed.

Lemma to_degrees_asin_inner (p : R) : -1 < p < 1 -> -90 < to_degrees (asin p) < 90.
Proof.
  intros Hp. pose proof (asin_bound_lt p Hp) as [H1 H2]. pose proof PI_RGT_0.
  assert (Hk : 0 < 180 / PI) by (apply Rdiv_lt_0_compat; lra).
  unfold to_degrees. split.
  - replace (-90) with (- (PI / 2) * (180 / PI)) by (field; lra).
    apply Rmult_lt_compat_r; assumption.
  - replace 90 with (PI / 2 * (180 / PI)) by (field; lra).
    apply Rmult_lt_compat_r; assumption.
Qed.

Lemma sin_lb_1 : 0.9436 <= sin_lb 1.2334.
Proof. unfold sin_lb, sin_approx, sin_term. simpl. lra. Qed.
Lemma cos_lb_1 : 0.979 <= cos_lb 0.2047.
Proof. unfold cos_lb, cos_approx, cos_term. simpl. lra. Qed.

(** The intermediate quantities of [new], as functions of the Julian century. *)
Definition julian_century (d : DateTime) : R :=
  (to_julian_date (naive_utc d) - 2451545) / 36525.

Definition geometric_solar_mean_longitude_at (jc : R) : R :=
  fmod (280.46646 + jc * (36000.76983 + jc * 0.0003032)) 360.

Definition solar_mean_anomaly_at (jc : R) : R :=
  357.52911 + jc * (35999.05029 - 0.0001537 * jc).

Definition eccent_earth_orbit_at (jc : R) : R :=
  0.016708634 - jc * (0.000042037 + 0.0000001267 * jc).

Definition equation_of_the_center_at (jc : R) : R :=
  sin (to_radians (solar_mean_anomaly_at jc))
    * (1.914602 - jc * (0.004817 + 0.000014 * jc))
  + sin (to_radians (2 * solar_mean_anomaly_at jc)) * (0.019993 - 0.000101 * jc)
  + sin (to_radians (3 * solar_mean_anomaly_at jc)) * 0.000289.

Definition solar_apparent_longitude_at (jc : R) : R :=
  geometric_solar_mean_longitude_at jc + equation_of_the_center_at jc - 0.00569
  - 0.00478 * sin (to_radians (125.04 - 1934.136 * jc)).

Definition oblique_corrected_at (jc : R) : R :=
  23 + (26 + (21.448 - jc * (46.815 + jc * (0.00059 - jc * 0.001813))) / 60) / 60
  + 0.00256 * cos (to_radians (125.04 - 1934.136 * jc)).

Definition var_y_at (jc : R) : R := (tan (to_radians (oblique_corrected_at jc / 2))) ^ 2.

Definition equation_of_time_at (jc : R) : R :=
  let L := geometric_solar_mean_longitude_at jc in
  let M := solar_mean_anomaly_at jc in
  let e := eccent_earth_orbit_at jc in
  let y := var_y_at jc in
  4 * to_degrees
        (y * sin (to_radians L * 2)
         - 2 * e * sin (to_radians M)
         + 4 * e * y * sin (to_radians M) * cos (to_radians L * 2)
         - 0.5 * y * y * sin (to_radians L * 4)
         - 1.25 * e * e * sin (to_radians M * 2)).

(** The sine of the solar declination. *)
Definition sin_declination_at (jc : R) : R :=
  sin (to_radians (oblique_corrected_at jc)) * sin (to_radians (solar_apparent_longitude_at jc)).

(** Elevation with refraction correction, for a latitude, a declination and a
    true hour angle, as at the end of [new]. *)
Definition corrected_elevation (lat decl tha : R) : R :=
  let e := 90 - to_degrees (acos (sin (to_radians lat) * sin (to_radians decl)
                                  + cos (to_radians lat) * cos (to_radians decl)
                                    * cos (to_radians tha))) in
  e + atmospheric_refraction_arcsec e / 3600.

Lemma new_fields (d : DateTime) (c : Coordinates) :
  let jc := julian_century d in
  date (new d c) = d /\ coordinates (new d c) = c /\
  solar_declination (new d c) = to_degrees (asin (sin_declination_at jc)) /\
  solar_noon_fraction (new d c)
    = (720 - 4 * longitude c - equation_of_time_at jc
       + offset_to_decimal_float (dt_offset d) * 60) / 1440 /\
  exists tha, corrected_solar_elevation_angle (new d c)
              = corrected_elevation (latitude c) (solar_declination (new d c)) tha.
Proof.
  repeat split. eexists. reflexivity.
Qed.

Lemma oblique_corrected_bounds (jc : R) : 0 <= jc <= 1 ->
  23.41 <= oblique_corrected_at jc <= 23.45.
Proof.
  intros Hj. unfold oblique_corrected_at.
  pose proof (COS_bound (to_radians (125.04 - 1934.136 * jc))).
  assert (0 <= jc * (46.815 + jc * (0.00059 - jc * 0.001813)) <= 46.82) by nra.
  lra.
Qed.

Lemma var_y_bounds (jc : R) : 0 <= jc <= 1 -> 0 <= var_y_at jc <= 0.0438.
Proof.
  intros Hj. pose proof (oblique_corrected_bounds jc Hj). pose proof PI_bounds.
  unfold var_y_at. set (x := to_radians (oblique_corrected_at jc / 2)).
  assert (Hx : 0 <= x <= 0.2047) by (unfold x, to_radians; split; nra).
  assert (Hc : 0.979 <= cos x).
  { apply Rle_trans with (cos_lb 0.2047); [apply cos_lb_1 |].
    apply cos_ge_lb; [rewrite Rabs_right; lra | lra]. }
  assert (Hs : 0 <= sin x <= x) by (split; [apply sin_ge_0; lra | apply sin_le_self; lra]).
  assert (Ht : 0 <= tan x <= 0.2091).
  { unfold tan. split.
    - apply Rmult_le_pos; [lra | left; apply Rinv_0_lt_compat; lra].
    - apply Rmult_le_reg_r with (cos x); [lra |].
      unfold Rdiv. rewrite Rmult_assoc, Rinv_l by lra. nra. }
  simpl. nra.
Qed.

Lemma equation_of_time_bounds (jc : R) : 0 <= jc <= 1 ->
  -19 <= equation_of_time_at jc <= 19.
Proof.
  intros Hj. pose proof (var_y_bounds jc Hj) as Hy. pose proof PI_bounds.
  assert (He : 0.0166 <= eccent_earth_orbit_at jc <= 0.0168)
    by (unfold eccent_earth_orbit_at; nra).
  unfold equation_of_time_at.
  set (L := geometric_solar_mean_longitude_at jc).
  set (M := solar_mean_anomaly_at jc).
  set (e := eccent_earth_orbit_at jc) in *.
  set (y := var_y_at jc) in *.
  pose proof (SIN_bound (to_radians L * 2)) as S1.
  pose proof (SIN_bound (to_radians M)) as S2.
  pose proof (COS_bound (to_radians L * 2)) as S3.
  pose proof (SIN_bound (to_radians L * 4)) as S4.
  pose proof (SIN_bound (to_radians M * 2)) as S5.
  set (s1 := sin (to_radians L * 2)) in *.
  set (s2 := sin (to_radians M)) in *.
  set (s3 := cos (to_radians L * 2)) in *.
  set (s4 := sin (to_radians L * 4)) in *.
  set (s5 := sin (to_radians M * 2)) in *.
  assert (T1 : - y <= y * s1 <= y) by nra.
  assert (T2 : - (2 * e) <= 2 * e * s2 <= 2 * e) by nra.
  assert (T3 : - (4 * e * y) <= 4 * e * y * s2 * s3 <= 4 * e * y).
  { assert (-1 <= s2 * s3 <= 1) by nra.
    assert (0 <= 4 * e * y) by nra.
    replace (4 * e * y * s2 * s3) with ((4 * e * y) * (s2 * s3)) by ring. nra. }
  assert (T4 : - (0.5 * y * y) <= 0.5 * y * y * s4 <= 0.5 * y * y).
  { assert (0 <= 0.5 * y * y) by nra. nra. }
  assert (T5 : - (1.25 * e * e) <= 1.25 * e * e * s5 <= 1.25 * e * e).
  { assert (0 <= 1.25 * e * e) by nra. nra. }
  assert (0 <= 4 * e * y <= 0.003) by nra.
  assert (0 <= 0.5 * y * y <= 0.001) by nra.
  assert (0 <= 1.25 * e * e <= 0.0004) by nra.
  set (E := y * s1 - 2 * e * s2 + 4 * e * y * s2 * s3 - 0.5 * y * y * s4 - 1.25 * e * e * s5).
  assert (HE : -0.082 <= E <= 0.082) by (unfold E; lra).
  unfold to_degrees.
  assert (0 < PI) by lra.
  assert (HP : 180 / PI <= 57.3) by (apply Rmult_le_reg_r with PI; [lra |]; unfold Rdiv; rewrite Rmult_assoc, Rinv_l by lra; lra).
  assert (0 <= 180 / PI) by (unfold Rdiv; apply Rmult_le_pos; [lra | left; apply Rinv_0_lt_compat; lra]).
  split; nra.
Qed.

Lemma fmod_360 (x : R) (k : Z) : IZR k * 360 <= x < (IZR k + 1) * 360 -> (0 <= k)%Z ->
  fmod x 360 = x - 360 * IZR k.
Proof.
  intros Hx Hk. unfold fmod. apply IZR_le in Hk.
  rewrite (trunc_of_bounds (x / 360) k); [reflexivity | lra | lra].
Qed.

Lemma sin_oblique_bounds (jc : R) : 0 <= jc <= 1 ->
  0.3972 <= sin (to_radians (oblique_corrected_at jc)) <= 0.41.
Proof.
  intros Hj. pose proof (oblique_corrected_bounds jc Hj). pose proof PI_bounds.
  set (x := to_radians (oblique_corrected_at jc)).
  assert (Hx : 0.4085 <= x <= 0.41) by (unfold x, to_radians; split; nra).
  split.
  - apply Rle_trans with (sin_lb 0.4085).
    + unfold sin_lb, sin_approx, sin_term. simpl. lra.
    + apply sin_ge_lb; lra.
  - pose proof (sin_le_self x ltac:(lra)). lra.
Qed.

Lemma equation_of_the_center_bounds (jc : R) : 0 <= jc <= 1 ->
  -1.94 <= equation_of_the_center_at jc <= 1.94.
Proof.
  intros Hj. unfold equation_of_the_center_at.
  pose proof (SIN_bound (to_radians (solar_mean_anomaly_at jc))).
  pose proof (SIN_bound (to_radians (2 * solar_mean_anomaly_at jc))).
  pose proof (SIN_bound (to_radians (3 * solar_mean_anomaly_at jc))).
  assert (1.909 <= 1.914602 - jc * (0.004817 + 0.000014 * jc) <= 1.915) by (split; nra).
  assert (0.0198 <= 0.019993 - 0.000101 * jc <= 0.02) by (split; nra).
  split; nra.
Qed.

(** Around the December solstice of 2020 the sine of the declination is near
    its minimum. *)
Lemma sin_declination_december (jc : R) : 0.2098 <= jc <= 0.2099 ->
  -0.41 <= sin_declination_at jc <= -0.39.
Proof.
  intros Hj. pose proof PI_bounds.
  pose proof (sin_oblique_bounds jc ltac:(lra)) as Ho.
  pose proof (equation_of_the_center_bounds jc ltac:(lra)) as Hc.
  pose proof (SIN_bound (to_radians (125.04 - 1934.136 * jc))) as Hn.
  assert (HL : fmod (280.46646 + jc * (36000.76983 + jc * 0.0003032)) 360
               = 280.46646 + jc * (36000.76983 + jc * 0.0003032) - 360 * 21)
    by (apply fmod_360; [split; nra | lia]).
  assert (Hs : 271.4 <= solar_apparent_longitude_at jc <= 279.1)
    by (unfold solar_apparent_longitude_at, geometric_solar_mean_longitude_at;
        rewrite HL; split; nra).
  set (u := to_radians (solar_apparent_longitude_at jc) - 3 * (PI / 2)).
  assert (Hu : 0 <= u <= 0.159) by (unfold u, to_radians; split; nra).
  assert (Ex : to_radians (solar_apparent_longitude_at jc) = 3 * (PI / 2) + u)
    by (unfold u; ring).
  assert (Hsal : sin (to_radians (solar_apparent_longitude_at jc)) <= -0.9873).
  { rewrite Ex, sin_plus, sin_3PI2, cos_3PI2.
    assert (0.9873 <= cos u).
    { apply Rle_trans with (cos_lb 0.159).
      - unfold cos_lb, cos_approx, cos_term. simpl. lra.
      - apply cos_ge_lb; [rewrite Rabs_right; lra | lra]. }
    lra. }
  pose proof (SIN_bound (to_radians (solar_apparent_longitude_at jc))).
  unfold sin_declination_at. split; nra.
Qed.

(** Around the June solstice of 2020 it is near its maximum. *)
Lemma sin_declination_june (jc : R) : 0.2048 <= jc <= 0.2049 ->
  0.39 <= sin_declination_at jc <= 0.41.
Proof.
  intros Hj. pose proof PI_bounds.
  pose proof (sin_oblique_bounds jc ltac:(lra)) as Ho.
  pose proof (equation_of_the_center_bounds jc ltac:(lra)) as Hc.
  pose proof (SIN_bound (to_radians (125.04 - 1934.136 * jc))) as Hn.
  assert (HL : fmod (280.46646 + jc * (36000.76983 + jc * 0.0003032)) 360
               = 280.46646 + jc * (36000.76983 + jc * 0.0003032) - 360 * 21)
    by (apply fmod_360; [split; nra | lia]).
  assert (Hs : 91.4 <= solar_apparent_longitude_at jc <= 99.1)
    by (unfold solar_apparent_longitude_at, geometric_solar_mean_longitude_at;
        rewrite HL; split; nra).
  set (u := to_radians (solar_apparent_longitude_at jc) - PI / 2).
  assert (Hu : 0 <= u <= 0.159) by (unfold u, to_radians; split; nra).
  assert (Ex : to_radians (solar_apparent_longitude_at jc) = PI / 2 + u)
    by (unfold u; ring).
  assert (Hsal : 0.9873 <= sin (to_radians (solar_apparent_longitude_at jc))).
  { rewrite Ex, sin_plus, sin_PI2, cos_PI2.
    assert (0.9873 <= cos u).
    { apply Rle_trans with (cos_lb 0.159).
      - unfold cos_lb, cos_approx, cos_term. simpl. lra.
      - apply cos_ge_lb; [rewrite Rabs_right; lra | lra]. }
    lra. }
  pose proof (SIN_bound (to_radians (solar_apparent_longitude_at jc))).
  unfold sin_declination_at. split; nra.
Qed.

(** Sine and cosine of the latitude 70.67299 degrees. *)
Lemma latitude_70_bounds :
  0.9436 <= sin (to_radians 70.67299) <= 1 /\ 0 < cos (to_radians 70.67299) <= 0.3311 /\
  Rsqr (sin (to_radians 70.67299)) + Rsqr (cos (to_radians 70.67299)) = 1.
Proof.
  pose proof PI_bounds.
  assert (Hx : 1.2334 <= to_radians 70.67299 <= 1.2335) by (unfold to_radians; split; nra).
  assert (Hs : 0.9436 <= sin (to_radians 70.67299)).
  { apply Rle_trans with (sin_lb 1.2334); [apply sin_lb_1 | apply sin_ge_lb; lra]. }
  assert (Hc : 0 < cos (to_radians 70.67299)) by (apply cos_gt_0; lra).
  pose proof (sin2_cos2 (to_radians 70.67299)) as E.
  pose proof (SIN_bound (to_radians 70.67299)).
  unfold Rsqr in *. split; [lra |]. split; [split; [lra | nra] | exact E].
Qed.

(** Cosine and tangent of a declination given by the sine [p]. *)
Lemma declination_trig (p : R) : -1 < p < 1 ->
  to_radians (to_degrees (asin p)) = asin p /\
  sin (asin p) = p /\ cos (asin p) = sqrt (1 - p²) /\ 0 < sqrt (1 - p²) /\
  tan (asin p) = p / sqrt (1 - p²) /\ Rsqr (sqrt (1 - p²)) = 1 - p².
Proof.
  intros Hp.
  assert (0 < 1 - p²) by (unfold Rsqr; nra).
  split; [apply to_radians_degrees |].
  split; [apply sin_asin; lra |].
  split; [apply cos_asin; lra |].
  split; [apply sqrt_lt_R0; lra |].
  split; [apply tan_asin; lra |].
  apply Rsqr_sqrt; lra.
Qed.

(** The f64 radians of a declination given by its sine. *)
Lemma declination_f64 (p : R) : -1 < p < 1 -> to_radians_f64 (to_degrees (asin p)) = asin p.
Proof.
  intros Hp. rewrite to_radians_f64_inner by (apply to_degrees_asin_inner; exact Hp).
  apply to_radians_degrees.
Qed.

(** The double [consts::PI] lies below PI. *)
Lemma PI_lower_fine : 2 * frac_pi_2_f64 < PI.
Proof.
  pose proof (PI_2_3_7_ineq 8) as [Hl _].
  unfold tg_alt, PI_2_3_7_tg, Ratan_seq in Hl. unfold frac_pi_2_f64.
  cbn -[Rdiv Rinv Rmult Rplus Ropp IZR] in Hl.
  lra.
Qed.

Lemma cos_frac_pi_2_f64 : 0 < cos frac_pi_2_f64 <= 0.000004.
Proof.
  pose proof PI_lower_fine. pose proof PI_bounds.
  rewrite <- (Ropp_involutive frac_pi_2_f64), cos_neg.
  replace (- frac_pi_2_f64) with (- (PI / 2) + (PI / 2 - frac_pi_2_f64)) by ring.
  rewrite cos_plus, cos_neg, sin_neg, cos_PI2, sin_PI2.
  assert (Hd : 0 < PI / 2 - frac_pi_2_f64 <= 0.000004) by (unfold frac_pi_2_f64 in *; lra).
  replace (0 * cos (PI / 2 - frac_pi_2_f64) - - (1) * sin (PI / 2 - frac_pi_2_f64))
    with (sin (PI / 2 - frac_pi_2_f64)) by ring.
  split; [apply sin_gt_0; lra |].
  pose proof (sin_le_self (PI / 2 - frac_pi_2_f64)). lra.
Qed.

(** At a pole the f64 formula divides by the tiny cosine of the rounded PI/2:
    with the declination at 0, the argument of [acos] is far below -1 and
    there is no sunrise, as in the f64 code. *)
Lemma event_time_pole_none (self : SolarCalculations) :
  latitude (coordinates self) = 90 -> solar_declination self = 0 ->
  hour_angle_arg self 0.833 < -1 /\
  event_time self (Fixed (mkFixed 0.833 Ascending)) = Ret None.
Proof.
  intros Hlat Hdecl. pose proof PI_bounds. pose proof cos_frac_pi_2_f64 as Hc.
  assert (Ea : hour_angle_arg self 0.833 = - sin (to_radians 0.833) / cos frac_pi_2_f64).
  { unfold hour_angle_arg. rewrite Hlat, Hdecl.
    assert (E90 : to_radians_f64 90 = frac_pi_2_f64)
      by (unfold to_radians_f64; destruct (Req_dec_T 90 90); [reflexivity | lra]).
    rewrite E90, to_radians_f64_inner by lra.
    replace (to_radians 0) with 0 by (unfold to_radians; ring).
    rewrite cos_0, tan_0.
    replace (to_radians (0.833 + 90)) with (PI / 2 + to_radians 0.833)
      by (unfold to_radians; field).
    rewrite cos_plus, cos_PI2, sin_PI2. field. lra. }
  assert (Hs : 0.0145 <= sin (to_radians 0.833)).
  { apply Rle_trans with (sin_lb 0.01453).
    - unfold sin_lb, sin_approx, sin_term. simpl. lra.
    - apply sin_ge_lb; unfold to_radians; try split; nra. }
  assert (Harg : hour_angle_arg self 0.833 < -1).
  { rewrite Ea. apply Rmult_lt_reg_r with (cos frac_pi_2_f64); [lra |].
    unfold Rdiv. rewrite Rmult_assoc, Rinv_l by lra. lra. }
  split; [exact Harg |].
  unfold event_time. cbn [degrees_below_horizon].
  unfold hour_angle, acos_f64. fold (hour_angle_arg self 0.833).
  destruct (Rle_dec (-1) _); [lra |]. reflexivity.
Qed.

(** At latitude 70.67299 and a declination whose sine has magnitude in
    [0.39, 0.41], the sunrise/sunset [acos] argument is outside [-1, 1]. *)
Lemma hour_angle_polar (self : SolarCalculations) (p : R) :
  latitude (coordinates self) = 70.67299 ->
  solar_declination self = to_degrees (asin p) ->
  0.39 <= Rabs p <= 0.41 ->
  hour_angle self 0.833 = None.
Proof.
  intros Hlat Hdecl Hp. pose proof PI_bounds.
  assert (Hp' : -1 < p < 1) by (destruct (Rle_dec 0 p);
    [rewrite Rabs_right in Hp by lra | rewrite Rabs_left in Hp by lra]; lra).
  destruct (declination_trig p Hp') as (Er & Es & Ec & Hq & Et & Eq).
  destruct latitude_70_bounds as (Hsl & Hcl & El).
  unfold hour_angle. rewrite Hlat, Hdecl, (declination_f64 p Hp').
  rewrite (to_radians_f64_inner 70.67299) by lra. rewrite Ec, Et.
  replace (to_radians (0.833 + 90)) with (PI / 2 + to_radians 0.833)
    by (unfold to_radians; field).
  rewrite <- (Ropp_involutive (cos (PI / 2 + to_radians 0.833))), <- sin_cos.
  assert (Hh : 0 <= sin (to_radians 0.833) <= 0.0146).
  { assert (0 <= to_radians 0.833 <= 0.0146) by (unfold to_radians; split; nra).
    split; [apply sin_ge_0; lra | pose proof (sin_le_self (to_radians 0.833)); lra]. }
  unfold tan at 1.
  set (sl := sin (to_radians 70.67299)) in *.
  set (cl := cos (to_radians 70.67299)) in *.
  set (q := sqrt (1 - p²)) in *.
  set (sh := sin (to_radians 0.833)) in *.
  assert (Eargs : - sh / (cl * q) - sl / cl * (p / q) = (- sh - sl * p) / (cl * q))
    by (field; lra).
  rewrite Eargs.
  unfold Rsqr in *.
  assert (Hq2 : q <= 0.9209).
  { destruct (Rle_dec 0 p);
      [rewrite Rabs_right in Hp by lra | rewrite Rabs_left in Hp by lra]; nra. }
  assert (0 < cl * q) by nra.
  unfold acos_f64, f64_to_degrees.
  destruct (Rle_dec 0 p).
  - rewrite Rabs_right in Hp by lra.
    assert ((- sh - sl * p) / (cl * q) < -1).
    { apply Rmult_lt_reg_r with (cl * q); [lra |].
      unfold Rdiv. rewrite Rmult_assoc, Rinv_l by lra. nra. }
    destruct (Rle_dec (-1) _); [lra | reflexivity].
  - rewrite Rabs_left in Hp by lra.
    assert (1 < (- sh - sl * p) / (cl * q)).
    { apply Rmult_lt_reg_r with (cl * q); [lra |].
      unfold Rdiv. rewrite Rmult_assoc, Rinv_l by lra. nra. }
    destruct (Rle_dec (-1) _); [| reflexivity].
    destruct (Rle_dec _ 1); [lra | reflexivity].
Qed.

(** Polar night: a declination whose sine is in [-0.41, -0.39] keeps the
    corrected elevation at latitude 70.67299 below 0.833 degrees, whatever the
    hour angle. *)
Lemma corrected_elevation_polar_night (p tha : R) : -0.41 <= p <= -0.39 ->
  corrected_elevation 70.67299 (to_degrees (asin p)) tha < 0.833.
Proof.
  intros Hp. pose proof PI_bounds.
  destruct (declination_trig p ltac:(lra)) as (Er & Es & Ec & Hq & _ & Eq).
  destruct latitude_70_bounds as (Hsl & Hcl & El).
  unfold corrected_elevation. rewrite Er, Es, Ec.
  set (sl := sin (to_radians 70.67299)) in *.
  set (cl := cos (to_radians 70.67299)) in *.
  set (q := sqrt (1 - p²)) in *.
  pose proof (COS_bound (to_radians tha)) as Hct.
  set (ct := cos (to_radians tha)) in *.
  unfold Rsqr in *.
  assert (Hq2 : q <= 0.9209) by nra.
  set (X := sl * p + cl * q * ct).
  assert (0 < cl * q <= 0.3049) by (split; nra).
  assert (- (cl * q) <= cl * q * ct <= cl * q) by (split; nra).
  assert (-0.41 <= sl * p <= -0.368) by (split; nra).
  assert (HX : -1 <= X <= -0.063) by (unfold X; lra).
  rewrite (acos_asin X) by lra.
  pose proof (asin_le_self X ltac:(lra)).
  pose proof (asin_bound X).
  set (e := 90 - to_degrees (PI / 2 - asin X)).
  assert (He : -90 <= e <= -3.6).
  { unfold e, to_degrees.
    replace (90 - (PI / 2 - asin X) * (180 / PI)) with (asin X * (180 / PI))
      by (field; lra).
    assert (HP : 57.29 <= 180 / PI <= 57.3).
    { split; apply Rmult_le_reg_r with PI; try lra; unfold Rdiv;
        rewrite Rmult_assoc, Rinv_l by lra; lra. }
    split; [| nra].
    replace (asin X * (180 / PI)) with (- 90 + (asin X + PI / 2) * (180 / PI))
      by (field; lra). nra. }
  unfold atmospheric_refraction_arcsec.
  destruct (Rlt_dec 85 e); [lra |]. destruct (Rlt_dec 5 e); [lra |].
  destruct (Rlt_dec (-0.575) e); [lra |].
  set (x := to_radians e).
  assert (Hx : - (PI / 2) <= x <= - 0.061) by (unfold x, to_radians; split; nra).
  assert (Hs : sin x <= - 0.0609).
  { assert (Hn : 0.0609 <= sin (- x)).
    { apply Rle_trans with (sin_lb 0.061).
      - unfold sin_lb, sin_approx, sin_term. simpl. lra.
      - apply sin_ge_lb; lra. }
    rewrite sin_neg in Hn. lra. }
  assert (Hc : 0 <= cos x <= 1) by (split; [apply cos_ge_0; lra | apply COS_bound]).
  unfold tan.
  replace (-20.772 / (sin x / cos x)) with (20.772 * cos x / (- sin x))
    by (unfold Rdiv; rewrite Rinv_mult, Rinv_inv, Rinv_opp; lra).
  assert (20.772 * cos x / (- sin x) <= 342).
  { apply Rmult_le_reg_r with (- sin x); [lra |].
    unfold Rdiv. rewrite Rmult_assoc, Rinv_l by lra. nra. }
  lra.
Qed.

(** Polar day: a declination whose sine is in [0.39, 0.41] keeps it at least
    0.833 degrees. *)
Lemma corrected_elevation_polar_day (p tha : R) : 0.39 <= p <= 0.41 ->
  0.833 <= corrected_elevation 70.67299 (to_degrees (asin p)) tha.
Proof.
  intros Hp. pose proof PI_bounds.
  destruct (declination_trig p ltac:(lra)) as (Er & Es & Ec & Hq & _ & Eq).
  destruct latitude_70_bounds as (Hsl & Hcl & El).
  unfold corrected_elevation. rewrite Er, Es, Ec.
  set (sl := sin (to_radians 70.67299)) in *.
  set (cl := cos (to_radians 70.67299)) in *.
  set (q := sqrt (1 - p²)) in *.
  pose proof (COS_bound (to_radians tha)) as Hct.
  set (ct := cos (to_radians tha)) in *.
  unfold Rsqr in *.
  assert (Hq2 : q <= 0.9209) by nra.
  set (X := sl * p + cl * q * ct).
  assert (0 < cl * q <= 0.3049) by (split; nra).
  assert (- (cl * q) <= cl * q * ct <= cl * q) by (split; nra).
  assert (0.368 <= sl * p <= 0.41) by (split; nra).
  assert (HX : 0.063 <= X <= 1) by (unfold X; lra).
  rewrite (acos_asin X) by lra.
  pose proof (asin_ge_self X ltac:(lra)).
  pose proof (asin_bound X).
  set (e := 90 - to_degrees (PI / 2 - asin X)).
  assert (He : 3.6 <= e <= 90).
  { unfold e, to_degrees.
    replace (90 - (PI / 2 - asin X) * (180 / PI)) with (asin X * (180 / PI))
      by (field; lra).
    assert (HP : 57.29 <= 180 / PI <= 57.3).
    { split; apply Rmult_le_reg_r with PI; try lra; unfold Rdiv;
        rewrite Rmult_assoc, Rinv_l by lra; lra. }
    split; [nra |].
    replace (asin X * (180 / PI)) with (90 - (PI / 2 - asin X) * (180 / PI))
      by (field; lra). nra. }
  enough (0 <= atmospheric_refraction_arcsec e) by lra.
  unfold atmospheric_refraction_arcsec.
  destruct (Rlt_dec 85 e); [lra |]. destruct (Rlt_dec 5 e).
  - set (x := to_radians e).
    assert (Hx : 0 < x < PI / 2) by (unfold x, to_radians; split; nra).
    pose proof (tan_gt_0 x (proj1 Hx) (proj2 Hx)) as Ht.
    set (t := tan x) in *.
    set (w := / t).
    assert (Hw : 0 < w) by (apply Rinv_0_lt_compat; lra).
    replace (58.1 / t - 0.07 / t ^ 3 + 0.000086 / t ^ 5)
      with (w * (58.1 - 0.07 * (w * w) + 0.000086 * ((w * w) * (w * w))))
      by (unfold w, Rdiv; rewrite <- !pow_inv; ring).
    apply Rmult_le_pos; [lra |].
    nra.
  - destruct (Rlt_dec (-0.575) e); [| lra]. nra.
Qed.

Lemma to_julian_date_eq (n : NaiveDateTime) (y m d : Z) :
  Calendar.civil_from_days (ndt_day n) = (y, m, d) -> (0 <= ndt_secs n < 86400)%Z ->
  to_julian_date n
  = IZR (367 * y - Z.quot (7 * (y + Z.quot (m + 9) 12)) 4 + Z.quot (275 * m) 9 + d + 1721014)
    + IZR (ndt_secs n) / 86400 - 0.5.
Proof.
  intros Hc Hs. unfold to_julian_date. rewrite Hc. cbv zeta.
  set (s := ndt_secs n) in *.
  assert (Es : s = (s / 3600 * 3600 + (s / 60) mod 60 * 60 + s mod 60)%Z).
  { pose proof (Z.div_mod s 60 ltac:(lia)). pose proof (Z.div_mod (s / 60) 60 ltac:(lia)).
    assert (s / 60 / 60 = s / 3600)%Z by (rewrite Z.div_div by lia; reflexivity). lia. }
  set (hh := (s / 3600)%Z) in *. set (mm := ((s / 60) mod 60)%Z) in *.
  set (ss := (s mod 60)%Z) in *.
  assert (IZR s = IZR hh * 3600 + IZR mm * 60 + IZR ss)
    by (rewrite Es at 1; rewrite !plus_IZR, !mult_IZR; reflexivity).
  destruct (12 <=? hh)%Z; [rewrite minus_IZR |]; lra.
Qed.

Lemma naive_utc_offset_0 (day secs : Z) : (0 <= secs < 86400)%Z ->
  naive_utc (mkDT (mkNDT day secs) 0) = mkNDT day secs.
Proof.
  intros Hs. unfold naive_utc, ndt_of_total, ndt_total. simpl. f_equal.
  - symmetry. apply Z.div_unique with secs; lia.
  - symmetry. apply Z.mod_unique with day; lia.
Qed.

Definition julian_day_number (y m d : Z) : Z :=
  367 * y - Z.quot (7 * (y + Z.quot (m + 9) 12)) 4 + Z.quot (275 * m) 9 + d + 1721014.

(** The day length at latitude 70.67299, longitude 23.67165, at 12:00 UTC of a
    day whose declination stays, over the Julian centuries [lo, hi] of that
    day, at a sine of magnitude in [0.39, 0.41]: the sun neither rises nor
    sets, and the day length is decided by the corrected elevation at solar
    noon. *)
Lemma day_length_polar (day y m d : Z) (lo hi : R) (P : R -> Prop) :
  Calendar.civil_from_days day = (y, m, d) ->
  0 <= lo -> hi <= 1 ->
  lo <= (IZR (julian_day_number y m d) - 0.1 - 2451545) / 36525 ->
  (IZR (julian_day_number y m d) - 2451545) / 36525 <= hi ->
  (forall jc, lo <= jc <= hi -> 0.39 <= Rabs (sin_declination_at jc) <= 0.41) ->
  (forall jc tha, lo <= jc <= hi ->
     P (corrected_elevation 70.67299 (to_degrees (asin (sin_declination_at jc))) tha)) ->
  exists el, P el /\
    day_length (new (mkDT (mkNDT day 43200) 0) (mkCoordinates 70.67299 23.67165))
    = Ret (if Rle_dec 0.833 el then 86400 else 0)%Z.
Proof.
  intros Hc Hlo Hhi Hjlo Hjhi Hdecl Hel.
  set (c := mkCoordinates 70.67299 23.67165).
  set (d0 := mkDT (mkNDT day 43200) 0).
  set (self := new d0 c).
  set (J := IZR (julian_day_number y m d)) in *.
  assert (Hjc0 : julian_century d0 = (J - 2451545) / 36525).
  { unfold julian_century, d0. rewrite naive_utc_offset_0 by lia.
    rewrite (to_julian_date_eq (mkNDT day 43200) y m d Hc) by (cbn [ndt_secs]; lia).
    cbn [ndt_secs]. unfold J, julian_day_number. lra. }
  destruct (new_fields d0 c) as (Edate & Ecoord & Edecl & Enoon & _).
  fold self in Edate, Ecoord, Edecl, Enoon. rewrite Hjc0 in Edecl, Enoon.
  assert (Hnone : hour_angle self 0.833 = None).
  { apply (hour_angle_polar self (sin_declination_at ((J - 2451545) / 36525))).
    - rewrite Ecoord. reflexivity.
    - exact Edecl.
    - apply Hdecl. lra. }
  assert (Hsr : event_time self (from_event_name Sunrise) = Ret None)
    by (cbn [from_event_name event_time degrees_below_horizon]; rewrite Hnone; reflexivity).
  assert (Hss : event_time self (from_event_name Sunset) = Ret None)
    by (cbn [from_event_name event_time degrees_below_horizon]; rewrite Hnone; reflexivity).
  pose proof (equation_of_time_bounds ((J - 2451545) / 36525) ltac:(lra)) as Heot.
  set (f := solar_noon_fraction self) in *.
  assert (Hf : 0.42 <= f <= 0.45).
  { rewrite Enoon. unfold offset_to_decimal_float, c, d0. cbn [dt_offset longitude]. lra. }
  destruct (time_of_fraction_components f ltac:(lra)) as (Hb & _ & _ & _ & Et & Hsecs).
  set (secs := (as_u32 (f * 24) * 3600 + as_u32 (fract (f * 24) * 60) * 60
                + as_u32 (fract (fract (f * 24) * 60) * 60))%Z) in *.
  set (d1 := from_local_date_and_time 0 day secs).
  assert (Hnoon : solar_noon self = Ret (Some d1)).
  { unfold solar_noon. fold f. rewrite day_fraction_to_datetime_eq.
    rewrite Edate. unfold d0. cbn [dt_local ndt_day dt_offset]. unfold rollover.
    destruct (Rlt_dec f 0); [lra |]. destruct (Rle_dec 1 f); [lra |].
    rewrite Et. reflexivity. }
  assert (Hmax : max_solar_elevation self
                 = Ret (corrected_solar_elevation_angle (new d1 c))).
  { unfold max_solar_elevation. rewrite Hnoon, Ecoord. reflexivity. }
  destruct (new_fields d1 c) as (_ & _ & Edecl1 & _ & tha & Eel).
  assert (Hsecs' : (0 <= secs < 86400)%Z).
  { split; [lia |]. apply lt_IZR. lra. }
  assert (Hjc1 : julian_century d1 = (J - 0.5 + IZR secs / 86400 - 2451545) / 36525).
  { unfold julian_century, d1, from_local_date_and_time.
    rewrite naive_utc_offset_0 by exact Hsecs'.
    rewrite (to_julian_date_eq (mkNDT day secs) y m d Hc) by exact Hsecs'. unfold J, julian_day_number.
    cbn [ndt_secs]. lra. }
  exists (corrected_solar_elevation_angle (new d1 c)). split.
  - rewrite Eel, Edecl1, Hjc1. apply Hel. split; lra.
  - apply (proj2 (day_length_cases self) None None _ Hsr Hss (or_introl eq_refl) Hmax).
Qed.

Lemma instant_eq (d : DateTime) : instant d = (ndt_total (dt_local d) - dt_offset d)%Z.
Proof.
  unfold instant, naive_utc, ndt_of_total, ndt_total at 1. simpl.
  pose proof (Z.div_mod (ndt_total (dt_local d) - dt_offset d) 86400 ltac:(lia)). lia.
Qed.

(** A fraction in (-1, 0) is read on the previous day, at its absolute value. *)
Lemma day_fraction_negative (self : SolarCalculations) (f : R) : -1 < f < 0 ->
  exists secs, day_fraction_to_datetime self f
    = Ret (from_local_date_and_time (dt_offset (date self))
             (ndt_day (dt_local (date self)) - 1) secs) /\
    IZR secs <= - f * 86400 < IZR secs + 1.
Proof.
  intros Hf. rewrite day_fraction_to_datetime_eq. unfold rollover.
  destruct (Rlt_dec f 0); [| lra]. rewrite Rabs_left by lra.
  destruct (time_of_fraction_components (- f) ltac:(lra)) as (_ & _ & _ & _ & Et & Hs).
  eexists. split; [simpl; rewrite Et; reflexivity | exact Hs].
Qed.

(** At latitude 0 the hour angle of sunrise and sunset is between 90 and 120
    degrees, whatever the declination (of sine at most 0.41 in magnitude). *)
Lemma hour_angle_equator (self : SolarCalculations) (p : R) :
  latitude (coordinates self) = 0 ->
  solar_declination self = to_degrees (asin p) -> Rabs p <= 0.41 ->
  exists h, hour_angle self 0.833 = Some h /\ 90 <= h <= 120.
Proof.
  intros Hlat Hdecl Hp. pose proof PI_bounds.
  assert (Hp' : -1 < p < 1) by (destruct (Rle_dec 0 p);
    [rewrite Rabs_right in Hp by lra | rewrite Rabs_left in Hp by lra]; lra).
  destruct (declination_trig p Hp') as (Er & Es & Ec & Hq & Et & Eq).
  unfold hour_angle. rewrite Hlat, Hdecl, (declination_f64 p Hp').
  rewrite (to_radians_f64_inner 0) by lra. rewrite Ec, Et.
  replace (to_radians 0) with 0 by (unfold to_radians; ring).
  rewrite cos_0, tan_0.
  replace (to_radians (0.833 + 90)) with (PI / 2 + to_radians 0.833)
    by (unfold to_radians; field).
  rewrite <- (Ropp_involutive (cos (PI / 2 + to_radians 0.833))), <- sin_cos.
  assert (Hh : 0 <= sin (to_radians 0.833) <= 0.0146).
  { assert (0 <= to_radians 0.833 <= 0.0146) by (unfold to_radians; split; nra).
    split; [apply sin_ge_0; lra | pose proof (sin_le_self (to_radians 0.833)); lra]. }
  set (q := sqrt (1 - p²)) in *.
  set (sh := sin (to_radians 0.833)) in *.
  unfold Rsqr in *.
  assert (Hq2 : 0.9 <= q).
  { destruct (Rle_dec 0 p);
      [rewrite Rabs_right in Hp by lra | rewrite Rabs_left in Hp by lra]; nra. }
  set (x := - sh / (1 * q) - 0 * (p / q)).
  assert (Hx : -0.5 <= x <= 0).
  { unfold x. rewrite Rmult_0_l, Rminus_0_r, Rmult_1_l. split.
    - apply Rmult_le_reg_r with q; [lra |].
      unfold Rdiv. rewrite Rmult_assoc, Rinv_l by lra. nra.
    - unfold Rdiv. rewrite <- Ropp_mult_distr_l. apply Ropp_le_cancel.
      rewrite Ropp_involutive, Ropp_0. apply Rmult_le_pos; [lra |].
      left. apply Rinv_0_lt_compat. lra. }
  unfold acos_f64, f64_to_degrees.
  destruct (Rle_dec (-1) x); [| lra]. destruct (Rle_dec x 1); [| lra].
  eexists. split; [reflexivity |].
  rewrite (acos_asin x) by lra.
  assert (Ha : - (PI / 6) <= asin x <= 0).
  { pose proof (asin_bound x). pose proof (sin_asin x ltac:(lra)). split.
    - apply sin_incr_0; try lra. rewrite sin_antisym, sin_PI6. lra.
    - apply sin_incr_0; try lra. rewrite sin_0. lra. }
  unfold to_degrees. split.
  - replace 90 with (PI / 2 * (180 / PI)) by (field; lra).
    apply Rmult_le_compat_r; [| lra].
    unfold Rdiv. apply Rmult_le_pos; [lra | left; apply Rinv_0_lt_compat; lra].
  - replace 120 with ((PI / 2 + PI / 6) * (180 / PI)) by (field; lra).
    apply Rmult_le_compat_r; [| lra].
    unfold Rdiv. apply Rmult_le_pos; [lra | left; apply Rinv_0_lt_compat; lra].
Qed.



(** At 70.67299 N, 23.67165 E, 2020-12-25 12:00 UTC is in the polar night. *)
Lemma day_length_polar_night :
  day_length (new (mkDT (mkNDT (Calendar.days_from_civil 2020 12 25) 43200) 0)
                  (mkCoordinates 70.67299 23.67165)) = Ret 0%Z.
Proof.
  destruct (day_length_polar (Calendar.days_from_civil 2020 12 25) 2020 12 25 0.2098 0.2099
              (fun el => el < 0.833)) as (el & Hel & E).
  - reflexivity.
  - lra.
  - lra.
  - replace (julian_day_number 2020 12 25) with 2459209%Z by reflexivity. lra.
  - replace (julian_day_number 2020 12 25) with 2459209%Z by reflexivity. lra.
  - intros jc Hj. pose proof (sin_declination_december jc Hj).
    rewrite Rabs_left by lra. lra.
  - intros jc tha Hj. apply corrected_elevation_polar_night, sin_declination_december, Hj.
  - rewrite E. destruct (Rle_dec 0.833 el); [lra | reflexivity].
Qed.

(** At 70.67299 N, 23.67165 E, 2020-06-25 12:00 UTC is in the polar day. *)
Lemma day_length_polar_day :
  day_length (new (mkDT (mkNDT (Calendar.days_from_civil 2020 6 25) 43200) 0)
                  (mkCoordinates 70.67299 23.67165)) = Ret 86400%Z.
Proof.
  destruct (day_length_polar (Calendar.days_from_civil 2020 6 25) 2020 6 25 0.2048 0.2049
              (fun el => 0.833 <= el)) as (el & Hel & E).
  - reflexivity.
  - lra.
  - lra.
  - replace (julian_day_number 2020 6 25) with 2459026%Z by reflexivity. lra.
  - replace (julian_day_number 2020 6 25) with 2459026%Z by reflexivity. lra.
  - intros jc Hj. pose proof (sin_declination_june jc Hj).
    rewrite Rabs_right by lra. lra.
  - intros jc tha Hj. apply corrected_elevation_polar_day, sin_declination_june, Hj.
  - rewrite E. destruct (Rle_dec 0.833 el); [reflexivity | lra].
Qed.

(** C3: for every calculation context, day_length is the sunset time minus the
    sunrise time when both resolve; when either is absent it is 86400 seconds if
    the corrected solar elevation at solar noon is at least 0.833 degrees and 0
    seconds otherwise. At latitude 70.67299, longitude 23.67165, at 12:00 UTC,
    it is 0 seconds on 2020-12-25 and 86400 seconds on 2020-06-25. *)
Theorem day_length_rule :
  (forall self : SolarCalculations,
     (forall sunrise sunset,
        event_time self (from_event_name Sunrise) = Ret (Some sunrise) ->
        event_time self (from_event_name Sunset) = Ret (Some sunset) ->
        day_length self = Ret (dt_sub sunset sunrise)) /\
     (forall sunrise sunset elevation,
        event_time self (from_event_name Sunrise) = Ret sunrise ->
        event_time self (from_event_name Sunset) = Ret sunset ->
        (sunrise = None \/ sunset = None) ->
        max_solar_elevation self = Ret elevation ->
        day_length self = Ret (if Rle_dec 0.833 elevation then 86400 else 0)%Z)) /\
  day_length (new (mkDT (mkNDT (Calendar.days_from_civil 2020 12 25) 43200) 0)
                  (mkCoordinates 70.67299 23.67165)) = Ret 0%Z /\
  day_length (new (mkDT (mkNDT (Calendar.days_from_civil 2020 6 25) 43200) 0)
                  (mkCoordinates 70.67299 23.67165)) = Ret 86400%Z.
Proof.
  split; [exact day_length_cases | split; [exact day_length_polar_night | exact day_length_polar_day]].
Qed.

(** ** C8: the order of the events of a day *)

(** C8: at latitude 0, longitude 180, on 2020-03-20T12:00:00-12:00, sunrise,
    solar noon and sunset all resolve, yet sunrise is reported after solar noon
    and sunset before it: the fractions of all three are negative, and the
    absolute value taken by day_fraction_to_datetime reverses their order. *)
Theorem sunrise_after_solar_noon :
  let self := new (mkDT (mkNDT (Calendar.days_from_civil 2020 3 20) 43200) (-43200))
                  (mkCoordinates 0 180) in
  exists sunrise noon sunset,
    event_time self (from_event_name Sunrise) = Ret (Some sunrise) /\
    solar_noon self = Ret (Some noon) /\
    event_time self (from_event_name Sunset) = Ret (Some sunset) /\
    (instant noon < instant sunrise)%Z /\ (instant sunset < instant noon)%Z.
Proof.
  cbv zeta.
  set (c := mkCoordinates 0 180).
  set (d0 := mkDT (mkNDT (Calendar.days_from_civil 2020 3 20) 43200) (-43200)).
  set (self := new d0 c).
  assert (Hjc : julian_century d0 = (2458930 - 0.5 - 2451545) / 36525).
  { unfold julian_century.
    replace (naive_utc d0) with (mkNDT 18342 0) by reflexivity.
    rewrite (to_julian_date_eq (mkNDT 18342 0) 2020 3 21) by (reflexivity || (cbn; lia)).
    replace (367 * 2020 - Z.quot (7 * (2020 + Z.quot (3 + 9) 12)) 4 + Z.quot (275 * 3) 9 + 21 + 1721014)%Z
      with 2458930%Z by reflexivity.
    cbn [ndt_secs]. lra. }
  destruct (new_fields d0 c) as (Edate & Ecoord & Edecl & Enoon & _).
  fold self in Edate, Ecoord, Edecl, Enoon. rewrite Hjc in Edecl, Enoon.
  set (jc := (2458930 - 0.5 - 2451545) / 36525) in *.
  assert (Hj : 0 <= jc <= 1) by (unfold jc; lra).
  assert (Hp : Rabs (sin_declination_at jc) <= 0.41).
  { unfold sin_declination_at. rewrite Rabs_mult.
    pose proof (sin_oblique_bounds jc Hj).
    pose proof (SIN_bound (to_radians (solar_apparent_longitude_at jc))).
    rewrite Rabs_right by lra.
    assert (Rabs (sin (to_radians (solar_apparent_longitude_at jc))) <= 1)
      by (apply Rabs_le; lra).
    pose proof (Rabs_pos (sin (to_radians (solar_apparent_longitude_at jc)))). nra. }
  destruct (hour_angle_equator self (sin_declination_at jc)) as (h & Hh & Hhb);
    [rewrite Ecoord; reflexivity | exact Edecl | exact Hp |].
  pose proof (equation_of_time_bounds jc Hj) as Heot.
  set (f := solar_noon_fraction self) in *.
  assert (Hf : -0.5132 <= f <= -0.4868).
  { rewrite Enoon. unfold offset_to_decimal_float, c, d0. cbn [dt_offset longitude]. lra. }
  destruct (day_fraction_negative self f ltac:(lra)) as (sn & En & Hsn).
  destruct (day_fraction_negative self (f - h / 360) ltac:(lra)) as (sr & Er & Hsr).
  destruct (day_fraction_negative self (f + h / 360) ltac:(lra)) as (ss & Es & Hss).
  rewrite Edate in En, Er, Es.
  eexists; eexists; eexists. split; [| split; [| split; [| split]]].
  - cbn [from_event_name event_time degrees_below_horizon solar_direction].
    rewrite Hh. fold f. rewrite Er. reflexivity.
  - unfold solar_noon. fold f. rewrite En. reflexivity.
  - cbn [from_event_name event_time degrees_below_horizon solar_direction].
    rewrite Hh. fold f. rewrite Es. reflexivity.
  - rewrite !instant_eq. unfold from_local_date_and_time, ndt_total. cbn [dt_local dt_offset ndt_day ndt_secs].
    assert (IZR sn < IZR sr) by (clear -Hsn Hsr Hf Hhb; lra). apply lt_IZR in H. lia.
  - rewrite !instant_eq. unfold from_local_date_and_time, ndt_total. cbn [dt_local dt_offset ndt_day ndt_secs].
    assert (IZR ss < IZR sn) by (clear -Hsn Hss Hf Hhb; lra). apply lt_IZR in H. lia.
Qed.

(** ** C5, C6: the wait scheduler *)

Module WaitProofs.
Import Wait.

(** C5.  If the wake time (event instant plus signed offset) is strictly
    before the clock reading at the start, the wait fails at once with
    [PastEvent] and performs no suspension; otherwise it suspends until exactly
    that absolute instant, and [utils::wait] then returns what the suspension
    returned. *)
Theorem wait_past_event (event : DateTime) (offset : Z) (run_missed_task : bool)
  (now now_after : Z) (sleep_result : result unit HeliocronError) :
  let wait_until := (instant event * ns_per_s + offset)%Z in
  ((wait_until < now)%Z ->
   wait (Some event) offset run_missed_task now now_after sleep_result
   = ([], Err (Runtime PastEvent))) /\
  ((now <= wait_until)%Z ->
   utils_wait now wait_until sleep_result = ([SleepUntil wait_until], sleep_result) /\
   fst (wait (Some event) offset run_missed_task now now_after sleep_result)
   = [SleepUntil wait_until]).
Proof.
  cbv zeta. unfold wait, utils_wait.
  set (wu := (instant event * ns_per_s + offset)%Z).
  split; intros H.
  - replace (wu - now <? 0)%Z with true by (symmetry; apply Z.ltb_lt; lia). reflexivity.
  - replace (wu - now <? 0)%Z with false by (symmetry; apply Z.ltb_ge; lia).
    split; [reflexivity |].
    destruct sleep_result; [| reflexivity].
    destruct run_missed_task; [reflexivity |].
    destruct (30 <? num_seconds (now_after - wu))%Z; reflexivity.
Qed.

(** The instant used in the C6 counterexample: 1970-01-01T00:00:00+00:00. *)
Definition epoch : DateTime := mkDT (mkNDT 0 0) 0.

(** C6 (counterexample).  With run_missed_task = false, a wake time equal to the
    start time and a clock 30.5 s past the wake time after the suspension, the
    overrun exceeds 30 s but the wait succeeds: the overrun is truncated to 30
    whole seconds first. *)
Lemma wait_overrun_30_5s_succeeds :
  (30500000000 - (instant epoch * ns_per_s + 0) > 30 * ns_per_s)%Z /\
  wait (Some epoch) 0 false 0 30500000000 (Ok tt) = ([SleepUntil 0%Z], Ok tt).
Proof. split; vm_compute; reflexivity. Qed.

(** C6 (amended).  Once the suspension has returned, the wait succeeds when
    run_missed_task is true; otherwise, with n the overrun truncated to whole
    seconds, it fails with [EventMissed n] exactly when n > 30, that is when
    the clock is at least 31 s past the wake time, and succeeds otherwise. *)
Theorem wait_missed_tolerance (event : DateTime) (offset : Z) (run_missed_task : bool)
  (now now_after : Z) (Hstart : (now <= instant event * ns_per_s + offset)%Z) :
  let wait_until := (instant event * ns_per_s + offset)%Z in
  let missed_by := num_seconds (now_after - wait_until) in
  snd (wait (Some event) offset run_missed_task now now_after (Ok tt))
  = (if run_missed_task then Ok tt
     else if (30 <? missed_by)%Z then Err (Runtime (EventMissed missed_by)) else Ok tt) /\
  ((now_after >= wait_until)%Z ->
   ((30 < missed_by)%Z <-> (now_after - wait_until >= 31 * ns_per_s)%Z)).
Proof.
  cbv zeta. set (wu := (instant event * ns_per_s + offset)%Z) in *.
  split.
  - unfold wait, utils_wait. fold wu.
    replace (wu - now <? 0)%Z with false by (symmetry; apply Z.ltb_ge; lia).
    simpl. destruct run_missed_task; [reflexivity |].
    destruct (30 <? num_seconds (now_after - wu))%Z; reflexivity.
  - intros H. unfold num_seconds, ns_per_s.
    rewrite Z.quot_div_nonneg by lia.
    split; intros H'.
    + assert (31 <= (now_after - wu) / 1000000000)%Z by lia.
      pose proof (Z.mul_div_le (now_after - wu) 1000000000 ltac:(lia)). lia.
    + assert (31 <= (now_after - wu) / 1000000000)%Z by (apply Z.div_le_lower_bound; lia).
      lia.
Qed.
Lemma wait_missed_tolerance_witness :
  (0 <= instant epoch * ns_per_s + 0)%Z /\
  let wait_until := (instant epoch * ns_per_s + 0)%Z in
  let missed_by := num_seconds (40000000000 - wait_until) in
  snd (wait (Some epoch) 0 false 0 40000000000 (Ok tt))
  = (if false then Ok tt
     else if (30 <? missed_by)%Z then Err (Runtime (EventMissed missed_by)) else Ok tt) /\
  ((40000000000 >= wait_until)%Z ->
   ((30 < missed_by)%Z <-> (40000000000 - wait_until >= 31 * ns_per_s)%Z)).
Proof.
  split; [vm_compute; discriminate | apply (wait_missed_tolerance epoch 0 false 0 40000000000); vm_compute; discriminate].
Defined.


End WaitProofs.

(** ** C7: constructing an event from its name *)

Module EnumsProofs.
Import Enums.

(** C7 (counterexample).  Names outside the vocabulary are accepted: "Sunrise"
    (lower-cased first), "sunrise" between no-break spaces (U+00A0, trimmed as
    whitespace) and "civil_dus" followed by the Kelvin sign (U+212A, whose
    lowercase is "k"); and [custom_am] without an altitude is not rejected
    with an error: the [unwrap] panics.  No capital sigma occurs in these
    names, so the properties Cased and Case_Ignorable are never consulted and
    are given as constants here. *)
Lemma event_new_capitalised_and_missing_altitude :
  ~ In (lit "Sunrise") vocabulary /\
  new (fun _ => false) (fun _ => false) (lit "Sunrise") None = Ret (Ok (Sunrise 0.833 AM)) /\
  ~ In ([0xA0] ++ lit "sunrise" ++ [0xA0])%Z vocabulary /\
  new (fun _ => false) (fun _ => false) ([0xA0] ++ lit "sunrise" ++ [0xA0])%Z None
    = Ret (Ok (Sunrise 0.833 AM)) /\
  ~ In (lit "civil_dus" ++ [0x212A])%Z vocabulary /\
  new (fun _ => false) (fun _ => false) (lit "civil_dus" ++ [0x212A])%Z None
    = Ret (Ok (CivilDusk 6 PM)) /\
  new (fun _ => false) (fun _ => false) (lit "custom_am") None = Panic.
Proof.
  repeat split; try (vm_compute; reflexivity);
    vm_compute; intros H; repeat destruct H as [H | H]; try discriminate H; exact H.
Qed.

(** C7 (amended).  [Event::new] trims surrounding Unicode whitespace and
    lower-cases the name by Unicode case mapping; it returns [Err(Config(InvalidEvent))] exactly when the
    normalised name is outside the vocabulary; for a non-custom event it
    succeeds with or without an altitude, ignoring it; for [custom_am] and
    [custom_pm] it succeeds with the supplied altitude and panics (unwrap on
    [None]) when none is supplied. *)
Theorem event_new_normalised (Cased Case_Ignorable : Z -> bool) (name : str) (alt : option R) :
  let n := to_lowercase Cased Case_Ignorable (trim name) in
  (new Cased Case_Ignorable name alt = Ret (Err (Config InvalidEvent)) <-> ~ In n vocabulary) /\
  (In n vocabulary -> is_custom n = false ->
     exists e, new Cased Case_Ignorable name alt = Ret (Ok e) /\
               new Cased Case_Ignorable name None = Ret (Ok e)) /\
  (is_custom n = true ->
     (forall a, exists e, new Cased Case_Ignorable name (Some a) = Ret (Ok e)) /\
     new Cased Case_Ignorable name None = Panic).
Proof.
  cbv zeta. unfold new, is_custom. cbv zeta.
  generalize (to_lowercase Cased Case_Ignorable (trim name)) as n. intros n.
  repeat match goal with
    | |- context [str_eq_dec n ?lit] =>
        destruct (str_eq_dec n lit) as [E | ?]; [subst n |]
    end.
  all: unfold vocabulary; destruct alt as [b |]; repeat split; intros;
    first [ discriminate | reflexivity
          | (eexists; split; reflexivity) | (eexists; reflexivity)
          | (exfalso; match goal with H : ~ In _ _ |- _ => apply H; simpl; tauto end)
          | (match goal with H : In _ _ |- _ => simpl in H; intuition congruence end)
          | (simpl; intuition congruence) ].
Qed.

End EnumsProofs.

(** * Further properties of the code *)

(** ** Julian dates *)

(** The Julian day number of the day number [z], by the formula of [to_julian_date]. *)
Definition julian_day_of (z : Z) : Z :=
  let '(y, m, d) := Calendar.civil_from_days z in julian_day_number y m d.

(** Checks [julian_day_of k = k + 2440588] for the [n] days from [z]. *)
Fixpoint julian_day_linear_from (z : Z) (n : nat) : bool :=
  match n with
  | O => true
  | S n' => Z.eqb (julian_day_of z) (z + 2440588) && julian_day_linear_from (z + 1) n'
  end.

Lemma julian_day_linear_from_sound (n : nat) : forall z k,
  julian_day_linear_from z n = true -> (z <= k < z + Z.of_nat n)%Z ->
  julian_day_of k = (k + 2440588)%Z.
Proof.
  induction n as [| n IH]; intros z k H Hk; [lia |].
  simpl in H. apply Bool.andb_true_iff in H as [H1 H2].
  destruct (Z.eq_dec k z) as [-> | Hne]; [apply Z.eqb_eq, H1 |].
  apply (IH (z + 1)%Z); [exact H2 | lia].
Qed.

Lemma julian_day_linear (k : Z) :
  (Calendar.days_from_civil 1900 3 1 <= k <= Calendar.days_from_civil 2100 2 28)%Z ->
  julian_day_of k = (k + 2440588)%Z.
Proof.
  intros Hk.
  apply (julian_day_linear_from_sound (Z.to_nat 73049) (-25508)%Z).
  - vm_compute. reflexivity.
  - replace (Calendar.days_from_civil 1900 3 1) with (-25508)%Z in Hk by reflexivity.
    replace (Calendar.days_from_civil 2100 2 28) with 47540%Z in Hk by reflexivity.
    rewrite Z2Nat.id by lia. lia.
Qed.

Lemma to_julian_date_day (n : NaiveDateTime) : (0 <= ndt_secs n < 86400)%Z ->
  to_julian_date n = IZR (julian_day_of (ndt_day n)) + IZR (ndt_secs n) / 86400 - 0.5.
Proof.
  intros Hs. unfold julian_day_of.
  destruct (Calendar.civil_from_days (ndt_day n)) as [[y m] d] eqn:Hc.
  rewrite (to_julian_date_eq n y m d Hc Hs). reflexivity.
Qed.

(** X1.  [to_julian_date] is linear in the date exactly on 1900-03-01 ..
    2100-02-28: there the Julian date of a UTC date-time is
    2440587.5 + day number + seconds / 86400.  Outside, the formula's
    [(year + (month + 9) / 12)] term makes it jump by two days at the turn of
    February into March of 1900 and of 2100. *)
Theorem to_julian_date_linear :
  (forall n : NaiveDateTime,
     (Calendar.days_from_civil 1900 3 1 <= ndt_day n <= Calendar.days_from_civil 2100 2 28)%Z ->
     (0 <= ndt_secs n < 86400)%Z ->
     to_julian_date n = 2440587.5 + IZR (ndt_day n) + IZR (ndt_secs n) / 86400) /\
  to_julian_date (mkNDT (Calendar.days_from_civil 2100 3 1) 0)
    = to_julian_date (mkNDT (Calendar.days_from_civil 2100 2 28) 0) + 2 /\
  to_julian_date (mkNDT (Calendar.days_from_civil 1900 3 1) 0)
    = to_julian_date (mkNDT (Calendar.days_from_civil 1900 2 28) 0) + 2.
Proof.
  split; [| split].
  - intros n Hd Hs. rewrite (to_julian_date_day n Hs), (julian_day_linear _ Hd).
    rewrite plus_IZR. lra.
  - rewrite !to_julian_date_day by (cbn; lia).
    replace (julian_day_of (ndt_day (mkNDT (Calendar.days_from_civil 2100 3 1) 0))) with 2488130%Z
      by (vm_compute; reflexivity).
    replace (julian_day_of (ndt_day (mkNDT (Calendar.days_from_civil 2100 2 28) 0))) with 2488128%Z
      by (vm_compute; reflexivity).
    cbn [ndt_secs]. lra.
  - rewrite !to_julian_date_day by (cbn; lia).
    replace (julian_day_of (ndt_day (mkNDT (Calendar.days_from_civil 1900 3 1) 0))) with 2415080%Z
      by (vm_compute; reflexivity).
    replace (julian_day_of (ndt_day (mkNDT (Calendar.days_from_civil 1900 2 28) 0))) with 2415078%Z
      by (vm_compute; reflexivity).
    cbn [ndt_secs]. lra.
Qed.

Lemma to_julian_date_dt_eq (d : DateTime) :
  to_julian_date_dt d = to_julian_date (naive_utc d)
    + IZR (julian_day_of (ndt_day (dt_local d)) - julian_day_of (ndt_day (naive_utc d))).
Proof.
  unfold to_julian_date_dt, to_julian_date, julian_day_of, julian_day_number.
  destruct (Calendar.civil_from_days (ndt_day (dt_local d))) as [[y m] dd].
  destruct (Calendar.civil_from_days (ndt_day (naive_utc d))) as [[y' m'] dd'].
  cbv beta iota zeta. rewrite !minus_IZR. lra.
Qed.

Lemma to_julian_date_in_range (n : NaiveDateTime) :
  (Calendar.days_from_civil 1900 3 1 <= ndt_day n <= Calendar.days_from_civil 2100 2 28)%Z ->
  (0 <= ndt_secs n < 86400)%Z ->
  to_julian_date n = 2440587.5 + IZR (ndt_day n) + IZR (ndt_secs n) / 86400.
Proof.
  intros Hd Hs. rewrite (to_julian_date_day n Hs), (julian_day_linear _ Hd).
  rewrite plus_IZR. lra.
Qed.

Lemma naive_utc_secs (d : DateTime) : (0 <= ndt_secs (naive_utc d) < 86400)%Z.
Proof. unfold naive_utc, ndt_of_total. cbn [ndt_secs]. apply Z.mod_pos_bound. lia. Qed.

(** Between 2000-01-02 and 2099-12-31 (UTC), the Julian century of [new] lies in [0, 1]. *)
Lemma julian_century_21st (d : DateTime) :
  (Calendar.days_from_civil 2000 1 2 <= ndt_day (naive_utc d)
     <= Calendar.days_from_civil 2099 12 31)%Z ->
  0 <= julian_century d <= 1.
Proof.
  intros Hd.
  replace (Calendar.days_from_civil 2000 1 2) with 10958%Z in Hd by reflexivity.
  replace (Calendar.days_from_civil 2099 12 31) with 47481%Z in Hd by reflexivity.
  pose proof (naive_utc_secs d) as Hs.
  unfold julian_century.
  rewrite to_julian_date_in_range by
    (first [ exact Hs | change (-25508 <= ndt_day (naive_utc d) <= 47540)%Z; lia ]).
  destruct Hs as [Hs0 Hs1]. apply IZR_le in Hs0. apply IZR_lt in Hs1.
  destruct Hd as [Hd0 Hd1]. apply IZR_le in Hd0. apply IZR_le in Hd1.
  split; unfold Rdiv; nra.
Qed.

(** X8.  For UTC dates in 2000-01-02 .. 2099-12-31, the solar noon fraction of
    [new] is within 19 minutes of 12:00 local mean time, i.e. of
    720 - 4 * longitude + 60 * offset minutes. *)
Theorem solar_noon_near_mean_noon (d : DateTime) (c : Coordinates) :
  (Calendar.days_from_civil 2000 1 2 <= ndt_day (naive_utc d)
     <= Calendar.days_from_civil 2099 12 31)%Z ->
  Rabs (solar_noon_fraction (new d c) * 1440
        - (720 - 4 * longitude c + offset_to_decimal_float (dt_offset d) * 60)) <= 19.
Proof.
  intros Hd. destruct (new_fields d c) as (_ & _ & _ & En & _). rewrite En.
  pose proof (equation_of_time_bounds _ (julian_century_21st d Hd)).
  apply Rabs_le. split; lra.
Qed.

(** X9.  On the equator, for UTC dates in 2000-01-02 .. 2099-12-31, every
    longitude in [-180, 180] and every offset up to 14 hours, [new] gives a
    sunrise and a sunset, and computing them does not panic. *)
Theorem equator_sunrise_and_sunset (d : DateTime) (c : Coordinates)
  (Hlat : latitude c = 0) (Hlon : -180 <= longitude c <= 180)
  (Hoff : (Z.abs (dt_offset d) <= 50400)%Z)
  (Hd : (Calendar.days_from_civil 2000 1 2 <= ndt_day (naive_utc d)
          <= Calendar.days_from_civil 2099 12 31)%Z) :
  exists sunrise sunset,
    event_time (new d c) (from_event_name Sunrise) = Ret (Some sunrise) /\
    event_time (new d c) (from_event_name Sunset) = Ret (Some sunset).
Proof.
  set (self := new d c).
  pose proof (julian_century_21st d Hd) as Hj.
  destruct (new_fields d c) as (Ed & Ec & Edecl & En & _). fold self in Ed, Ec, Edecl, En.
  set (jc := julian_century d) in *.
  assert (Hp : Rabs (sin_declination_at jc) <= 0.41).
  { unfold sin_declination_at. pose proof (sin_oblique_bounds jc Hj).
    pose proof (SIN_bound (to_radians (solar_apparent_longitude_at jc))).
    rewrite Rabs_mult. apply Rabs_le in H0 as ?.
    rewrite (Rabs_right (sin (to_radians (oblique_corrected_at jc)))) by lra.
    assert (Rabs (sin (to_radians (solar_apparent_longitude_at jc))) <= 1) by (apply Rabs_le; lra).
    pose proof (Rabs_pos (sin (to_radians (solar_apparent_longitude_at jc)))). nra. }
  destruct (hour_angle_equator self (sin_declination_at jc)) as (h & Eh & Hh);
    [rewrite Ec; exact Hlat | exact Edecl | exact Hp |].
  pose proof (equation_of_time_bounds jc Hj).
  assert (Ht : -840 <= offset_to_decimal_float (dt_offset d) * 60 <= 840).
  { unfold offset_to_decimal_float.
    assert (-50400 <= IZR (dt_offset d) <= 50400) by (split; apply IZR_le; lia).
    split; lra. }
  assert (Hn : -0.6 < solar_noon_fraction self < 1.6) by (rewrite En; split; lra).
  unfold event_time, from_event_name. cbn [degrees_below_horizon solar_direction].
  rewrite Eh.
  destruct (day_fraction_conversion_total self (solar_noon_fraction self - h / 360)
              ltac:(split; lra)) as (_ & _ & E1).
  destruct (day_fraction_conversion_total self (solar_noon_fraction self + h / 360)
              ltac:(split; lra)) as (_ & _ & E2).
  rewrite E1, E2. do 2 eexists. split; reflexivity.
Qed.

Definition equinox_2020_noon : DateTime :=
  mkDT (mkNDT (Calendar.days_from_civil 2020 3 20) 43200) 0.

Lemma solar_noon_near_mean_noon_witness :
  (Calendar.days_from_civil 2000 1 2 <= ndt_day (naive_utc equinox_2020_noon)
     <= Calendar.days_from_civil 2099 12 31)%Z /\
  Rabs (solar_noon_fraction (new equinox_2020_noon (mkCoordinates 51.5 (-0.1))) * 1440
        - (720 - 4 * longitude (mkCoordinates 51.5 (-0.1))
           + offset_to_decimal_float (dt_offset equinox_2020_noon) * 60)) <= 19.
Proof.
  assert (H : (Calendar.days_from_civil 2000 1 2 <= ndt_day (naive_utc equinox_2020_noon)
                 <= Calendar.days_from_civil 2099 12 31)%Z)
    by (split; vm_compute; discriminate).
  split; [exact H | apply (solar_noon_near_mean_noon equinox_2020_noon (mkCoordinates 51.5 (-0.1)) H)].
Defined.

Lemma equator_sunrise_and_sunset_witness :
  latitude (mkCoordinates 0 0) = 0 /\ -180 <= longitude (mkCoordinates 0 0) <= 180 /\
  (Z.abs (dt_offset equinox_2020_noon) <= 50400)%Z /\
  (Calendar.days_from_civil 2000 1 2 <= ndt_day (naive_utc equinox_2020_noon)
     <= Calendar.days_from_civil 2099 12 31)%Z /\
  exists sunrise sunset,
    event_time (new equinox_2020_noon (mkCoordinates 0 0)) (from_event_name Sunrise)
      = Ret (Some sunrise) /\
    event_time (new equinox_2020_noon (mkCoordinates 0 0)) (from_event_name Sunset)
      = Ret (Some sunset).
Proof.
  assert (H : (Calendar.days_from_civil 2000 1 2 <= ndt_day (naive_utc equinox_2020_noon)
                 <= Calendar.days_from_civil 2099 12 31)%Z)
    by (split; vm_compute; discriminate).
  split; [reflexivity |]. split; [cbn; lra |]. split; [cbn; lia |]. split; [exact H |].
  apply (equator_sunrise_and_sunset equinox_2020_noon (mkCoordinates 0 0));
    [reflexivity | cbn; lra | cbn; lia | exact H].
Defined.

(** X2.  [SolarReport::run] reads the Julian date off the local date and the
    UTC time of day: for dates in 1900-03-01 .. 2100-02-28 it is the Julian
    date of the UTC date-time plus the number of days the local date is ahead
    of the UTC date. *)
Theorem report_julian_date_local_day (d : DateTime)
  (Hl : (Calendar.days_from_civil 1900 3 1 <= ndt_day (dt_local d)
           <= Calendar.days_from_civil 2100 2 28)%Z)
  (Hu : (Calendar.days_from_civil 1900 3 1 <= ndt_day (naive_utc d)
           <= Calendar.days_from_civil 2100 2 28)%Z) :
  to_julian_date_dt d
  = to_julian_date (naive_utc d) + IZR (ndt_day (dt_local d) - ndt_day (naive_utc d)).
Proof.
  rewrite to_julian_date_dt_eq, (julian_day_linear _ Hl), (julian_day_linear _ Hu).
  f_equal. f_equal. lia.
Qed.

(** 2020-03-16 00:30 at UTC+01:00, which is 2020-03-15 23:30 UTC. *)
Definition half_past_midnight_cet : DateTime :=
  mkDT (mkNDT (Calendar.days_from_civil 2020 3 16) 1800) 3600.

Lemma report_julian_date_local_day_witness :
  (Calendar.days_from_civil 1900 3 1 <= ndt_day (dt_local half_past_midnight_cet)
     <= Calendar.days_from_civil 2100 2 28)%Z /\
  (Calendar.days_from_civil 1900 3 1 <= ndt_day (naive_utc half_past_midnight_cet)
     <= Calendar.days_from_civil 2100 2 28)%Z /\
  to_julian_date_dt half_past_midnight_cet
  = to_julian_date (naive_utc half_past_midnight_cet)
    + IZR (ndt_day (dt_local half_past_midnight_cet) - ndt_day (naive_utc half_past_midnight_cet)) /\
  (ndt_day (dt_local half_past_midnight_cet) - ndt_day (naive_utc half_past_midnight_cet) = 1)%Z.
Proof.
  assert (H1 : (Calendar.days_from_civil 1900 3 1 <= ndt_day (dt_local half_past_midnight_cet)
                  <= Calendar.days_from_civil 2100 2 28)%Z) by (split; vm_compute; discriminate).
  assert (H2 : (Calendar.days_from_civil 1900 3 1 <= ndt_day (naive_utc half_past_midnight_cet)
                  <= Calendar.days_from_civil 2100 2 28)%Z) by (split; vm_compute; discriminate).
  split; [exact H1 |]. split; [exact H2 |]. split.
  - exact (report_julian_date_local_day half_past_midnight_cet H1 H2).
  - vm_compute. reflexivity.
Defined.

(** ** Parts of the day and altitudes *)

(** X3.  [DayPart::from_elevation_angle] is monotone: a higher elevation never
    gives a darker part of the day; it gives [Day] exactly from 0.833 degrees
    up and [Night] exactly below -18 degrees. *)
Theorem from_elevation_angle_monotone :
  (forall a1 a2, a1 <= a2 ->
     (day_part_rank (from_elevation_angle a1) <= day_part_rank (from_elevation_angle a2))%nat) /\
  (forall a, from_elevation_angle a = Day <-> 0.833 <= a) /\
  (forall a, from_elevation_angle a = Night <-> a < -18).
Proof.
  split; [| split].
  - intros a1 a2 H. unfold from_elevation_angle.
    repeat destruct Rlt_dec; simpl; lia || lra.
  - intros a. unfold from_elevation_angle.
    repeat destruct Rlt_dec; split; intros; try discriminate; try reflexivity; lra.
  - intros a. unfold from_elevation_angle.
    repeat destruct Rlt_dec; split; intros; try discriminate; try reflexivity; lra.
Qed.

(** X4.  [Altitude::from] panics exactly on values outside [-90, 90]; the
    constants that [Event::from_event_name] converts with [.into()] are all in
    range, so it never panics. *)
Theorem from_event_name_never_panics :
  (forall alt, altitude_from alt = Panic <-> alt < -90 \/ 90 < alt) /\
  (forall event, from_event_name_checked event = Ret (from_event_name event)).
Proof.
  split.
  - intros alt. unfold altitude_from, altitude_new.
    repeat destruct Rle_dec; split; intros; try discriminate; try reflexivity; lra.
  - intros []; unfold from_event_name_checked, altitude_from, altitude_new;
      repeat (destruct Rle_dec; [| lra]); reflexivity.
Qed.

(** ** Hour angles and the order of the day's events *)

Lemma acos_antitone (x y : R) : -1 <= x -> x <= y -> y <= 1 -> acos y <= acos x.
Proof.
  intros Hx Hxy Hy.
  pose proof (acos_bound x). pose proof (acos_bound y).
  apply cos_decr_0; try lra.
  rewrite !cos_acos by lra. lra.
Qed.

Lemma cos_radians_pos (x : R) : -90 < x < 90 -> 0 < cos (to_radians x).
Proof.
  intros Hx. pose proof PI_RGT_0. apply cos_gt_0; unfold to_radians; nra.
Qed.

(** A defined hour angle lies in [0, 180] and grows with the depression of the
    event below the horizon. *)
Lemma hour_angle_range (self : SolarCalculations) (a h : R) :
  hour_angle self a = Some h -> 0 <= h <= 180.
Proof.
  unfold hour_angle, acos_f64.
  repeat destruct Rle_dec; simpl; intros E; try discriminate.
  injection E as <-. pose proof PI_RGT_0.
  match goal with |- context [acos ?x] => pose proof (acos_bound x) end.
  unfold to_degrees. split.
  - apply Rmult_le_pos; [lra |]. apply Rlt_le, Rdiv_lt_0_compat; lra.
  - replace 180 with (PI * (180 / PI)) at 2 by (field; lra).
    apply Rmult_le_compat_r; [apply Rlt_le, Rdiv_lt_0_compat; lra | lra].
Qed.

Lemma hour_angle_some (self : SolarCalculations) (a h : R) :
  hour_angle self a = Some h ->
  -1 <= hour_angle_arg self a <= 1 /\ h = to_degrees (acos (hour_angle_arg self a)).
Proof.
  unfold hour_angle, acos_f64. fold (hour_angle_arg self a).
  repeat destruct Rle_dec; simpl; intros E; try discriminate.
  injection E as <-. split; [lra | reflexivity].
Qed.

Lemma hour_angle_arg_antitone (self : SolarCalculations) (a1 a2 : R) :
  -90 < latitude (coordinates self) < 90 -> -90 < solar_declination self < 90 ->
  -90 <= a1 -> a1 <= a2 -> a2 <= 90 ->
  hour_angle_arg self a2 <= hour_angle_arg self a1.
Proof.
  intros Hl Hd H1 H12 H2. pose proof PI_RGT_0.
  pose proof (cos_radians_pos _ Hl). pose proof (cos_radians_pos _ Hd).
  unfold hour_angle_arg. rewrite (to_radians_f64_inner _ Hl), (to_radians_f64_inner _ Hd).
  assert (Hc : cos (to_radians (a2 + 90)) <= cos (to_radians (a1 + 90))).
  { apply cos_decr_1; unfold to_radians; nra. }
  apply Rplus_le_compat_r. unfold Rdiv. apply Rmult_le_compat_r; [| exact Hc].
  apply Rlt_le, Rinv_0_lt_compat, Rmult_lt_0_compat; assumption.
Qed.

Lemma hour_angle_monotone_aux (self : SolarCalculations) (a1 a2 h1 h2 : R) :
  -90 < latitude (coordinates self) < 90 -> -90 < solar_declination self < 90 ->
  -90 <= a1 -> a1 <= a2 -> a2 <= 90 ->
  hour_angle self a1 = Some h1 -> hour_angle self a2 = Some h2 ->
  0 <= h1 /\ h1 <= h2 /\ h2 <= 180.
Proof.
  intros Hl Hd H1 H12 H2 E1 E2.
  pose proof (hour_angle_range _ _ _ E1). pose proof (hour_angle_range _ _ _ E2).
  destruct (hour_angle_some _ _ _ E1) as [B1 ->]. destruct (hour_angle_some _ _ _ E2) as [B2 ->].
  split; [lra | split; [| lra]].
  pose proof (hour_angle_arg_antitone self a1 a2 Hl Hd H1 H12 H2).
  pose proof PI_RGT_0. unfold to_degrees.
  apply Rmult_le_compat_r; [apply Rlt_le, Rdiv_lt_0_compat; lra |].
  apply acos_antitone; lra.
Qed.

(** A fraction in [0, 1) keeps the date; its time is the floor of 86400 f. *)
Lemma day_fraction_within (self : SolarCalculations) (f : R) : 0 <= f < 1 ->
  exists secs, day_fraction_to_datetime self f
    = Ret (from_local_date_and_time (dt_offset (date self))
             (ndt_day (dt_local (date self))) secs) /\
    IZR secs <= f * 86400 < IZR secs + 1.
Proof.
  intros Hf. rewrite day_fraction_to_datetime_eq. unfold rollover.
  destruct (Rlt_dec f 0); [lra |]. destruct (Rle_dec 1 f); [lra |].
  destruct (time_of_fraction_components f Hf) as (_ & _ & _ & _ & Et & Hs).
  eexists. split; [simpl; rewrite Et; reflexivity | exact Hs].
Qed.

Lemma instant_same_day (off day s1 s2 : Z) :
  (instant (from_local_date_and_time off day s2) - instant (from_local_date_and_time off day s1)
   = s2 - s1)%Z.
Proof.
  rewrite !instant_eq. unfold from_local_date_and_time, ndt_total. simpl. lia.
Qed.

Lemma floor_le (s1 s2 : Z) (x1 x2 : R) :
  IZR s1 <= x1 -> x1 <= x2 -> x2 < IZR s2 + 1 -> (s1 <= s2)%Z.
Proof.
  intros H1 H12 H2. assert (IZR s1 < IZR (s2 + 1)) by (rewrite plus_IZR; lra).
  apply lt_IZR in H. lia.
Qed.

Lemma event_time_fixed_some (self : SolarCalculations) (a h : R) (dir : Direction) :
  hour_angle self a = Some h ->
  event_time self (Fixed (mkFixed a dir))
  = (d <- day_fraction_to_datetime self
            (match dir with
             | Ascending => solar_noon_fraction self - h / 360
             | Descending => solar_noon_fraction self + h / 360
             end) ;; Ret (Some d)).
Proof.
  intros E. cbn [event_time degrees_below_horizon solar_direction]. rewrite E. reflexivity.
Qed.

(** X6.  When the hour angles of two depressions [a1 <= a2] are defined and the
    deeper event's dawn and dusk fractions fall within the same day, the
    events come in the order dawn at [a2], dawn at [a1], solar noon, dusk at
    [a1], dusk at [a2]. *)
Theorem event_times_ordered_within_day (self : SolarCalculations) (a1 a2 h1 h2 : R)
  (Hlat : -90 < latitude (coordinates self) < 90)
  (Hdecl : -90 < solar_declination self < 90)
  (Ha : -90 <= a1 <= a2) (Ha2 : a2 <= 90)
  (E1 : hour_angle self a1 = Some h1) (E2 : hour_angle self a2 = Some h2)
  (Hlo : 0 <= solar_noon_fraction self - h2 / 360)
  (Hhi : solar_noon_fraction self + h2 / 360 < 1) :
  exists dawn2 dawn1 noon dusk1 dusk2,
    event_time self (Fixed (mkFixed a2 Ascending)) = Ret (Some dawn2) /\
    event_time self (Fixed (mkFixed a1 Ascending)) = Ret (Some dawn1) /\
    solar_noon self = Ret (Some noon) /\
    event_time self (Fixed (mkFixed a1 Descending)) = Ret (Some dusk1) /\
    event_time self (Fixed (mkFixed a2 Descending)) = Ret (Some dusk2) /\
    (instant dawn2 <= instant dawn1 <= instant noon)%Z /\
    (instant noon <= instant dusk1 <= instant dusk2)%Z.
Proof.
  destruct (hour_angle_monotone_aux self a1 a2 h1 h2 Hlat Hdecl ltac:(lra) ltac:(lra) Ha2 E1 E2)
    as (H0 & H12 & H180).
  set (N := solar_noon_fraction self) in *.
  destruct (day_fraction_within self (N - h2 / 360) ltac:(lra)) as (s1 & Q1 & B1).
  destruct (day_fraction_within self (N - h1 / 360) ltac:(lra)) as (s2 & Q2 & B2).
  destruct (day_fraction_within self N ltac:(lra)) as (s3 & Q3 & B3).
  destruct (day_fraction_within self (N + h1 / 360) ltac:(lra)) as (s4 & Q4 & B4).
  destruct (day_fraction_within self (N + h2 / 360) ltac:(lra)) as (s5 & Q5 & B5).
  do 5 eexists. split; [| split; [| split; [| split; [| split; [| split]]]]].
  - rewrite (event_time_fixed_some self a2 h2 Ascending E2). fold N. rewrite Q1. reflexivity.
  - rewrite (event_time_fixed_some self a1 h1 Ascending E1). fold N. rewrite Q2. reflexivity.
  - unfold solar_noon. fold N. rewrite Q3. reflexivity.
  - rewrite (event_time_fixed_some self a1 h1 Descending E1). fold N. rewrite Q4. reflexivity.
  - rewrite (event_time_fixed_some self a2 h2 Descending E2). fold N. rewrite Q5. reflexivity.
  - pose proof (floor_le s1 s2 ((N - h2 / 360) * 86400) ((N - h1 / 360) * 86400)
                  ltac:(lra) ltac:(nra) ltac:(lra)).
    pose proof (floor_le s2 s3 ((N - h1 / 360) * 86400) (N * 86400)
                  ltac:(lra) ltac:(nra) ltac:(lra)).
    pose proof (instant_same_day (dt_offset (date self)) (ndt_day (dt_local (date self))) s1 s2).
    pose proof (instant_same_day (dt_offset (date self)) (ndt_day (dt_local (date self))) s2 s3).
    lia.
  - pose proof (floor_le s3 s4 (N * 86400) ((N + h1 / 360) * 86400)
                  ltac:(lra) ltac:(nra) ltac:(lra)).
    pose proof (floor_le s4 s5 ((N + h1 / 360) * 86400) ((N + h2 / 360) * 86400)
                  ltac:(lra) ltac:(nra) ltac:(lra)).
    pose proof (instant_same_day (dt_offset (date self)) (ndt_day (dt_local (date self))) s3 s4).
    pose proof (instant_same_day (dt_offset (date self)) (ndt_day (dt_local (date self))) s4 s5).
    lia.
Qed.

(** X7.  When dawn and dusk at a depression fall within the same day, solar
    noon lies midway between them, to within one second of truncation. *)
Theorem solar_noon_midway (self : SolarCalculations) (a h : R)
  (E : hour_angle self a = Some h)
  (Hlo : 0 <= solar_noon_fraction self - h / 360)
  (Hhi : solar_noon_fraction self + h / 360 < 1) :
  exists dawn noon dusk,
    event_time self (Fixed (mkFixed a Ascending)) = Ret (Some dawn) /\
    solar_noon self = Ret (Some noon) /\
    event_time self (Fixed (mkFixed a Descending)) = Ret (Some dusk) /\
    (Z.abs ((instant dusk - instant noon) - (instant noon - instant dawn)) <= 1)%Z.
Proof.
  pose proof (hour_angle_range self a h E) as Hh.
  set (N := solar_noon_fraction self) in *.
  destruct (day_fraction_within self (N - h / 360) ltac:(lra)) as (s1 & Q1 & B1).
  destruct (day_fraction_within self N ltac:(lra)) as (s2 & Q2 & B2).
  destruct (day_fraction_within self (N + h / 360) ltac:(lra)) as (s3 & Q3 & B3).
  do 3 eexists. split; [| split; [| split]].
  - rewrite (event_time_fixed_some self a h Ascending E). fold N. rewrite Q1. reflexivity.
  - unfold solar_noon. fold N. rewrite Q2. reflexivity.
  - rewrite (event_time_fixed_some self a h Descending E). fold N. rewrite Q3. reflexivity.
  - rewrite (instant_same_day _ _ s2 s3), (instant_same_day _ _ s1 s2).
    assert (IZR (s3 - s2 - (s2 - s1)) < 2) by (rewrite !minus_IZR; lra).
    assert (-2 < IZR (s3 - s2 - (s2 - s1))) by (rewrite !minus_IZR; lra).
    apply lt_IZR in H. apply lt_IZR in H0. lia.
Qed.

(** At latitude 0 with declination 0, the hour angle of a depression a is 90 + a. *)
Lemma hour_angle_sample (a : R) : -90 <= a <= 90 ->
  hour_angle sample_calculations a = Some (a + 90).
Proof.
  intros Ha. pose proof PI_RGT_0.
  unfold hour_angle, acos_f64. cbn [sample_calculations coordinates latitude solar_declination].
  assert (E0 : to_radians_f64 0 = 0)
    by (rewrite to_radians_f64_inner by lra; unfold to_radians; ring).
  rewrite !E0, cos_0, tan_0.
  replace (cos (to_radians (a + 90)) / (1 * 1) - 0 * 0) with (cos (to_radians (a + 90))) by field.
  pose proof (COS_bound (to_radians (a + 90))).
  destruct (Rle_dec (-1) _); [| lra]. destruct (Rle_dec _ 1); [| lra].
  simpl. f_equal. unfold to_degrees. rewrite acos_cos.
  - unfold to_radians. field. lra.
  - unfold to_radians. split; nra.
Qed.

Lemma event_times_ordered_within_day_witness :
  (-90 < latitude (coordinates sample_calculations) < 90) /\
  (-90 < solar_declination sample_calculations < 90) /\
  (-90 <= 6 <= 18) /\ 18 <= 90 /\
  hour_angle sample_calculations 6 = Some (6 + 90) /\
  hour_angle sample_calculations 18 = Some (18 + 90) /\
  0 <= solar_noon_fraction sample_calculations - (18 + 90) / 360 /\
  solar_noon_fraction sample_calculations + (18 + 90) / 360 < 1 /\
  exists dawn2 dawn1 noon dusk1 dusk2,
    event_time sample_calculations (Fixed (mkFixed 18 Ascending)) = Ret (Some dawn2) /\
    event_time sample_calculations (Fixed (mkFixed 6 Ascending)) = Ret (Some dawn1) /\
    solar_noon sample_calculations = Ret (Some noon) /\
    event_time sample_calculations (Fixed (mkFixed 6 Descending)) = Ret (Some dusk1) /\
    event_time sample_calculations (Fixed (mkFixed 18 Descending)) = Ret (Some dusk2) /\
    (instant dawn2 <= instant dawn1 <= instant noon)%Z /\
    (instant noon <= instant dusk1 <= instant dusk2)%Z.
Proof.
  assert (H1 : -90 < latitude (coordinates sample_calculations) < 90) by (simpl; lra).
  assert (H2 : -90 < solar_declination sample_calculations < 90) by (simpl; lra).
  assert (H3 : -90 <= 6 <= 18) by lra.
  assert (H4 : 18 <= 90) by lra.
  assert (E1 := hour_angle_sample 6 ltac:(lra)).
  assert (E2 := hour_angle_sample 18 ltac:(lra)).
  assert (H5 : 0 <= solar_noon_fraction sample_calculations - (18 + 90) / 360) by (simpl; lra).
  assert (H6 : solar_noon_fraction sample_calculations + (18 + 90) / 360 < 1) by (simpl; lra).
  split; [exact H1 |]. split; [exact H2 |]. split; [exact H3 |]. split; [exact H4 |].
  split; [exact E1 |]. split; [exact E2 |]. split; [exact H5 |]. split; [exact H6 |].
  exact (event_times_ordered_within_day sample_calculations 6 18 (6 + 90) (18 + 90)
           H1 H2 H3 H4 E1 E2 H5 H6).
Defined.

Lemma solar_noon_midway_witness :
  hour_angle sample_calculations 0.833 = Some (0.833 + 90) /\
  0 <= solar_noon_fraction sample_calculations - (0.833 + 90) / 360 /\
  solar_noon_fraction sample_calculations + (0.833 + 90) / 360 < 1 /\
  exists dawn noon dusk,
    event_time sample_calculations (Fixed (mkFixed 0.833 Ascending)) = Ret (Some dawn) /\
    solar_noon sample_calculations = Ret (Some noon) /\
    event_time sample_calculations (Fixed (mkFixed 0.833 Descending)) = Ret (Some dusk) /\
    (Z.abs ((instant dusk - instant noon) - (instant noon - instant dawn)) <= 1)%Z.
Proof.
  assert (E := hour_angle_sample 0.833 ltac:(lra)).
  assert (H1 : 0 <= solar_noon_fraction sample_calculations - (0.833 + 90) / 360) by (simpl; lra).
  assert (H2 : solar_noon_fraction sample_calculations + (0.833 + 90) / 360 < 1) by (simpl; lra).
  split; [exact E |]. split; [exact H1 |]. split; [exact H2 |].
  exact (solar_noon_midway sample_calculations 0.833 (0.833 + 90) E H1 H2).
Defined.

(** X5.  For a latitude and a declination strictly between -90 and 90, a
    defined hour angle lies in [0, 180] and does not decrease as the
    depression of the event below the horizon grows. *)
Theorem hour_angle_monotone (self : SolarCalculations) (a1 a2 h1 h2 : R)
  (Hlat : -90 < latitude (coordinates self) < 90)
  (Hdecl : -90 < solar_declination self < 90)
  (Ha : -90 <= a1 <= a2) (Ha2 : a2 <= 90)
  (E1 : hour_angle self a1 = Some h1) (E2 : hour_angle self a2 = Some h2) :
  0 <= h1 <= h2 /\ h2 <= 180.
Proof.
  destruct (hour_angle_monotone_aux self a1 a2 h1 h2 Hlat Hdecl
              ltac:(lra) ltac:(lra) Ha2 E1 E2) as (? & ? & ?).
  lra.
Qed.

Lemma hour_angle_monotone_witness :
  (-90 < latitude (coordinates sample_calculations) < 90) /\
  (-90 < solar_declination sample_calculations < 90) /\
  (-90 <= 6 <= 18) /\ 18 <= 90 /\
  hour_angle sample_calculations 6 = Some (6 + 90) /\
  hour_angle sample_calculations 18 = Some (18 + 90) /\
  0 <= 6 + 90 <= 18 + 90 /\ 18 + 90 <= 180.
Proof.
  assert (H1 : -90 < latitude (coordinates sample_calculations) < 90) by (simpl; lra).
  assert (H2 : -90 < solar_declination sample_calculations < 90) by (simpl; lra).
  assert (H3 : -90 <= 6 <= 18) by lra.
  assert (H4 : 18 <= 90) by lra.
  assert (E1 := hour_angle_sample 6 ltac:(lra)).
  assert (E2 := hour_angle_sample 18 ltac:(lra)).
  do 6 (split; [assumption |]).
  exact (hour_angle_monotone sample_calculations 6 18 (6 + 90) (18 + 90) H1 H2 H3 H4 E1 E2).
Defined.

(** ** The solar report against SolarCalculations *)

(** The depression of each twilight type, as [Event::from_event_name] has it. *)
Definition twilight_depression (t : option Report.TwilightType) : R :=
  match t with
  | None => 0.833
  | Some Report.Civil => 6
  | Some Report.Nautical => 12
  | Some Report.Astronomical => 18
  end.

Lemma with_hms_chain (day x off n h m s : Z) :
  (0 <= x < 86400)%Z -> (0 <= h < 24)%Z -> (0 <= m < 60)%Z -> (0 <= s < 60)%Z ->
  (d1 <- Report.with_hour (Report.mkDTN (mkDT (mkNDT day x) off) n)
                          (Report.time_hour (h * 3600 + m * 60 + s)) ;;
   d2 <- Report.with_minute d1 (Report.time_minute (h * 3600 + m * 60 + s)) ;;
   Report.with_second d2 (Report.time_second (h * 3600 + m * 60 + s)))
  = Ret (Report.mkDTN (mkDT (mkNDT day (h * 3600 + m * 60 + s)) off) n).
Proof.
  intros Hx Hh Hm Hs.
  set (t := (h * 3600 + m * 60 + s)%Z).
  assert (Th : Report.time_hour t = h).
  { unfold Report.time_hour, t. symmetry. apply Z.div_unique with (m * 60 + s)%Z; lia. }
  assert (Tm : Report.time_minute t = m).
  { unfold Report.time_minute, t.
    replace (h * 3600 + m * 60 + s)%Z with ((h * 60 + m) * 60 + s)%Z by ring.
    rewrite Z.div_add_l by lia. rewrite (Z.div_small s 60) by lia. rewrite Z.add_0_r.
    rewrite Z.add_comm, Z.mod_add by lia. apply Z.mod_small; lia. }
  assert (Ts : Report.time_second t = s).
  { unfold Report.time_second, t.
    replace (h * 3600 + m * 60 + s)%Z with (s + (h * 60 + m) * 60)%Z by ring.
    rewrite Z.mod_add by lia. apply Z.mod_small; lia. }
  rewrite Th, Tm, Ts.
  unfold Report.with_hour. replace (h <? 24)%Z with true by (symmetry; apply Z.ltb_lt; lia).
  simpl. unfold Report.with_minute. replace (m <? 60)%Z with true by (symmetry; apply Z.ltb_lt; lia).
  simpl. unfold Report.with_second. replace (s <? 60)%Z with true by (symmetry; apply Z.ltb_lt; lia).
  simpl. do 4 f_equal.
  pose proof (Z.div_mod x 3600 ltac:(lia)). pose proof (Z.mod_pos_bound x 3600 ltac:(lia)).
  set (r := (x mod 3600)%Z) in *.
  assert (E1 : ((h * 3600 + r) / 3600 = h)%Z) by (symmetry; apply Z.div_unique with r; lia).
  rewrite E1.
  pose proof (Z.div_mod (h * 3600 + r) 60 ltac:(lia)).
  pose proof (Z.mod_pos_bound (h * 3600 + r) 60 ltac:(lia)).
  set (r2 := ((h * 3600 + r) mod 60)%Z) in *.
  assert (E2 : ((h * 3600 + m * 60 + r2) / 60 = h * 60 + m)%Z)
    by (symmetry; apply Z.div_unique with r2; lia).
  unfold t. rewrite E2. ring.
Qed.

Lemma naive_time_from_hms_ret (h m s t : Z) :
  naive_time_from_hms h m s = Ret t ->
  (0 <= h < 24)%Z /\ (0 <= m < 60)%Z /\ (0 <= s < 60)%Z /\ t = (h * 3600 + m * 60 + s)%Z.
Proof.
  unfold naive_time_from_hms.
  destruct ((0 <=? h)%Z && (h <? 24)%Z && (0 <=? m)%Z && (m <? 60)%Z && (0 <=? s)%Z && (s <? 60)%Z)%bool eqn:E;
    [| discriminate].
  intros H; inversion H; subst.
  repeat rewrite Bool.andb_true_iff in E.
  destruct E as [[[[[E1 E2] E3] E4] E5] E6].
  apply Z.leb_le in E1, E3, E5. apply Z.ltb_lt in E2, E4, E6. lia.
Qed.

(** The report's conversion agrees with that of [SolarCalculations], up to the
    sub-second part of the report's date, which it keeps. *)
Lemma report_dftd_eq (r : Report.SolarReport)
  (self : SolarCalculations) (f : R)
  (Hd : Report.dtn_dt (Report.date r) = date self)
  (Hs : (0 <= ndt_secs (dt_local (date self)) < 86400)%Z) :
  Report.day_fraction_to_datetime r f
  = (d <- day_fraction_to_datetime self f ;;
     Ret (Report.mkDTN d (Report.dtn_nanos (Report.date r)))).
Proof.
  unfold Report.day_fraction_to_datetime, day_fraction_to_datetime.
  destruct (Report.date r) as [dd n]. cbn [Report.dtn_dt Report.dtn_nanos] in *. subst dd.
  destruct (date self) as [[day x] off]. cbn [dt_local ndt_secs] in Hs.
  destruct (Rlt_dec f 0); [| destruct (Rle_dec 1 f)];
    cbn [Report.dt_add_days Report.dtn_dt Report.dtn_nanos ndt_add_days dt_local dt_offset
         ndt_day ndt_secs];
    match goal with
    | |- (bind (naive_time_from_hms ?a ?b ?c) _) = _ =>
        destruct (naive_time_from_hms a b c) eqn:E; [| reflexivity]
    end;
    apply naive_time_from_hms_ret in E; destruct E as (Hh & Hm & Hs' & ->);
    cbn [bind]; apply with_hms_chain; assumption.
Qed.

(** X10.  [SolarReport::day_fraction_to_datetime], which sets the hour, minute
    and second of the report's date one by one, gives the date-time of
    [SolarCalculations::day_fraction_to_datetime] on the same date to the
    second, or the same panic; its sub-second part is that of the report's
    date, where [SolarCalculations] builds a time with none. *)
Theorem report_day_fraction_to_datetime_agrees (r : Report.SolarReport)
  (self : SolarCalculations) (f : R)
  (Hd : Report.dtn_dt (Report.date r) = date self)
  (Hs : (0 <= ndt_secs (dt_local (date self)) < 86400)%Z) :
  Report.day_fraction_to_datetime r f
  = (d <- day_fraction_to_datetime self f ;;
     Ret (Report.mkDTN d (Report.dtn_nanos (Report.date r)))).
Proof. exact (report_dftd_eq r self f Hd Hs). Qed.

(** X11.  [SolarReport::calculate_event_start_and_end] gives the dawn and dusk
    that [SolarCalculations::event_time] gives for the same date, coordinates,
    declination and noon: both present or both absent, for sunrise/sunset and
    each twilight type, and equal to the second, the report's carrying the
    sub-second part of its date. *)
Theorem report_event_start_and_end_agrees (r : Report.SolarReport)
  (self : SolarCalculations) (tt : option Report.TwilightType)
  (Hd : Report.dtn_dt (Report.date r) = date self)
  (Hc : Report.coordinates r = coordinates self)
  (Hs : (0 <= ndt_secs (dt_local (date self)) < 86400)%Z) :
  Report.calculate_event_start_and_end r tt (solar_noon_fraction self) (solar_declination self)
  = (start <- event_time self (Fixed (mkFixed (twilight_depression tt) Ascending)) ;;
     end_ <- event_time self (Fixed (mkFixed (twilight_depression tt) Descending)) ;;
     Ret (option_map (fun d => Report.mkDTN d (Report.dtn_nanos (Report.date r))) start,
          option_map (fun d => Report.mkDTN d (Report.dtn_nanos (Report.date r))) end_)).
Proof.
  assert (Ha : forall x, Report.calculate_hour_angle r tt x
    = f64_to_degrees
        (acos_f64 (cos (to_radians (twilight_depression tt + 90))
                   / (cos (to_radians_f64 (latitude (coordinates self))) * cos (to_radians_f64 x))
                   - tan (to_radians_f64 (latitude (coordinates self))) * tan (to_radians_f64 x)))).
  { intros x. unfold Report.calculate_hour_angle. rewrite Hc.
    destruct tt as [[| |]|]; cbn [twilight_depression];
      repeat f_equal; lra. }
  unfold Report.calculate_event_start_and_end, event_time, hour_angle.
  cbn [degrees_below_horizon solar_direction]. rewrite Ha.
  destruct (f64_to_degrees _) as [h|]; cbn [is_nan]; [| reflexivity].
  replace (h * 4 / 1440) with (h / 360) by (field; lra).
  rewrite !(report_dftd_eq r self) by assumption.
  destruct (day_fraction_to_datetime self (solar_noon_fraction self - h / 360)); [| reflexivity].
  cbn [bind]. destruct (day_fraction_to_datetime self (solar_noon_fraction self + h / 360));
    reflexivity.
Qed.

(** Reading back [HH:MM:SS]: two decimal digits per field. *)
Definition digit_value (c : ascii) : option Z :=
  let n := nat_of_ascii c in
  if ((48 <=? n)%nat && (n <=? 57)%nat)%bool then Some (Z.of_nat n - 48)%Z else None.

Definition read_hms (s : string) : option Z :=
  match s with
  | String h1 (String h0 (String ":" (String m1 (String m0 (String ":"
      (String s1 (String s0 EmptyString))))))) =>
      match digit_value h1, digit_value h0, digit_value m1, digit_value m0,
            digit_value s1, digit_value s0 with
      | Some a, Some b, Some c, Some d, Some e, Some f =>
          Some (3600 * (10 * a + b) + 60 * (10 * c + d) + 10 * e + f)%Z
      | _, _, _, _, _, _ => None
      end
  | _ => None
  end.

Lemma digit_value_char (k : Z) : (0 <= k < 10)%Z -> digit_value (Report.digit_char k) = Some k.
Proof.
  intros Hk. unfold digit_value, Report.digit_char.
  rewrite nat_ascii_embedding by lia.
  replace ((48 <=? 48 + Z.to_nat k)%nat && (48 + Z.to_nat k <=? 57)%nat)%bool with true.
  - f_equal. lia.
  - symmetry. apply Bool.andb_true_iff. split; apply Nat.leb_le; lia.
Qed.

Lemma fmt02_two_digits (n : Z) :
  (0 <= n < 100)%Z ->
  Report.fmt02 n = String (Report.digit_char (n / 10)) (String (Report.digit_char (n mod 10)) EmptyString).
Proof.
  intros Hn. unfold Report.fmt02, Report.decimal.
  replace (n <? 0)%Z with false by (symmetry; apply Z.ltb_ge; lia).
  destruct (Z.ltb_spec n 10).
  - cbn [Report.decimal_digits]. replace (n <? 10)%Z with true by (symmetry; apply Z.ltb_lt; lia).
    cbn. rewrite Z.div_small by lia. reflexivity.
  - cbn [Report.decimal_digits]. replace (n <? 10)%Z with false by (symmetry; apply Z.ltb_ge; lia).
    replace (n / 10 <? 10)%Z with true by (symmetry; apply Z.ltb_lt; apply Z.div_lt_upper_bound; lia).
    cbn. rewrite (Z.mod_small (n / 10) 10); [reflexivity |].
    split; [apply Z.div_pos; lia | apply Z.div_lt_upper_bound; lia].
Qed.

(** X12.  For a day length in [0, 100 hours), [day_length_hms] prints exactly
    eight characters [HH:MM:SS], from which the day length in seconds reads
    back. *)
Theorem day_length_hms_round_trip (r : Report.SolarReport) :
  (0 <= Report.day_length r < 360000)%Z ->
  String.length (Report.day_length_hms r) = 8%nat /\
  read_hms (Report.day_length_hms r) = Some (Report.day_length r).
Proof.
  intros Hd. unfold Report.day_length_hms.
  set (d := Report.day_length r) in *.
  assert (Q0 : Z.quot d 60 = (d / 60)%Z) by (apply Z.quot_div_nonneg; lia).
  assert (Q1 : Z.quot (Z.quot d 60) 60 = (d / 3600)%Z).
  { rewrite Q0, Z.quot_div_nonneg, Z.div_div by (try apply Z.div_pos; lia). reflexivity. }
  assert (Q2 : Z.rem (Z.quot d 60) 60 = ((d / 60) mod 60)%Z).
  { rewrite Q0. apply Z.rem_mod_nonneg; [apply Z.div_pos |]; lia. }
  assert (Q3 : Z.rem d 60 = (d mod 60)%Z) by (apply Z.rem_mod_nonneg; lia).
  rewrite Q1, Q2, Q3.
  assert (H1 : (0 <= d / 3600 < 100)%Z)
    by (split; [apply Z.div_pos | apply Z.div_lt_upper_bound]; lia).
  assert (H2 : (0 <= (d / 60) mod 60 < 100)%Z)
    by (pose proof (Z.mod_pos_bound (d / 60) 60); lia).
  assert (H3 : (0 <= d mod 60 < 100)%Z)
    by (pose proof (Z.mod_pos_bound d 60); lia).
  rewrite (fmt02_two_digits _ H1), (fmt02_two_digits _ H2), (fmt02_two_digits _ H3).
  split; [reflexivity |].
  cbn [String.append read_hms].
  rewrite !digit_value_char
    by (first [ split; [apply Z.div_pos | apply Z.div_lt_upper_bound]; lia
              | pose proof (Z.mod_pos_bound); apply Z.mod_pos_bound; lia ]).
  f_equal.
  pose proof (Z.div_mod d 60 ltac:(lia)). pose proof (Z.mod_pos_bound d 60 ltac:(lia)).
  pose proof (Z.div_mod (d / 60) 60 ltac:(lia)).
  pose proof (Z.mod_pos_bound (d / 60) 60 ltac:(lia)).
  assert (E : (d / 60 / 60 = d / 3600)%Z) by (rewrite Z.div_div by lia; reflexivity).
  pose proof (Z.div_mod (d / 3600) 10 ltac:(lia)). pose proof (Z.div_mod ((d / 60) mod 60) 10 ltac:(lia)).
  pose proof (Z.div_mod (d mod 60) 10 ltac:(lia)).
  lia.
Qed.

(** A report dated half a second past midnight. *)
Definition sample_report : Report.SolarReport :=
  Report.mkSolarReport (Report.mkDTN (mkDT (mkNDT 0 0) 0) 500000000) (mkCoordinates 0 0)
    (Report.mkDTN (mkDT (mkNDT 0 43200) 0) 500000000)
    43200%Z None None None None None None None None.

Lemma report_day_fraction_to_datetime_agrees_witness :
  Report.dtn_dt (Report.date sample_report) = date sample_calculations /\
  (0 <= ndt_secs (dt_local (date sample_calculations)) < 86400)%Z /\
  Report.day_fraction_to_datetime sample_report (1/2)
  = (d <- day_fraction_to_datetime sample_calculations (1/2) ;;
     Ret (Report.mkDTN d 500000000)).
Proof.
  split; [reflexivity |]. split; [cbn; lia |].
  apply report_day_fraction_to_datetime_agrees; [reflexivity | cbn; lia].
Defined.

Lemma report_event_start_and_end_agrees_witness :
  Report.dtn_dt (Report.date sample_report) = date sample_calculations /\
  Report.coordinates sample_report = coordinates sample_calculations /\
  (0 <= ndt_secs (dt_local (date sample_calculations)) < 86400)%Z /\
  Report.calculate_event_start_and_end sample_report None
    (solar_noon_fraction sample_calculations) (solar_declination sample_calculations)
  = (start <- event_time sample_calculations (Fixed (mkFixed (twilight_depression None) Ascending)) ;;
     end_ <- event_time sample_calculations (Fixed (mkFixed (twilight_depression None) Descending)) ;;
     Ret (option_map (fun d => Report.mkDTN d 500000000) start,
          option_map (fun d => Report.mkDTN d 500000000) end_)).
Proof.
  split; [reflexivity |]. split; [reflexivity |]. split; [cbn; lia |].
  apply report_event_start_and_end_agrees; [reflexivity | reflexivity | cbn; lia].
Defined.

Lemma day_length_hms_round_trip_witness :
  (0 <= Report.day_length sample_report < 360000)%Z /\
  String.length (Report.day_length_hms sample_report) = 8%nat /\
  read_hms (Report.day_length_hms sample_report) = Some (Report.day_length sample_report).
Proof.
  split; [cbn; lia |]. apply day_length_hms_round_trip. cbn; lia.
Defined.

(** ** Normalisation of event names *)

Module EnumsExtra.
Import Enums.

(** ** Facts of the lowercase table, checked entry by entry *)

Definition lower_fixed (x : Z) : bool :=
  match char_to_lower x with [y] => (y =? x)%Z | _ => false end.

Lemma table_outputs_fixed :
  forallb (fun kv => forallb lower_fixed (snd kv)) lowercase_table = true.
Proof. vm_compute. reflexivity. Qed.

Definition entry_ok (kv : Z * list Z) : bool :=
  negb (is_whitespace (fst kv)) &&
  match snd kv with [] => false | _ => true end &&
  forallb (fun x => negb (x =? 0x3A3)%Z && negb (is_whitespace x)) (snd kv).

Lemma table_entries_ok : forallb entry_ok lowercase_table = true.
Proof. vm_compute. reflexivity. Qed.

Lemma table_lookup_in (c : Z) (t : list (Z * list Z)) (v : list Z) :
  table_lookup c t = Some v -> In (c, v) t.
Proof.
  induction t as [| [k w] t IH]; simpl; [discriminate |].
  destruct (Z.eqb_spec k c) as [-> | _]; [intros [= ->]; left; reflexivity |].
  intros E. right. exact (IH E).
Qed.

Lemma table_entry (c : Z) (v : list Z) :
  table_lookup c lowercase_table = Some v ->
  is_whitespace c = false /\ v <> [] /\
  (forall x, In x v -> x <> 0x3A3%Z /\ is_whitespace x = false /\ char_to_lower x = [x]).
Proof.
  intros E. apply table_lookup_in in E.
  pose proof table_entries_ok as K. rewrite forallb_forall in K. specialize (K _ E).
  pose proof table_outputs_fixed as F. rewrite forallb_forall in F. specialize (F _ E).
  unfold entry_ok in K. cbn [fst snd] in K, F. rewrite forallb_forall in F.
  apply andb_true_iff in K as [K K3]. apply andb_true_iff in K as [K1 K2].
  rewrite forallb_forall in K3. apply negb_true_iff in K1.
  split; [exact K1 |]. split; [destruct v; discriminate |].
  intros x Hx. specialize (K3 x Hx). specialize (F x Hx).
  apply andb_true_iff in K3 as [K3 K4]. apply negb_true_iff in K3, K4.
  split; [apply Z.eqb_neq; exact K3 |]. split; [exact K4 |].
  unfold lower_fixed in F. destruct (char_to_lower x) as [| y [|]]; try discriminate.
  apply Z.eqb_eq in F. subst y. reflexivity.
Qed.

Lemma is_whitespace_cases (c : Z) :
  is_whitespace c = true -> (c = 0x20 \/ (0x9 <= c <= 0xD) \/ 0x7F < c)%Z.
Proof.
  unfold is_whitespace.
  destruct (Z.eqb_spec c 0x20), (Z.leb_spec 0x9 c), (Z.leb_spec c 0xD), (Z.ltb_spec 0x7F c);
    simpl; intros Hw; try discriminate Hw; lia.
Qed.

(** Every character of a lowercase mapping is its own lowercase. *)
Lemma char_to_lower_fixed (c x : Z) : In x (char_to_lower c) -> char_to_lower x = [x].
Proof.
  unfold char_to_lower at 1. destruct (c <? 128)%Z eqn:Hc.
  - apply Z.ltb_lt in Hc.
    destruct ((65 <=? c) && (c <=? 90))%Z eqn:Hu; simpl; intros [<- | []];
      apply andb_true_iff in Hu || apply andb_false_iff in Hu; unfold char_to_lower.
    + destruct Hu as [H1 H2]. apply Z.leb_le in H1, H2.
      replace (c + 32 <? 128)%Z with true by (symmetry; apply Z.ltb_lt; lia).
      replace ((65 <=? c + 32) && (c + 32 <=? 90))%Z with false; [reflexivity |].
      symmetry. apply andb_false_iff. right. apply Z.leb_gt. lia.
    + replace (c <? 128)%Z with true by (symmetry; apply Z.ltb_lt; lia).
      replace ((65 <=? c) && (c <=? 90))%Z with false; [reflexivity |].
      symmetry. apply andb_false_iff. exact Hu.
  - destruct (table_lookup c lowercase_table) as [v |] eqn:E.
    + intros Hx. apply (table_entry c v E). exact Hx.
    + intros [<- | []]. unfold char_to_lower. rewrite Hc, E. reflexivity.
Qed.

Lemma char_to_lower_not_sigma (c x : Z) :
  c <> 0x3A3%Z -> In x (char_to_lower c) -> x <> 0x3A3%Z.
Proof.
  intros Hs. unfold char_to_lower. destruct (c <? 128)%Z eqn:Hc.
  - apply Z.ltb_lt in Hc.
    destruct ((65 <=? c) && (c <=? 90))%Z eqn:Hu; simpl; intros [<- | []].
    + apply andb_true_iff in Hu as [H1 H2]. apply Z.leb_le in H1, H2. lia.
    + lia.
  - destruct (table_lookup c lowercase_table) as [v |] eqn:E.
    + intros Hx. apply (table_entry c v E). exact Hx.
    + intros [<- | []]. exact Hs.
Qed.

Lemma char_to_lower_whitespace (c : Z) : is_whitespace c = true -> char_to_lower c = [c].
Proof.
  intros Hw. unfold char_to_lower. destruct (c <? 128)%Z eqn:Hc.
  - destruct ((65 <=? c) && (c <=? 90))%Z eqn:Hu; [| reflexivity].
    apply andb_true_iff in Hu as [H1 H2]. apply Z.leb_le in H1, H2.
    apply Z.ltb_lt in Hc. apply is_whitespace_cases in Hw. lia.
  - destruct (table_lookup c lowercase_table) as [v |] eqn:E; [| reflexivity].
    destruct (table_entry c v E) as [Hn _]. congruence.
Qed.

Lemma char_to_lower_nonws (c : Z) :
  is_whitespace c = false ->
  char_to_lower c <> [] /\ forall x, In x (char_to_lower c) -> is_whitespace x = false.
Proof.
  intros Hw. unfold char_to_lower. destruct (c <? 128)%Z eqn:Hc.
  - split; [discriminate |]. simpl. intros x [<- | []].
    destruct ((65 <=? c) && (c <=? 90))%Z eqn:Hu; [| exact Hw].
    apply andb_true_iff in Hu as [H1 H2]. apply Z.leb_le in H1, H2.
    destruct (is_whitespace (c + 32)) eqn:Hx; [| reflexivity].
    apply is_whitespace_cases in Hx. lia.
  - destruct (table_lookup c lowercase_table) as [v |] eqn:E.
    + destruct (table_entry c v E) as (_ & Hv & Hx). split; [exact Hv |].
      intros x Ix. apply (Hx x Ix).
    + split; [discriminate |]. intros x [<- | []]. exact Hw.
Qed.

(** ** Lists *)

Lemma forallb_rev {A} (f : A -> bool) (l : list A) : forallb f (rev l) = forallb f l.
Proof.
  induction l as [| x l IH]; simpl; [reflexivity |].
  rewrite forallb_app, IH. simpl. rewrite andb_true_r, andb_comm. reflexivity.
Qed.

Lemma trim_start_whitespace_prefix (p l : str) :
  forallb is_whitespace p = true -> trim_start (p ++ l) = trim_start l.
Proof.
  induction p as [| c p IH]; simpl; [reflexivity |].
  intros H. apply andb_true_iff in H as [Hc Hp]. rewrite Hc. auto.
Qed.

Lemma trim_start_app (l q : str) :
  trim_start (l ++ q) = match trim_start l with [] => trim_start q | t => t ++ q end.
Proof.
  induction l as [| c l IH]; simpl; [reflexivity |].
  destruct (is_whitespace c); [exact IH | reflexivity].
Qed.

Lemma trim_start_all_whitespace (q : str) :
  forallb is_whitespace q = true -> trim_start q = [].
Proof.
  induction q as [| c q IH]; simpl; [reflexivity |].
  intros H. apply andb_true_iff in H as [-> Hq]. auto.
Qed.

Lemma trim_start_nonws (c : Z) (t : str) :
  is_whitespace c = false -> trim_start (c :: t) = c :: t.
Proof. intros H. simpl. rewrite H. reflexivity. Qed.

(** Surrounding whitespace does not change [trim]. *)
Lemma trim_pad (p l q : str) :
  forallb is_whitespace p = true -> forallb is_whitespace q = true ->
  trim (p ++ l ++ q) = trim l.
Proof.
  intros Hp Hq. unfold trim.
  rewrite trim_start_whitespace_prefix by exact Hp.
  rewrite trim_start_app.
  destruct (trim_start l) as [| c t] eqn:E.
  - rewrite (trim_start_all_whitespace q Hq). reflexivity.
  - rewrite rev_app_distr, trim_start_whitespace_prefix; [reflexivity |].
    rewrite forallb_rev. exact Hq.
Qed.

(** A string is whitespace, its trimmed part, whitespace; the trimmed part is
    empty or begins and ends with other characters. *)
Definition bounded (m : str) : Prop :=
  m = [] \/
  ((exists c t, m = c :: t /\ is_whitespace c = false) /\
   (exists t d, m = t ++ [d] /\ is_whitespace d = false)).

Lemma trim_start_split (s : str) :
  exists p, s = p ++ trim_start s /\ forallb is_whitespace p = true /\
    (trim_start s = [] \/ exists c t, trim_start s = c :: t /\ is_whitespace c = false).
Proof.
  induction s as [| c s IH].
  - exists []. simpl. auto.
  - simpl. destruct (is_whitespace c) eqn:Hc.
    + destruct IH as (p & Ep & Hp & Ht). exists (c :: p). simpl. rewrite Hc, <- Ep.
      auto.
    + exists []. simpl. split; [reflexivity |]. split; [reflexivity |].
      right. exists c, s. auto.
Qed.

Lemma trim_split (s : str) :
  exists p q, s = p ++ trim s ++ q /\ forallb is_whitespace p = true /\
    forallb is_whitespace q = true /\ bounded (trim s).
Proof.
  destruct (trim_start_split s) as (p & Ep & Hp & Hu).
  set (u := trim_start s) in *.
  destruct (trim_start_split (rev u)) as (q' & Eq & Hq & Hv).
  set (v := trim_start (rev u)) in *.
  assert (Eu : u = rev v ++ rev q').
  { rewrite <- rev_app_distr, <- Eq, rev_involutive. reflexivity. }
  exists p, (rev q'). unfold trim. fold u. fold v.
  split; [rewrite Ep at 1; rewrite Eu; reflexivity |].
  split; [exact Hp |]. split; [rewrite forallb_rev; exact Hq |].
  destruct Hv as [Ev | (d & t & Ev & Hd)]; [left; rewrite Ev; reflexivity |].
  right. split.
  - destruct Hu as [Eu0 | (c & t' & Eu0 & Hc)].
    + exfalso. rewrite Eu0 in Eu. rewrite Ev in Eu. simpl in Eu.
      destruct (rev t); discriminate.
    + assert (Ef : exists x y, rev t ++ [d] = x :: y).
      { destruct (rev t) as [| x y]; [exists d, [] | exists x, (y ++ [d])]; reflexivity. }
      destruct Ef as (x & y & Exy).
      rewrite Ev in Eu. cbn [rev] in Eu. rewrite Exy, Eu0 in Eu. simpl in Eu.
      injection Eu as Ecx _. subst x.
      rewrite Ev. cbn [rev]. rewrite Exy. exists c, y. auto.
  - rewrite Ev. simpl. exists (rev t), d. auto.
Qed.

Lemma trim_bounded (m : str) : bounded m -> trim m = m.
Proof.
  intros [-> | ((c & t & Ec & Hc) & (t' & d & Ed & Hd))]; [reflexivity |].
  unfold trim.
  assert (E1 : trim_start m = m) by (rewrite Ec; apply trim_start_nonws; exact Hc).
  rewrite E1, Ed, rev_app_distr. simpl. rewrite Hd. simpl. rewrite rev_involutive.
  reflexivity.
Qed.

Lemma flat_map_fixed (f : Z -> list Z) (l : list Z) :
  (forall x, In x l -> f x = [x]) -> flat_map f l = l.
Proof.
  induction l as [| x l IH]; simpl; [reflexivity |].
  intros H. rewrite H by (left; reflexivity). simpl. f_equal. apply IH. auto.
Qed.

(** ** Lower-casing with the context of each character *)

Section Invariance.

Variables Cased Case_Ignorable : Z -> bool.

(** The lowercase of [c] between [before] and [after]. *)
Definition lower_at (before : str) (c : Z) (after : str) : str :=
  if (c =? 0x3A3)%Z then [map_uppercase_sigma Cased Case_Ignorable before after]
  else char_to_lower c.

(** The lowercase of the characters [s] between [before] and [after]. *)
Fixpoint lower_ctx (before s after : str) : str :=
  match s with
  | [] => []
  | c :: s' => lower_at before c (s' ++ after) ++ lower_ctx (before ++ [c]) s' after
  end.

Lemma to_lowercase_from_ctx (b s : str) :
  to_lowercase_from Cased Case_Ignorable b s = lower_ctx b s [].
Proof.
  revert b. induction s as [| c s IH]; intros b; simpl; [reflexivity |].
  rewrite app_nil_r, IH. reflexivity.
Qed.

Lemma lower_ctx_app (b s1 s2 a : str) :
  lower_ctx b (s1 ++ s2) a = lower_ctx b s1 (s2 ++ a) ++ lower_ctx (b ++ s1) s2 a.
Proof.
  revert b. induction s1 as [| c s1 IH]; intros b; simpl.
  - rewrite app_nil_r. reflexivity.
  - rewrite IH, <- !app_assoc. reflexivity.
Qed.

Lemma sigma_output (b a : str) :
  let x := map_uppercase_sigma Cased Case_Ignorable b a in
  x <> 0x3A3%Z /\ is_whitespace x = false /\ char_to_lower x = [x].
Proof.
  unfold map_uppercase_sigma.
  destruct (_ && _); (split; [discriminate |]); split; vm_compute; reflexivity.
Qed.

Lemma lower_at_fixed (b : str) (c : Z) (a : str) (x : Z) :
  In x (lower_at b c a) -> x <> 0x3A3%Z /\ char_to_lower x = [x].
Proof.
  unfold lower_at. destruct (Z.eqb_spec c 0x3A3) as [Hs | Hs].
  - intros [<- | []]. destruct (sigma_output b a) as (H1 & _ & H3). split; assumption.
  - intros Hx. split; [exact (char_to_lower_not_sigma c x Hs Hx) |].
    exact (char_to_lower_fixed c x Hx).
Qed.

Lemma lower_ctx_fixed (b s a : str) (x : Z) :
  In x (lower_ctx b s a) -> x <> 0x3A3%Z /\ char_to_lower x = [x].
Proof.
  revert b. induction s as [| c s IH]; intros b; simpl; [intros [] |].
  intros Hx. apply in_app_or in Hx as [Hx | Hx]; [exact (lower_at_fixed _ _ _ _ Hx) |].
  exact (IH _ Hx).
Qed.

Lemma lower_ctx_no_sigma (b s a : str) :
  (forall x, In x s -> x <> 0x3A3%Z) -> lower_ctx b s a = flat_map char_to_lower s.
Proof.
  revert b. induction s as [| c s IH]; intros b Hs; simpl; [reflexivity |].
  unfold lower_at. destruct (Z.eqb_spec c 0x3A3) as [E | _].
  - exfalso. apply (Hs c); [left; reflexivity | exact E].
  - f_equal. apply IH. intros x Hx. apply Hs. right. exact Hx.
Qed.

(** Lower-casing twice is lower-casing once. *)
Lemma to_lowercase_idem (s : str) :
  to_lowercase Cased Case_Ignorable (to_lowercase Cased Case_Ignorable s)
  = to_lowercase Cased Case_Ignorable s.
Proof.
  unfold to_lowercase at 1. rewrite to_lowercase_from_ctx.
  unfold to_lowercase. rewrite to_lowercase_from_ctx.
  rewrite lower_ctx_no_sigma by (intros x Hx; apply (lower_ctx_fixed _ _ _ _ Hx)).
  apply flat_map_fixed. intros x Hx. apply (lower_ctx_fixed _ _ _ _ Hx).
Qed.

Lemma lower_ctx_whitespace (b p a : str) :
  forallb is_whitespace p = true -> lower_ctx b p a = p.
Proof.
  revert b. induction p as [| w p IH]; intros b Hp; simpl; [reflexivity |].
  simpl in Hp. apply andb_true_iff in Hp as [Hw Hp].
  unfold lower_at. destruct (Z.eqb_spec w 0x3A3) as [-> | _]; [discriminate Hw |].
  rewrite char_to_lower_whitespace by exact Hw. simpl. f_equal. apply IH. exact Hp.
Qed.

Lemma lower_at_nonws (b : str) (c : Z) (a : str) :
  is_whitespace c = false ->
  lower_at b c a <> [] /\ forall x, In x (lower_at b c a) -> is_whitespace x = false.
Proof.
  intros Hc. unfold lower_at. destruct (c =? 0x3A3)%Z.
  - split; [discriminate |]. intros x [<- | []]. apply (sigma_output b a).
  - exact (char_to_lower_nonws c Hc).
Qed.

(** The whitespace characters are neither cased nor case-ignorable (White_Space
    has no letter, mark, format character or word-internal punctuation). *)
Hypothesis whitespace_not_cased : forall c, is_whitespace c = true -> Cased c = false.
Hypothesis whitespace_not_case_ignorable :
  forall c, is_whitespace c = true -> Case_Ignorable c = false.

Lemma citc_whitespace_suffix (l r : str) :
  forallb is_whitespace r = true ->
  case_ignorable_then_cased Cased Case_Ignorable (l ++ r)
  = case_ignorable_then_cased Cased Case_Ignorable l.
Proof.
  intros Hr. induction l as [| c l IH]; simpl.
  - destruct r as [| w r]; simpl; [reflexivity |].
    simpl in Hr. apply andb_true_iff in Hr as [Hw _].
    rewrite whitespace_not_case_ignorable, whitespace_not_cased by exact Hw. reflexivity.
  - destruct (Case_Ignorable c); [exact IH | reflexivity].
Qed.

Lemma lower_at_pad (p b : str) (c : Z) (a q : str) :
  forallb is_whitespace p = true -> forallb is_whitespace q = true ->
  lower_at (p ++ b) c (a ++ q) = lower_at b c a.
Proof.
  intros Hp Hq. unfold lower_at, map_uppercase_sigma.
  rewrite rev_app_distr, !citc_whitespace_suffix; [reflexivity | exact Hq |].
  rewrite forallb_rev. exact Hp.
Qed.

Lemma lower_ctx_pad (p b m a q : str) :
  forallb is_whitespace p = true -> forallb is_whitespace q = true ->
  lower_ctx (p ++ b) m (a ++ q) = lower_ctx b m a.
Proof.
  intros Hp Hq. revert b. induction m as [| c m IH]; intros b; simpl; [reflexivity |].
  rewrite app_assoc, lower_at_pad by assumption.
  rewrite <- app_assoc, IH. reflexivity.
Qed.

(** Lower-casing keeps the surrounding whitespace and nothing else. *)
Lemma to_lowercase_trim (s : str) :
  trim (to_lowercase Cased Case_Ignorable s) = to_lowercase Cased Case_Ignorable (trim s).
Proof.
  destruct (trim_split s) as (p & q & Es & Hp & Hq & Hm).
  set (m := trim s) in *.
  assert (E : to_lowercase Cased Case_Ignorable s
              = p ++ to_lowercase Cased Case_Ignorable m ++ q).
  { unfold to_lowercase. rewrite !to_lowercase_from_ctx. rewrite Es at 1.
    rewrite !lower_ctx_app, (lower_ctx_whitespace _ p _ Hp), (lower_ctx_whitespace _ q _ Hq).
    assert (Em : lower_ctx (p ++ []) m ([] ++ q) = lower_ctx [] m [])
      by (apply lower_ctx_pad; assumption).
    rewrite app_nil_r in Em. cbn [app] in Em. cbn [app]. rewrite !app_nil_r, Em.
    reflexivity. }
  rewrite E, trim_pad by assumption.
  apply trim_bounded.
  destruct Hm as [-> | ((c & t & Ec & Hc) & (t' & d & Ed & Hd))]; [left; reflexivity |].
  right. split.
  - unfold to_lowercase. rewrite to_lowercase_from_ctx, Ec. simpl.
    destruct (lower_at_nonws [] c (t ++ []) Hc) as [Hn Hx].
    destruct (lower_at [] c (t ++ [])) as [| x y]; [congruence |].
    exists x, (y ++ lower_ctx [c] t []). split; [reflexivity |]. apply Hx. left. reflexivity.
  - unfold to_lowercase. rewrite to_lowercase_from_ctx, Ed, lower_ctx_app. simpl.
    rewrite app_nil_r.
    destruct (lower_at_nonws t' d [] Hd) as [Hn Hx].
    destruct (exists_last Hn) as (y & x & Ey).
    exists (lower_ctx [] t' [d] ++ y), x. rewrite Ey, app_assoc. split; [reflexivity |].
    apply Hx. rewrite Ey. apply in_or_app. right. left. reflexivity.
Qed.

Lemma new_normalised_name (s t : str) (alt : option R) :
  to_lowercase Cased Case_Ignorable (trim s) = to_lowercase Cased Case_Ignorable (trim t) ->
  new Cased Case_Ignorable s alt = new Cased Case_Ignorable t alt.
Proof. intros E. unfold new. rewrite E. reflexivity. Qed.

(** X13.  When no whitespace character is cased or case-ignorable (as in
    Unicode), [Event::new] gives the same result for a name and its
    lower-cased form, and for a name padded with whitespace on either side. *)
Theorem event_new_whitespace_and_case_invariant (s pre post : str) (alt : option R) :
  new Cased Case_Ignorable (to_lowercase Cased Case_Ignorable s) alt
  = new Cased Case_Ignorable s alt /\
  (forallb is_whitespace pre = true -> forallb is_whitespace post = true ->
   new Cased Case_Ignorable (pre ++ s ++ post) alt = new Cased Case_Ignorable s alt).
Proof.
  split.
  - apply new_normalised_name. rewrite to_lowercase_trim, to_lowercase_idem. reflexivity.
  - intros Hp Hq. apply new_normalised_name. rewrite trim_pad by assumption. reflexivity.
Qed.

End Invariance.

Lemma event_new_whitespace_and_case_invariant_witness :
  forallb is_whitespace [0xA0%Z] = true /\ forallb is_whitespace [0x3000%Z] = true /\
  new (fun _ => false) (fun _ => false) ([0xA0] ++ lit "Sunrise" ++ [0x3000])%Z None
  = new (fun _ => false) (fun _ => false) (lit "Sunrise") None.
Proof.
  split; [reflexivity |]. split; [reflexivity |].
  apply (proj2 (event_new_whitespace_and_case_invariant (fun _ => false) (fun _ => false)
    (fun _ _ => eq_refl) (fun _ _ => eq_refl) (lit "Sunrise") [0xA0%Z] [0x3000%Z] None));
    reflexivity.
Defined.

End EnumsExtra.
